(** * NAUTILUS navigation (desdeo_mcdm/interactive/Nautilus.py)

    A shallow embedding of the epsilon-constraint helper, the response
    validators, the request classes and the [Nautilus] method object,
    followed by the properties of the navigation loop.

    Numbers.  Python [int]s are [Z].  numpy float64 values are idealised
    as real numbers ([R]): a finite float64 result stands for the real
    number it rounds.  The two places where the source divides
    ([calculate_preference_factors], [calculate_distance]) return
    [npfloat], which keeps numpy's [inf]/[nan] outcome (a zero divisor, a
    result too large for a float64) apart from a finite value.  Rounding
    inside sums, products and norms is not modelled: the properties whose
    outcome rounding could change are stated for inputs that are clear of
    it ([float64_safe], [whole_percentages], [sum_clearly_not_100]).
    Python exceptions are the [Raise] outcome of [result]; a
    method of [Nautilus] runs in the state-and-exception monad [M], which
    keeps the mutations made before a raise, as Python does. *)

From Stdlib Require Import String DecimalString.
From Stdlib Require Import Reals ZArith List Lra Lia Bool.
Import ListNotations.

Set Implicit Arguments.

Open Scope Z_scope.

(** ** Exceptions and results *)

(** The messages of [NautilusException], in the order of the source's
    [raise] statements. *)
Inductive NautilusMsg : Type :=
| MsgNIterationsMissing        (* "'n_iterations' entry missing" *)
| MsgStepBackFirst             (* "Cannot take a step back on first iteration." *)
| MsgUsePreviousFirst          (* "Cannot use previous preferences on first iteration." *)
| MsgPreferenceMethodMissing   (* "'preference_method entry missing" *)
| MsgPreferenceInfoMissing     (* "'preference_info entry missing" *)
| MsgPreferenceMethodInvalid   (* "please specify either preference method 1 (rank) or 2 (percentages)." *)
| MsgRankCount                 (* "Number of ranks ({}) do not match the number of objectives '({})." *)
| MsgRankRange                 (* "The minimum index of importance must be greater or equal " *)
| MsgPercentageCount           (* "Number of given percentages ({}) do not match ..." *)
| MsgPercentageSum             (* "The sum of the percentages must be 100. Current sum is {}." *)
| MsgIterationsNotPositive     (* "The given number of iterations left should be a positive integer ..." *)
| MsgDimensionMismatch         (* "The dimensions of the ideal and nadir point do not match." *)
| MsgObjectiveNamesLength      (* "The supplied objective names must have a leangth equal to the numbr of objectives." *)
| MsgMinimizeLength.           (* "The minimize list must have as many elements as there are objectives." *)

Inductive exn : Type :=
| NautilusException (msg : NautilusMsg)
| ECMError
| KeyError (key : string)
| IndexError
| TypeError
| ValueError
| ZeroDivisionError
| ExternalError (tag : string).

Inductive result (A : Type) : Type :=
| Ok (a : A)
| Raise (e : exn).
Arguments Ok {A} a.
Arguments Raise {A} e.

Definition rbind {A B : Type} (r : result A) (k : A -> result B) : result B :=
  match r with
  | Ok a => k a
  | Raise e => Raise e
  end.

Definition rmap {A B : Type} (f : A -> B) (r : result A) : result B :=
  rbind r (fun a => Ok (f a)).

Declare Scope result_scope.
Delimit Scope result_scope with result.
Notation "x <- r ;; k" := (rbind r (fun x => k))
  (at level 61, r at next level, right associativity) : result_scope.

(** ** Python lists: indexing and item assignment *)

Definition len {A : Type} (l : list A) : Z := Z.of_nat (length l).

(** [l[i]] with Python's negative indices. *)
Definition py_index {A : Type} (l : list A) (i : Z) : option nat :=
  if (0 <=? i) && (i <? len l) then Some (Z.to_nat i)
  else if (i <? 0) && (0 <=? i + len l) then Some (Z.to_nat (i + len l))
  else None.

Definition py_getitem {A : Type} (l : list A) (i : Z) : result A :=
  match py_index l i with
  | Some n => match nth_error l n with
              | Some a => Ok a
              | None => Raise IndexError
              end
  | None => Raise IndexError
  end.

Fixpoint list_update {A : Type} (l : list A) (n : nat) (a : A) : list A :=
  match l, n with
  | [], _ => []
  | _ :: t, O => a :: t
  | h :: t, S n' => h :: list_update t n' a
  end.

Definition py_setitem {A : Type} (l : list A) (i : Z) (a : A) : result (list A) :=
  match py_index l i with
  | Some n => Ok (list_update l n a)
  | None => Raise IndexError
  end.

(** [[a] * n]: empty when [n <= 0]. *)
Definition py_repeat {A : Type} (a : A) (n : Z) : list A := repeat a (Z.to_nat n).

(** [enumerate(l)]. *)
Definition enumerate {A : Type} (l : list A) : list (Z * A) :=
  combine (map Z.of_nat (seq 0 (length l))) l.

(** ** numpy vectors *)

Definition vec : Type := list R.

(** A float64 produced by a division: finite, or [inf]/[nan]. *)
Inductive npfloat : Type :=
| Finite (r : R)
| NonFinite.

Open Scope R_scope.

(** The magnitude from which a float64 result is [inf]:
    [2^1024 - 2^970], halfway between the largest float64 and [2^1024]
    (round to nearest, ties to even). *)
Definition float64_overflow : R := IZR (2 ^ 1024 - 2 ^ 970).

(** [a / b] on float64 scalars and arrays: a zero divisor gives [inf] or
    [nan] (with a RuntimeWarning), never an exception, and a quotient of
    magnitude [float64_overflow] or more gives [inf].  A finite result
    is the quotient, of which the float64 is the rounding (zero when it
    is too small for a float64). *)
Definition np_div (a b : R) : npfloat :=
  if Req_dec_T b 0 then NonFinite
  else if Rle_dec float64_overflow (Rabs (a / b)) then NonFinite
  else Finite (a / b).

(** [x * c]: [inf] and [nan] stay what they are, and a product of
    magnitude [float64_overflow] or more is [inf]. *)
Definition np_mul (x : npfloat) (c : R) : npfloat :=
  match x with
  | Finite r => if Rle_dec float64_overflow (Rabs (r * c)) then NonFinite else Finite (r * c)
  | NonFinite => NonFinite
  end.

(** A magnitude, [2^500], up to which and down to whose inverse the
    float64 operations of this module neither overflow nor underflow:
    squares stay within [2^-1000, 2^1000], and so do the quotients of two
    such numbers. *)
Definition float64_safe : R := IZR (2 ^ 500).

(** [c * v] for a Python float [c] and an array [v]. *)
Definition np_scale (c : R) (v : vec) : vec := map (Rmult c) v.

Fixpoint zip_with {A B C : Type} (f : A -> B -> C) (a : list A) (b : list B) : list C :=
  match a, b with
  | x :: a', y :: b' => f x y :: zip_with f a' b'
  | _, _ => []
  end.

(** An element-wise operation on two 1-d arrays, with numpy's
    broadcasting of a one-element array; other length mismatches raise
    ValueError. *)
Definition np_binop (f : R -> R -> R) (a b : vec) : result vec :=
  if Nat.eqb (length a) (length b) then Ok (zip_with f a b)
  else match a, b with
       | [x], _ => Ok (map (f x) b)
       | _, [y] => Ok (map (fun x => f x y) a)
       | _, _ => Raise ValueError
       end.

Definition np_add : vec -> vec -> result vec := np_binop Rplus.
Definition np_sub : vec -> vec -> result vec := np_binop Rminus.

(** [np.sum]: the sum of the entries, of which numpy's result is the
    float64 rounding (exact for an array of Python ints, and for whole
    numbers of moderate size). *)
Definition np_sum (v : vec) : R := fold_right Rplus 0 v.

(** [np.linalg.norm(v, ord=2)]: the Euclidean norm, of which numpy's
    result is the rounding as long as the squares of the entries neither
    overflow nor all underflow. *)
Definition norm2 (v : vec) : R := sqrt (np_sum (map (fun x => x * x) v)).

(** Percentages whose float64 sum is their sum: at most 1024 whole
    numbers of magnitude at most [2^40]. *)
Definition whole_percentages (info : vec) : Prop :=
  (length info <= 1024)%nat
  /\ Forall (fun p => exists k : Z, p = IZR k /\ (Z.abs k <= 2 ^ 40)%Z) info.

(** Percentages whose sum is further from 100 than the rounding of a
    float64 sum can bridge: at most 1024 entries of magnitude at most
    [2^50], and a distance to 100 of more than [2^-40] times the sum of
    the magnitudes.  (The rounding error of the float64 sum of [n]
    numbers is below [n * 2^-52] times the sum of their magnitudes.) *)
Definition sum_clearly_not_100 (info : vec) : Prop :=
  (length info <= 1024)%nat
  /\ Forall (fun p => Rabs p <= IZR (2 ^ 50)) info
  /\ np_sum (map Rabs info) < IZR (2 ^ 40) * Rabs (np_sum info - 100).

Open Scope Z_scope.

(** ** Helpers for Python values *)

(** [d[key]] on a dict whose entry may be absent. *)
Definition getkey {A : Type} (key : string) (entry : option A) : result A :=
  match entry with
  | Some a => Ok a
  | None => Raise (KeyError key)
  end.

(** [key in d]. *)
Definition has_key {A : Type} (entry : option A) : bool :=
  match entry with
  | Some _ => true
  | None => false
  end.

(** A value used where a number or an array is needed: [None] raises
    TypeError at the first arithmetic operation. *)
Definition not_none {A : Type} (v : option A) : result A :=
  match v with
  | Some a => Ok a
  | None => Raise TypeError
  end.

Definition Rleb (a b : R) : bool := if Rle_dec a b then true else false.
Definition Reqb (a b : R) : bool := if Req_dec_T a b then true else false.

(** [max(l)] of a non-empty sequence; ValueError on an empty one. *)
Definition py_max (l : vec) : result R :=
  match l with
  | [] => Raise ValueError
  | x :: t => Ok (fold_left Rmax t x)
  end.

Fixpoint zip_with3 {A B C D : Type} (f : A -> B -> C -> D)
         (a : list A) (b : list B) (c : list C) : list D :=
  match a, b, c with
  | x :: a', y :: b', z :: c' => f x y z :: zip_with3 f a' b' c'
  | _, _, _ => []
  end.

(** ** Epsilon constraint method *)

Record EpsilonConstraintMethod : Type := mkEpsilonConstraintMethod {
  objectives : vec -> vec;             (* [self.objectives(xs)[0]] *)
  _to_be_minimized : Z;
  epsilons : vec;
  constraints : option (vec -> vec)
}.

(** [[v for i, v in enumerate(l) if i != t]]. *)
Definition without_index {A : Type} (t : Z) (l : list A) : list A :=
  map snd (filter (fun p => negb (fst p =? t)) (enumerate l)).

Definition evaluate_constraints (self : EpsilonConstraintMethod) (xs : vec) : result vec :=
  let epsilon_left_side := without_index (_to_be_minimized self) (objectives self xs) in
  if negb (Nat.eqb (length epsilon_left_side) (length (epsilons self)))
  then Raise ECMError
  else
    let e := zip_with (fun f v => (- (f - v))%R) epsilon_left_side (epsilons self) in
    match constraints self with
    | Some constraints_fn => let c := constraints_fn xs in Ok (c ++ e)
    | None => Ok e
    end.

(** [EpsilonConstraintMethod.__call__]: [objective_vector[0][self._to_be_minimized]]. *)
Definition ecm_call (self : EpsilonConstraintMethod) (objective_vector : vec) : result R :=
  py_getitem objective_vector (_to_be_minimized self).

(** ** Response validation *)

(** The decision maker's response dict; an absent key is [None]. *)
Record Response : Type := mkResponse {
  n_iterations : option Z;
  step_back : option bool;
  short_step : option bool;
  use_previous_preference : option bool;
  preference_method : option Z;
  preference_info : option vec
}.

Definition validate_preferences (n_objectives : Z) (response : Response) : result unit :=
  match preference_method response, preference_info response with
  | None, _ => Raise (NautilusException MsgPreferenceMethodMissing)
  | Some _, None => Raise (NautilusException MsgPreferenceInfoMissing)
  | Some method, Some info =>
    if negb ((method =? 1) || (method =? 2))
    then Raise (NautilusException MsgPreferenceMethodInvalid)
    else if method =? 1 then
      if len info <? n_objectives then Raise (NautilusException MsgRankCount)
      else (m <- py_max info ;;
            if negb (Rleb 1 m && Rleb m (IZR n_objectives))
            then Raise (NautilusException MsgRankRange)
            else Ok tt)%result
    else if method =? 2 then
      if len info <? n_objectives then Raise (NautilusException MsgPercentageCount)
      else if negb (Reqb (np_sum info) 100)
           then Raise (NautilusException MsgPercentageSum)
           else Ok tt
    else Ok tt
  end.

(** [n_it] is a Python int here, so only the sign test of the source
    remains. *)
Definition validate_n_iterations (n_it : Z) : result unit :=
  if n_it <? 1 then Raise (NautilusException MsgIterationsNotPositive) else Ok tt.

Definition validate_response (n_objectives : Z) (response : Response)
           (first_iteration_bool : bool) : result unit :=
  (_ <- (if first_iteration_bool then
           if negb (has_key (n_iterations response))
           then Raise (NautilusException MsgNIterationsMissing)
           else if has_key (step_back response)
           then Raise (NautilusException MsgStepBackFirst)
           else if has_key (use_previous_preference response)
           then Raise (NautilusException MsgUsePreviousFirst)
           else validate_preferences n_objectives response
         else
           upp <- getkey "use_previous_preference" (use_previous_preference response) ;;
           if negb upp then validate_preferences n_objectives response else Ok tt) ;;
   match n_iterations response with
   | Some n_it => validate_n_iterations n_it
   | None => Ok tt
   end)%result.

(** ** Requests *)

Record InitialContent : Type := mkInitialContent {
  initial_ideal : vec;
  initial_nadir : vec
}.

Record IterationContent : Type := mkIterationContent {
  content_ideal : vec;
  content_nadir : vec;
  content_n_iterations : option Z;
  content_lower_bounds : option (list (option R));
  content_upper_bounds : option vec;
  content_distance : option npfloat
}.

Record StopContent : Type := mkStopContent {
  message : string;
  solution : option vec;
  objective_vector : option vec
}.

(** The three request classes; the last argument of the first two is
    [_response], [None] until the setter has accepted a response.  The
    prompt texts of the first two classes are constant and left out. *)
Inductive Request : Type :=
| InitialRequestObj (n_objectives : Z) (content : InitialContent) (_response : option Response)
| RequestObj (n_objectives : Z) (content : IterationContent) (_response : option Response)
| StopRequestObj (content : StopContent).

Definition NautilusInitialRequest (ideal nadir : vec) : Request :=
  InitialRequestObj (len ideal) (mkInitialContent ideal nadir) None.

Definition NautilusRequest (ideal nadir : vec) (n_iterations : option Z)
           (lower_bounds : option (list (option R))) (upper_bounds : option vec)
           (distance : option npfloat) : Request :=
  RequestObj (len ideal)
             (mkIterationContent ideal nadir n_iterations lower_bounds upper_bounds distance)
             None.

Definition NautilusStopRequest (x_h f_h : option vec) : Request :=
  StopRequestObj (mkStopContent "Final solution found." x_h f_h).

(** [request.response]: the stored response. *)
Definition response (request : Request) : option Response :=
  match request with
  | InitialRequestObj _ _ r => r
  | RequestObj _ _ r => r
  | StopRequestObj _ => None
  end.

(** [NautilusInitialRequest.response] setter. *)
Definition NautilusInitialRequest_set_response (n_objectives : Z) (content : InitialContent)
           (old : option Response) (response : Response) : result unit * Request :=
  match validate_response n_objectives response true with
  | Ok _ => (Ok tt, InitialRequestObj n_objectives content (Some response))
  | Raise e => (Raise e, InitialRequestObj n_objectives content old)
  end.

(** [NautilusRequest.response] setter. *)
Definition NautilusRequest_set_response (n_objectives : Z) (content : IterationContent)
           (old : option Response) (response : Response) : result unit * Request :=
  match validate_response n_objectives response false with
  | Ok _ => (Ok tt, RequestObj n_objectives content (Some response))
  | Raise e => (Raise e, RequestObj n_objectives content old)
  end.

(** [req.response = response], dispatched on the class of [req].  The
    stop request has the setter of the base class, which is outside this
    module; it is modelled as storing nothing. *)
Definition set_response (req : Request) (response : Response) : result unit * Request :=
  match req with
  | InitialRequestObj n c old => NautilusInitialRequest_set_response n c old response
  | RequestObj n c old => NautilusRequest_set_response n c old response
  | StopRequestObj c => (Ok tt, StopRequestObj c)
  end.

(** ** External collaborators *)

(** The problem object: [evaluate(x).objectives[0]],
    [evaluate(x).constraints] and the variable bounds. *)
Record MOProblem : Type := mkMOProblem {
  evaluate_objectives : vec -> vec;
  evaluate_constraints_of : vec -> vec;
  get_variable_bounds : option (list vec);
  get_variable_upper_bounds : vec
}.

Inductive ScalarMethod : Type :=
| NamedMethod (name : string).

(** The dict returned by [ScalarMinimizer.minimize]. *)
Record SolverResult : Type := mkSolverResult {
  result_x : vec;
  result_fun : R;
  result_success : bool
}.

(** The classes imported from desdeo_tools.  [ReferencePointASF]
    builds the achievement function, called as
    [asf(objective_vector, reference_point)]; [ScalarMinimizer_minimize]
    is [ScalarMinimizer(scalarizer, bounds, constraint_evaluator=...,
    method=...).minimize(x0)]. *)
Record Tools : Type := mkTools {
  ReferencePointASF :
    option (list npfloat) -> vec -> vec -> (vec -> option vec -> result R);
  ScalarMinimizer_minimize :
    (vec -> result R) -> option (list vec) -> option (vec -> result vec) ->
    option ScalarMethod -> vec -> result SolverResult
}.

(** [Scalarizer(evaluator, scalarizer)]: the scalarizer applied to the
    evaluated objective vector. *)
Definition Scalarizer {A : Type} (evaluator : vec -> vec) (scalarizer : vec -> A) : vec -> A :=
  fun xs => scalarizer (evaluator xs).

(** ** The method object *)

Record Nautilus : Type := mkNautilus {
  _objective_names : list string;
  _minimize : list Z;
  _problem : MOProblem;
  _variable_bounds : option (list vec);
  _epsilon : R;
  _ideal : vec;
  _nadir : vec;
  _utopian : vec;
  _reachable_ub : vec;
  _reachable_lb : vec;
  _lower_bounds : list (option (list (option R)));
  _upper_bounds : list (option vec);
  _step_number : Z;
  _zs : list (option vec);
  _xs : list (option vec);
  _fs : list (option vec);
  _ds : list (option npfloat);
  _q : option vec;
  _distance : option npfloat;
  _preference_method : option Z;
  _preference_info : option vec;
  _preference_factors : option (list npfloat);
  _n_iterations : option Z;
  _n_iterations_left : option Z;
  _use_previous_preference : bool;
  _step_back : bool;
  _short_step : bool;
  _first_iteration : bool
}.

(** Attribute assignment [self.<field> = v], one function per attribute
    that the handlers assign. *)
Definition set_lower_bounds (v : list (option (list (option R)))) (self : Nautilus) : Nautilus :=
  {| _objective_names := _objective_names self; _minimize := _minimize self;
     _problem := _problem self; _variable_bounds := _variable_bounds self;
     _epsilon := _epsilon self; _ideal := _ideal self; _nadir := _nadir self;
     _utopian := _utopian self; _reachable_ub := _reachable_ub self;
     _reachable_lb := _reachable_lb self; _lower_bounds := v;
     _upper_bounds := _upper_bounds self; _step_number := _step_number self;
     _zs := _zs self; _xs := _xs self; _fs := _fs self; _ds := _ds self; _q := _q self;
     _distance := _distance self; _preference_method := _preference_method self;
     _preference_info := _preference_info self;
     _preference_factors := _preference_factors self; _n_iterations := _n_iterations self;
     _n_iterations_left := _n_iterations_left self;
     _use_previous_preference := _use_previous_preference self;
     _step_back := _step_back self; _short_step := _short_step self;
     _first_iteration := _first_iteration self |}.

Definition set_upper_bounds (v : list (option vec)) (self : Nautilus) : Nautilus :=
  {| _objective_names := _objective_names self; _minimize := _minimize self;
     _problem := _problem self; _variable_bounds := _variable_bounds self;
     _epsilon := _epsilon self; _ideal := _ideal self; _nadir := _nadir self;
     _utopian := _utopian self; _reachable_ub := _reachable_ub self;
     _reachable_lb := _reachable_lb self; _lower_bounds := _lower_bounds self;
     _upper_bounds := v; _step_number := _step_number self; _zs := _zs self;
     _xs := _xs self; _fs := _fs self; _ds := _ds self; _q := _q self;
     _distance := _distance self; _preference_method := _preference_method self;
     _preference_info := _preference_info self;
     _preference_factors := _preference_factors self; _n_iterations := _n_iterations self;
     _n_iterations_left := _n_iterations_left self;
     _use_previous_preference := _use_previous_preference self;
     _step_back := _step_back self; _short_step := _short_step self;
     _first_iteration := _first_iteration self |}.

Definition set_step_number (v : Z) (self : Nautilus) : Nautilus :=
  {| _objective_names := _objective_names self; _minimize := _minimize self;
     _problem := _problem self; _variable_bounds := _variable_bounds self;
     _epsilon := _epsilon self; _ideal := _ideal self; _nadir := _nadir self;
     _utopian := _utopian self; _reachable_ub := _reachable_ub self;
     _reachable_lb := _reachable_lb self; _lower_bounds := _lower_bounds self;
     _upper_bounds := _upper_bounds self; _step_number := v; _zs := _zs self;
     _xs := _xs self; _fs := _fs self; _ds := _ds self; _q := _q self;
     _distance := _distance self; _preference_method := _preference_method self;
     _preference_info := _preference_info self;
     _preference_factors := _preference_factors self; _n_iterations := _n_iterations self;
     _n_iterations_left := _n_iterations_left self;
     _use_previous_preference := _use_previous_preference self;
     _step_back := _step_back self; _short_step := _short_step self;
     _first_iteration := _first_iteration self |}.

Definition set_zs (v : list (option vec)) (self : Nautilus) : Nautilus :=
  {| _objective_names := _objective_names self; _minimize := _minimize self;
     _problem := _problem self; _variable_bounds := _variable_bounds self;
     _epsilon := _epsilon self; _ideal := _ideal self; _nadir := _nadir self;
     _utopian := _utopian self; _reachable_ub := _reachable_ub self;
     _reachable_lb := _reachable_lb self; _lower_bounds := _lower_bounds self;
     _upper_bounds := _upper_bounds self; _step_number := _step_number self; _zs := v;
     _xs := _xs self; _fs := _fs self; _ds := _ds self; _q := _q self;
     _distance := _distance self; _preference_method := _preference_method self;
     _preference_info := _preference_info self;
     _preference_factors := _preference_factors self; _n_iterations := _n_iterations self;
     _n_iterations_left := _n_iterations_left self;
     _use_previous_preference := _use_previous_preference self;
     _step_back := _step_back self; _short_step := _short_step self;
     _first_iteration := _first_iteration self |}.

Definition set_xs (v : list (option vec)) (self : Nautilus) : Nautilus :=
  {| _objective_names := _objective_names self; _minimize := _minimize self;
     _problem := _problem self; _variable_bounds := _variable_bounds self;
     _epsilon := _epsilon self; _ideal := _ideal self; _nadir := _nadir self;
     _utopian := _utopian self; _reachable_ub := _reachable_ub self;
     _reachable_lb := _reachable_lb self; _lower_bounds := _lower_bounds self;
     _upper_bounds := _upper_bounds self; _step_number := _step_number self;
     _zs := _zs self; _xs := v; _fs := _fs self; _ds := _ds self; _q := _q self;
     _distance := _distance self; _preference_method := _preference_method self;
     _preference_info := _preference_info self;
     _preference_factors := _preference_factors self; _n_iterations := _n_iterations self;
     _n_iterations_left := _n_iterations_left self;
     _use_previous_preference := _use_previous_preference self;
     _step_back := _step_back self; _short_step := _short_step self;
     _first_iteration := _first_iteration self |}.

Definition set_fs (v : list (option vec)) (self : Nautilus) : Nautilus :=
  {| _objective_names := _objective_names self; _minimize := _minimize self;
     _problem := _problem self; _variable_bounds := _variable_bounds self;
     _epsilon := _epsilon self; _ideal := _ideal self; _nadir := _nadir self;
     _utopian := _utopian self; _reachable_ub := _reachable_ub self;
     _reachable_lb := _reachable_lb self; _lower_bounds := _lower_bounds self;
     _upper_bounds := _upper_bounds self; _step_number := _step_number self;
     _zs := _zs self; _xs := _xs self; _fs := v; _ds := _ds self; _q := _q self;
     _distance := _distance self; _preference_method := _preference_method self;
     _preference_info := _preference_info self;
     _preference_factors := _preference_factors self; _n_iterations := _n_iterations self;
     _n_iterations_left := _n_iterations_left self;
     _use_previous_preference := _use_previous_preference self;
     _step_back := _step_back self; _short_step := _short_step self;
     _first_iteration := _first_iteration self |}.

Definition set_ds (v : list (option npfloat)) (self : Nautilus) : Nautilus :=
  {| _objective_names := _objective_names self; _minimize := _minimize self;
     _problem := _problem self; _variable_bounds := _variable_bounds self;
     _epsilon := _epsilon self; _ideal := _ideal self; _nadir := _nadir self;
     _utopian := _utopian self; _reachable_ub := _reachable_ub self;
     _reachable_lb := _reachable_lb self; _lower_bounds := _lower_bounds self;
     _upper_bounds := _upper_bounds self; _step_number := _step_number self;
     _zs := _zs self; _xs := _xs self; _fs := _fs self; _ds := v; _q := _q self;
     _distance := _distance self; _preference_method := _preference_method self;
     _preference_info := _preference_info self;
     _preference_factors := _preference_factors self; _n_iterations := _n_iterations self;
     _n_iterations_left := _n_iterations_left self;
     _use_previous_preference := _use_previous_preference self;
     _step_back := _step_back self; _short_step := _short_step self;
     _first_iteration := _first_iteration self |}.

Definition set_q (v : option vec) (self : Nautilus) : Nautilus :=
  {| _objective_names := _objective_names self; _minimize := _minimize self;
     _problem := _problem self; _variable_bounds := _variable_bounds self;
     _epsilon := _epsilon self; _ideal := _ideal self; _nadir := _nadir self;
     _utopian := _utopian self; _reachable_ub := _reachable_ub self;
     _reachable_lb := _reachable_lb self; _lower_bounds := _lower_bounds self;
     _upper_bounds := _upper_bounds self; _step_number := _step_number self;
     _zs := _zs self; _xs := _xs self; _fs := _fs self; _ds := _ds self; _q := v;
     _distance := _distance self; _preference_method := _preference_method self;
     _preference_info := _preference_info self;
     _preference_factors := _preference_factors self; _n_iterations := _n_iterations self;
     _n_iterations_left := _n_iterations_left self;
     _use_previous_preference := _use_previous_preference self;
     _step_back := _step_back self; _short_step := _short_step self;
     _first_iteration := _first_iteration self |}.

Definition set_preference_method (v : option Z) (self : Nautilus) : Nautilus :=
  {| _objective_names := _objective_names self; _minimize := _minimize self;
     _problem := _problem self; _variable_bounds := _variable_bounds self;
     _epsilon := _epsilon self; _ideal := _ideal self; _nadir := _nadir self;
     _utopian := _utopian self; _reachable_ub := _reachable_ub self;
     _reachable_lb := _reachable_lb self; _lower_bounds := _lower_bounds self;
     _upper_bounds := _upper_bounds self; _step_number := _step_number self;
     _zs := _zs self; _xs := _xs self; _fs := _fs self; _ds := _ds self; _q := _q self;
     _distance := _distance self; _preference_method := v;
     _preference_info := _preference_info self;
     _preference_factors := _preference_factors self; _n_iterations := _n_iterations self;
     _n_iterations_left := _n_iterations_left self;
     _use_previous_preference := _use_previous_preference self;
     _step_back := _step_back self; _short_step := _short_step self;
     _first_iteration := _first_iteration self |}.

Definition set_preference_info (v : option vec) (self : Nautilus) : Nautilus :=
  {| _objective_names := _objective_names self; _minimize := _minimize self;
     _problem := _problem self; _variable_bounds := _variable_bounds self;
     _epsilon := _epsilon self; _ideal := _ideal self; _nadir := _nadir self;
     _utopian := _utopian self; _reachable_ub := _reachable_ub self;
     _reachable_lb := _reachable_lb self; _lower_bounds := _lower_bounds self;
     _upper_bounds := _upper_bounds self; _step_number := _step_number self;
     _zs := _zs self; _xs := _xs self; _fs := _fs self; _ds := _ds self; _q := _q self;
     _distance := _distance self; _preference_method := _preference_method self;
     _preference_info := v; _preference_factors := _preference_factors self;
     _n_iterations := _n_iterations self; _n_iterations_left := _n_iterations_left self;
     _use_previous_preference := _use_previous_preference self;
     _step_back := _step_back self; _short_step := _short_step self;
     _first_iteration := _first_iteration self |}.

Definition set_preference_factors (v : option (list npfloat)) (self : Nautilus) : Nautilus :=
  {| _objective_names := _objective_names self; _minimize := _minimize self;
     _problem := _problem self; _variable_bounds := _variable_bounds self;
     _epsilon := _epsilon self; _ideal := _ideal self; _nadir := _nadir self;
     _utopian := _utopian self; _reachable_ub := _reachable_ub self;
     _reachable_lb := _reachable_lb self; _lower_bounds := _lower_bounds self;
     _upper_bounds := _upper_bounds self; _step_number := _step_number self;
     _zs := _zs self; _xs := _xs self; _fs := _fs self; _ds := _ds self; _q := _q self;
     _distance := _distance self; _preference_method := _preference_method self;
     _preference_info := _preference_info self; _preference_factors := v;
     _n_iterations := _n_iterations self; _n_iterations_left := _n_iterations_left self;
     _use_previous_preference := _use_previous_preference self;
     _step_back := _step_back self; _short_step := _short_step self;
     _first_iteration := _first_iteration self |}.

Definition set_n_iterations (v : option Z) (self : Nautilus) : Nautilus :=
  {| _objective_names := _objective_names self; _minimize := _minimize self;
     _problem := _problem self; _variable_bounds := _variable_bounds self;
     _epsilon := _epsilon self; _ideal := _ideal self; _nadir := _nadir self;
     _utopian := _utopian self; _reachable_ub := _reachable_ub self;
     _reachable_lb := _reachable_lb self; _lower_bounds := _lower_bounds self;
     _upper_bounds := _upper_bounds self; _step_number := _step_number self;
     _zs := _zs self; _xs := _xs self; _fs := _fs self; _ds := _ds self; _q := _q self;
     _distance := _distance self; _preference_method := _preference_method self;
     _preference_info := _preference_info self;
     _preference_factors := _preference_factors self; _n_iterations := v;
     _n_iterations_left := _n_iterations_left self;
     _use_previous_preference := _use_previous_preference self;
     _step_back := _step_back self; _short_step := _short_step self;
     _first_iteration := _first_iteration self |}.

Definition set_n_iterations_left (v : option Z) (self : Nautilus) : Nautilus :=
  {| _objective_names := _objective_names self; _minimize := _minimize self;
     _problem := _problem self; _variable_bounds := _variable_bounds self;
     _epsilon := _epsilon self; _ideal := _ideal self; _nadir := _nadir self;
     _utopian := _utopian self; _reachable_ub := _reachable_ub self;
     _reachable_lb := _reachable_lb self; _lower_bounds := _lower_bounds self;
     _upper_bounds := _upper_bounds self; _step_number := _step_number self;
     _zs := _zs self; _xs := _xs self; _fs := _fs self; _ds := _ds self; _q := _q self;
     _distance := _distance self; _preference_method := _preference_method self;
     _preference_info := _preference_info self;
     _preference_factors := _preference_factors self; _n_iterations := _n_iterations self;
     _n_iterations_left := v; _use_previous_preference := _use_previous_preference self;
     _step_back := _step_back self; _short_step := _short_step self;
     _first_iteration := _first_iteration self |}.

Definition set_step_back (v : bool) (self : Nautilus) : Nautilus :=
  {| _objective_names := _objective_names self; _minimize := _minimize self;
     _problem := _problem self; _variable_bounds := _variable_bounds self;
     _epsilon := _epsilon self; _ideal := _ideal self; _nadir := _nadir self;
     _utopian := _utopian self; _reachable_ub := _reachable_ub self;
     _reachable_lb := _reachable_lb self; _lower_bounds := _lower_bounds self;
     _upper_bounds := _upper_bounds self; _step_number := _step_number self;
     _zs := _zs self; _xs := _xs self; _fs := _fs self; _ds := _ds self; _q := _q self;
     _distance := _distance self; _preference_method := _preference_method self;
     _preference_info := _preference_info self;
     _preference_factors := _preference_factors self; _n_iterations := _n_iterations self;
     _n_iterations_left := _n_iterations_left self;
     _use_previous_preference := _use_previous_preference self; _step_back := v;
     _short_step := _short_step self; _first_iteration := _first_iteration self |}.

Definition set_short_step (v : bool) (self : Nautilus) : Nautilus :=
  {| _objective_names := _objective_names self; _minimize := _minimize self;
     _problem := _problem self; _variable_bounds := _variable_bounds self;
     _epsilon := _epsilon self; _ideal := _ideal self; _nadir := _nadir self;
     _utopian := _utopian self; _reachable_ub := _reachable_ub self;
     _reachable_lb := _reachable_lb self; _lower_bounds := _lower_bounds self;
     _upper_bounds := _upper_bounds self; _step_number := _step_number self;
     _zs := _zs self; _xs := _xs self; _fs := _fs self; _ds := _ds self; _q := _q self;
     _distance := _distance self; _preference_method := _preference_method self;
     _preference_info := _preference_info self;
     _preference_factors := _preference_factors self; _n_iterations := _n_iterations self;
     _n_iterations_left := _n_iterations_left self;
     _use_previous_preference := _use_previous_preference self;
     _step_back := _step_back self; _short_step := v;
     _first_iteration := _first_iteration self |}.

(** [[f"f{i + 1}" for i in range(n)]]. *)
Definition default_objective_names (n : nat) : list string :=
  map (fun i => ("f" ++ NilEmpty.string_of_uint (Nat.to_uint (i + 1)))%string) (seq 0 n).

(** [Nautilus.__init__]; [objective_names] and [minimize] default to
    [None], and an empty list counts as absent. *)
Definition Nautilus_init (problem : MOProblem) (ideal nadir : vec) (epsilon : R)
           (objective_names : option (list string)) (minimize : option (list Z))
  : result Nautilus :=
  if negb (len ideal =? len nadir) then Raise (NautilusException MsgDimensionMismatch)
  else
    (names <- match objective_names with
              | Some ((_ :: _) as given) =>
                if negb (len given =? len ideal)
                then Raise (NautilusException MsgObjectiveNamesLength)
                else Ok given
              | _ => Ok (default_objective_names (length ideal))
              end ;;
     mins <- match minimize with
             | Some ((_ :: _) as given) =>
               given_names <- not_none objective_names ;;
               if negb (len given_names =? len ideal)
               then Raise (NautilusException MsgMinimizeLength)
               else Ok given
             | _ => Ok (repeat 1 (length ideal))
             end ;;
     Ok {| _objective_names := names;
           _minimize := mins;
           _problem := problem;
           _variable_bounds := get_variable_bounds problem;
           _epsilon := epsilon;
           _ideal := ideal;
           _nadir := nadir;
           _utopian := map (fun ideal_i => (ideal_i - epsilon)%R) ideal;
           _reachable_ub := nadir;
           _reachable_lb := ideal;
           _lower_bounds := [];
           _upper_bounds := [];
           _step_number := 1;
           _zs := [];
           _xs := [];
           _fs := [];
           _ds := [];
           _q := None;
           _distance := None;
           _preference_method := None;
           _preference_info := None;
           _preference_factors := None;
           _n_iterations := None;
           _n_iterations_left := None;
           _use_previous_preference := false;
           _step_back := false;
           _short_step := false;
           _first_iteration := true |})%result.

(** [Nautilus.start]. *)
Definition start (self : Nautilus) : Request :=
  NautilusInitialRequest (_ideal self) (_nadir self).

(** ** The state-and-exception monad of the methods *)

Definition M (A : Type) : Type := Nautilus -> result A * Nautilus.

Definition ret {A : Type} (a : A) : M A := fun self => (Ok a, self).

Definition bind {A B : Type} (m : M A) (k : A -> M B) : M B :=
  fun self =>
    match m self with
    | (Ok a, self') => k a self'
    | (Raise e, self') => (Raise e, self')
    end.

Definition lift {A : Type} (r : result A) : M A := fun self => (r, self).

Definition gets {A : Type} (field : Nautilus -> A) : M A := fun self => (Ok (field self), self).

Definition modify (f : Nautilus -> Nautilus) : M unit := fun self => (Ok tt, f self).

(** [self.<field>[i]]. *)
Definition item {A : Type} (field : Nautilus -> list A) (i : Z) : M A :=
  fun self => (py_getitem (field self) i, self).

(** [self.<field>[i] = a]. *)
Definition assign_item {A : Type} (field : Nautilus -> list A)
           (set : list A -> Nautilus -> Nautilus) (i : Z) (a : A) : M unit :=
  fun self =>
    match py_setitem (field self) i a with
    | Ok l => (Ok tt, set l self)
    | Raise e => (Raise e, self)
    end.

Declare Scope monad_scope.
Delimit Scope monad_scope with monad.
Notation "x <- m ;; k" := (bind m (fun x => k))
  (at level 61, m at next level, right associativity) : monad_scope.
Notation "m ;; k" := (bind m (fun _ => k))
  (at level 61, right associativity) : monad_scope.

(** ** Numeric subroutines *)

(** [Nautilus.calculate_iteration_point]:
    [((itn - 1) / itn) * z_prev + (1 / itn) * f_current].  The two
    quotients are divisions of Python ints, which raise
    ZeroDivisionError when [itn] is 0; [z_prev] and [f_current] are
    history slots when the handlers call this. *)
Definition calculate_iteration_point (itn : Z) (z_prev f_current : option vec) : result vec :=
  if itn =? 0 then Raise ZeroDivisionError
  else
    (z <- not_none z_prev ;;
     f <- not_none f_current ;;
     np_add (np_scale (IZR (itn - 1) / IZR itn) z) (np_scale (1 / IZR itn) f))%result.

(** The recurrence of a run of updates against a constant objective
    vector: [k] updates with [itn = k, k-1, ..., 1]. *)
Fixpoint iterate_updates (k : nat) (z f : vec) : result vec :=
  match k with
  | O => Ok z
  | S k' => (z' <- calculate_iteration_point (Z.of_nat k) (Some z) (Some f) ;;
             iterate_updates k' z' f)%result
  end.

Definition calculate_preference_factors (pref_method : Z) (pref_info nadir utopian : vec)
  : option (list npfloat) :=
  if pref_method =? 1 then
    Some (zip_with3 (fun r_i n_i u_i => np_div 1 (r_i * (n_i - u_i))%R) pref_info nadir utopian)
  else if pref_method =? 2 then
    let delta_q := map (fun p => (p / 100)%R) pref_info in
    Some (zip_with3 (fun d_i n_i u_i => np_div 1 (d_i * (n_i - u_i))%R) delta_q nadir utopian)
  else None.

(** [z_current] and [f_current] are history slots when the handlers call
    this; a slot still holding [None] raises TypeError at the
    subtraction.  The result is the one-element array [dist * 100]. *)
Definition calculate_distance (z_current : option vec) (nadir : vec)
           (f_current : option vec) : result npfloat :=
  (z <- not_none z_current ;;
   zn <- np_sub z nadir ;;
   f <- not_none f_current ;;
   fn <- np_sub f nadir ;;
   let dist := np_div (norm2 zn) (norm2 fn) in
   Ok (np_mul dist 100))%result.

Section WithTools.

Variable T : Tools.

Definition solve_asf (ref_point : option vec) (x0 : vec)
           (preference_factors : option (list npfloat)) (nadir utopian : vec)
           (objectives : vec -> vec) (variable_bounds : option (list vec))
           (method : option ScalarMethod) : result SolverResult :=
  let asf := ReferencePointASF T preference_factors nadir utopian in
  let asf_scalarizer := Scalarizer objectives (fun f => asf f ref_point) in
  ScalarMinimizer_minimize T asf_scalarizer variable_bounds None method x0.

(** The body of the loop of [calculate_bounds] for objective [i]. *)
Definition calculate_bounds_step (objectives : vec -> vec) (x0 : vec)
           (epsilons : option vec) (bounds : option (list vec)) (constraints : vec -> vec)
           (method : option ScalarMethod)
           (new_lower_bounds : list (option R)) (i : Z) : result (list (option R)) :=
  (eps_array <- not_none epsilons ;;
   let eps := mkEpsilonConstraintMethod objectives i (without_index i eps_array)
                                        (Some constraints) in
   let cons_evaluate := evaluate_constraints eps in
   let scalarized_objective := Scalarizer objectives (ecm_call eps) in
   res <- ScalarMinimizer_minimize T scalarized_objective bounds (Some cons_evaluate)
                                   method x0 ;;
   f_i <- py_getitem (objectives (result_x res)) i ;;
   py_setitem new_lower_bounds i (Some f_i))%result.

Fixpoint calculate_bounds_loop (objectives : vec -> vec) (x0 : vec)
         (epsilons : option vec) (bounds : option (list vec)) (constraints : vec -> vec)
         (method : option ScalarMethod)
         (range : list Z) (new_lower_bounds : list (option R)) : result (list (option R)) :=
  match range with
  | [] => Ok new_lower_bounds
  | i :: rest =>
    (lbs <- calculate_bounds_step objectives x0 epsilons bounds constraints method
                                  new_lower_bounds i ;;
     calculate_bounds_loop objectives x0 epsilons bounds constraints method rest lbs)%result
  end.

(** [range(n)]. *)
Definition py_range (n : Z) : list Z := map Z.of_nat (seq 0 (Z.to_nat n)).

Definition calculate_bounds (objectives : vec -> vec) (n_objectives : Z) (x0 : vec)
           (epsilons : option vec) (bounds : option (list vec)) (constraints : vec -> vec)
           (method : option ScalarMethod) : result (list (option R)) :=
  calculate_bounds_loop objectives x0 epsilons bounds constraints method
                        (py_range n_objectives) (py_repeat None n_objectives).

Open Scope monad_scope.

(** ** Request handlers *)

Definition handle_initial_request (request : Request) : M Request :=
  resp <- lift (not_none (response request)) ;;
  (* set iteration number info and first iteration point (nadir point) *)
  n <- lift (getkey "n_iterations" (n_iterations resp)) ;;
  modify (set_n_iterations (Some n)) ;;
  n_its <- gets _n_iterations ;;
  modify (set_n_iterations_left n_its) ;;
  (* set up arrays for storing information *)
  modify (set_xs (py_repeat None (n + 1))) ;;
  modify (set_fs (py_repeat None (n + 1))) ;;
  modify (set_ds (py_repeat None (n + 1))) ;;
  modify (set_zs (py_repeat None (n + 1))) ;;
  modify (set_lower_bounds (py_repeat None (n + 1))) ;;
  modify (set_upper_bounds (py_repeat None (n + 1))) ;;
  (* set initial iteration point *)
  step <- gets _step_number ;;
  nadir <- gets _nadir ;;
  assign_item _zs set_zs (step - 1) (Some nadir) ;;
  (* set preference information *)
  pref_method <- lift (getkey "preference_method" (preference_method resp)) ;;
  modify (set_preference_method (Some pref_method)) ;;
  pref_info <- lift (getkey "preference_info" (preference_info resp)) ;;
  modify (set_preference_info (Some pref_info)) ;;
  utopian <- gets _utopian ;;
  modify (set_preference_factors
            (calculate_preference_factors pref_method pref_info nadir utopian)) ;;
  (* set reference point, initial values for decision variables and solve *)
  q <- item _zs (step - 1) ;;
  modify (set_q q) ;;
  problem <- gets _problem ;;
  let x0 := map (fun u => (u / 2)%R) (get_variable_upper_bounds problem) in
  factors <- gets _preference_factors ;;
  variable_bounds <- gets _variable_bounds ;;
  result <- lift (solve_asf q x0 factors nadir utopian (evaluate_objectives problem)
                            variable_bounds None) ;;
  (* update current solution and objective function values *)
  assign_item _xs set_xs step (Some (result_x result)) ;;
  x_step <- item _xs step ;;
  x <- lift (not_none x_step) ;;
  assign_item _fs set_fs step (Some (evaluate_objectives problem x)) ;;
  (* step 3: calculate next iteration point *)
  n_left <- gets _n_iterations_left ;;
  z_prev <- item _zs (step - 1) ;;
  f_step <- item _fs step ;;
  itn <- lift (not_none n_left) ;;
  z_next <- lift (calculate_iteration_point itn z_prev f_step) ;;
  assign_item _zs set_zs step (Some z_next) ;;
  (* calculate new bounds and store the information *)
  names <- gets _objective_names ;;
  z_prev <- item _zs (step - 1) ;;
  new_lower_bounds <- lift (calculate_bounds (evaluate_objectives problem) (len names) x0
                                             z_prev variable_bounds
                                             (evaluate_constraints_of problem) None) ;;
  assign_item _lower_bounds set_lower_bounds (step + 1) (Some new_lower_bounds) ;;
  z_step <- item _zs step ;;
  assign_item _upper_bounds set_upper_bounds (step + 1) z_step ;;
  (* calculate distance from current iteration point to Pareto optimal set *)
  z_step <- item _zs step ;;
  f_step <- item _fs step ;;
  d <- lift (calculate_distance z_step nadir f_step) ;;
  assign_item _ds set_ds step (Some d) ;;
  (* return the information from iteration round to be shown to the DM *)
  ideal <- gets _ideal ;;
  n_its <- gets _n_iterations ;;
  lb <- item _lower_bounds (step + 1) ;;
  ub <- item _upper_bounds (step + 1) ;;
  d_step <- item _ds step ;;
  ret (NautilusRequest ideal nadir n_its lb ub d_step).

(** The block that closes the three branches of [handle_request] that
    return a request (lines 489-507, 519-537 and 563-580 of the source are
    the same statements): new lower bounds from the previous iteration
    point, upper bound, distance, and the next request. *)
Definition bounds_distance_request (x0 : vec) : M (option Request) :=
  step <- gets _step_number ;;
  problem <- gets _problem ;;
  names <- gets _objective_names ;;
  z_prev <- item _zs (step - 1) ;;
  variable_bounds <- gets _variable_bounds ;;
  new_lower_bounds <- lift (calculate_bounds (evaluate_objectives problem) (len names) x0
                                             z_prev variable_bounds
                                             (evaluate_constraints_of problem) None) ;;
  assign_item _lower_bounds set_lower_bounds (step + 1) (Some new_lower_bounds) ;;
  z_step <- item _zs step ;;
  assign_item _upper_bounds set_upper_bounds (step + 1) z_step ;;
  (* calculate distance from current iteration point to Pareto optimal set *)
  z_step <- item _zs step ;;
  nadir <- gets _nadir ;;
  f_step <- item _fs step ;;
  d <- lift (calculate_distance z_step nadir f_step) ;;
  assign_item _ds set_ds step (Some d) ;;
  (* return the information from iteration round to be shown to the DM *)
  ideal <- gets _ideal ;;
  n_its <- gets _n_iterations ;;
  lb <- item _lower_bounds (step + 1) ;;
  ub <- item _upper_bounds (step + 1) ;;
  d_step <- item _ds step ;;
  ret (Some (NautilusRequest ideal nadir n_its lb ub d_step)).

(** "use same preference and don't step back" (lines 474-507). *)
Definition continue_with_previous_preference : M (option Request) :=
  modify (set_step_back false) ;;
  n_left <- gets _n_iterations_left ;;
  itn <- lift (not_none n_left) ;;
  modify (set_n_iterations_left (Some (itn - 1))) ;;
  step <- gets _step_number ;;
  modify (set_step_number (step + 1)) ;;
  step <- gets _step_number ;;
  (* use the solution and objective of last step *)
  x_prev <- item _xs (step - 1) ;;
  assign_item _xs set_xs step x_prev ;;
  f_prev <- item _fs (step - 1) ;;
  assign_item _fs set_fs step f_prev ;;
  (* go to step 3: calculate next iteration point *)
  n_left <- gets _n_iterations_left ;;
  z_prev <- item _zs (step - 1) ;;
  f_step <- item _fs step ;;
  itn <- lift (not_none n_left) ;;
  z_next <- lift (calculate_iteration_point itn z_prev f_step) ;;
  assign_item _zs set_zs step (Some z_next) ;;
  problem <- gets _problem ;;
  bounds_distance_request (map (fun u => (u / 2)%R) (get_variable_upper_bounds problem)).

(** "take a short step" (lines 514-537). *)
Definition take_short_step : M (option Request) :=
  modify (set_short_step true) ;;
  step <- gets _step_number ;;
  z_step <- item _zs step ;;
  z_current <- lift (not_none z_step) ;;
  z_prev <- item _zs (step - 1) ;;
  z_previous <- lift (not_none z_prev) ;;
  z_half <- lift (np_add (np_scale 0.5 z_current) (np_scale 0.5 z_previous)) ;;
  assign_item _zs set_zs step (Some z_half) ;;
  (* go to step 4 *)
  problem <- gets _problem ;;
  bounds_distance_request (map (fun u => (u / 2)%R) (get_variable_upper_bounds problem)).

(** "use new preferences" (lines 540-580). *)
Definition step_back_with_new_preferences (resp : Response) : M (option Request) :=
  (* set preference information *)
  pref_method <- lift (getkey "preference_method" (preference_method resp)) ;;
  modify (set_preference_method (Some pref_method)) ;;
  pref_info <- lift (getkey "preference_info" (preference_info resp)) ;;
  modify (set_preference_info (Some pref_info)) ;;
  nadir <- gets _nadir ;;
  utopian <- gets _utopian ;;
  modify (set_preference_factors
            (calculate_preference_factors pref_method pref_info nadir utopian)) ;;
  (* set reference point, initial values for decision variables and solve *)
  step <- gets _step_number ;;
  q <- item _zs (step - 1) ;;
  modify (set_q q) ;;
  problem <- gets _problem ;;
  let x0 := map (fun u => (u / 2)%R) (get_variable_upper_bounds problem) in
  factors <- gets _preference_factors ;;
  variable_bounds <- gets _variable_bounds ;;
  result <- lift (solve_asf q x0 factors nadir utopian (evaluate_objectives problem)
                            variable_bounds None) ;;
  (* update current solution and objective function values *)
  assign_item _xs set_xs step (Some (result_x result)) ;;
  x_step <- item _xs step ;;
  x <- lift (not_none x_step) ;;
  assign_item _fs set_fs step (Some (evaluate_objectives problem x)) ;;
  (* step 3: calculate next iteration point *)
  n_left <- gets _n_iterations_left ;;
  z_prev <- item _zs (step - 1) ;;
  f_step <- item _fs step ;;
  itn <- lift (not_none n_left) ;;
  z_next <- lift (calculate_iteration_point itn z_prev f_step) ;;
  assign_item _zs set_zs step (Some z_next) ;;
  bounds_distance_request x0.

(** [handle_request] returns [None] when it falls off the end of its
    branches. *)
Definition handle_request (request : Request) : M (option Request) :=
  resp <- lift (not_none (response request)) ;;
  (* change the number of iterations (step 6) *)
  match n_iterations resp with
  | Some n =>
    modify (set_n_iterations (Some n)) ;;
    n_its <- gets _n_iterations ;;
    modify (set_n_iterations_left n_its)
  | None => ret tt
  end ;;
  (* last iteration, stop solution process *)
  n_left <- gets _n_iterations_left ;;
  itn <- lift (not_none n_left) ;;
  if itn <=? 1 then
    modify (set_n_iterations_left (Some 0)) ;;
    step <- gets _step_number ;;
    x_h <- item _xs step ;;
    f_h <- item _fs step ;;
    ret (Some (NautilusStopRequest x_h f_h))
  else
    (* use same preference and don't step back *)
    use_previous <- lift (getkey "use_previous_preference" (use_previous_preference resp)) ;;
    continue <- (if use_previous
                 then back <- lift (getkey "step_back" (step_back resp)) ;; ret (negb back)
                 else ret false) ;;
    if continue then continue_with_previous_preference
    else
      (* take a step back *)
      back <- lift (getkey "step_back" (step_back resp)) ;;
      if back then
        modify (set_step_back true) ;;
        short <- lift (getkey "short_step" (short_step resp)) ;;
        if short then take_short_step
        else
          use_previous <- lift (getkey "use_previous_preference"
                                       (use_previous_preference resp)) ;;
          if negb use_previous then step_back_with_new_preferences resp
          else ret None
      else ret None.

(** [Nautilus.iterate]. *)
Definition iterate (request : Request) : M (option Request) :=
  match request with
  | InitialRequestObj _ _ _ =>
    next <- handle_initial_request request ;; ret (Some next)
  | RequestObj _ _ _ => handle_request request
  | StopRequestObj _ =>
    (* if stop request, do nothing *)
    ret (Some request)
  end.

(** One turn of the driver loop at the end of the module:
    [req.response = response] followed by [req = method.iterate(req)].
    The state is the method object and the request the response is
    written to. *)
Definition respond_and_iterate (response : Response) (session : Nautilus * Request)
  : result (option Request) * (Nautilus * Request) :=
  let (method, req) := session in
  match set_response req response with
  | (Raise e, req') => (Raise e, (method, req'))
  | (Ok _, req') =>
    let (next, method') := iterate req' method in (next, (method', req'))
  end.

End WithTools.

Close Scope monad_scope.

(** ** Definitions used to state the properties *)

Open Scope Z_scope.

(** A list traversed left to right, stopping at the first exception. *)
Fixpoint result_mapM {A B : Type} (f : A -> result B) (l : list A) : result (list B) :=
  match l with
  | [] => Ok []
  | a :: t => (b <- f a ;; bs <- result_mapM f t ;; Ok (b :: bs))%result
  end.

(** The epsilon-constraint subproblem that [calculate_bounds] builds for
    objective [i]. *)
Definition bound_problem (objectives : vec -> vec) (constraints : vec -> vec)
           (epsilons : vec) (i : Z) : EpsilonConstraintMethod :=
  mkEpsilonConstraintMethod objectives i (without_index i epsilons) (Some constraints).

(** The lower bound of objective [i]: the [i]-th objective at the point
    the minimizer returns for the subproblem of [i]. *)
Definition solved_bound (T : Tools) (objectives constraints : vec -> vec) (x0 eps : vec)
           (bounds : option (list vec)) (method : option ScalarMethod) (i : Z)
  : result (option R) :=
  let problem := bound_problem objectives constraints eps i in
  (res <- ScalarMinimizer_minimize T (Scalarizer objectives (ecm_call problem)) bounds
                                   (Some (evaluate_constraints problem)) method x0 ;;
   f_i <- py_getitem (objectives (result_x res)) i ;;
   Ok (Some f_i))%result.

(** The same tools, with the [success] entry of every result of the
    minimizer replaced by [flag]. *)
Definition with_success (flag : bool) (T : Tools) : Tools :=
  mkTools (ReferencePointASF T)
          (fun scalarizer bounds constraint_evaluator method x0 =>
             rmap (fun res => mkSolverResult (result_x res) (result_fun res) flag)
                  (ScalarMinimizer_minimize T scalarizer bounds constraint_evaluator
                                            method x0)).

(** The same tools, with another achievement function. *)
Definition with_asf
           (asf : option (list npfloat) -> vec -> vec -> (vec -> option vec -> result R))
           (T : Tools) : Tools :=
  mkTools asf (ScalarMinimizer_minimize T).

Open Scope Z_scope.

(** The state after the first statement of [handle_request] (lines
    464-466): both counters are set to the ["n_iterations"] entry of the
    response when there is one. *)
Definition apply_n_iterations (resp : Response) (self : Nautilus) : Nautilus :=
  match n_iterations resp with
  | Some n => set_n_iterations_left (Some n) (set_n_iterations (Some n) self)
  | None => self
  end.

(** The response without its ["n_iterations"] entry. *)
Definition clear_n_iterations (resp : Response) : Response :=
  mkResponse None (step_back resp) (short_step resp) (use_previous_preference resp)
             (preference_method resp) (preference_info resp).

(** The termination branch of [handle_request] (lines 469-471), as an
    outcome and a final state. *)
Definition terminated (self : Nautilus) : result (option Request) * Nautilus :=
  let self' := set_n_iterations_left (Some 0) self in
  ((x_h <- py_getitem (_xs self) (_step_number self) ;;
    f_h <- py_getitem (_fs self) (_step_number self) ;;
    Ok (Some (NautilusStopRequest x_h f_h)))%result, self').

(** Preferences that [validate_preferences] rejects: a vector shorter
    than the number of objectives; ranks whose largest entry is outside
    [1, n_objectives]; percentages whose sum is clear of 100. *)
Definition rejected_preferences (n_objectives : Z) (resp : Response) : Prop :=
  exists (method : Z) (info : vec),
    preference_method resp = Some method /\ preference_info resp = Some info /\
    (((method = 1 \/ method = 2) /\ len info < n_objectives)
     \/ (method = 1 /\
         exists top, py_max info = Ok top /\ ~ (1 <= top <= IZR n_objectives)%R)
     \/ (method = 2 /\ sum_clearly_not_100 info)).

Definition is_stop_request (r : option Request) : bool :=
  match r with
  | Some (StopRequestObj _) => true
  | _ => false
  end.

(** *** Reasoning about computations in [M] *)

(** Every normal return value of [m] satisfies [P]. *)
Definition returns {A : Type} (P : A -> Prop) (m : M A) : Prop :=
  forall self a self', m self = (Ok a, self') -> P a.

(** Whatever the outcome, the final state of [m] is related to the
    initial one by [R]. *)
Definition preserves {A : Type} (R : Nautilus -> Nautilus -> Prop) (m : M A) : Prop :=
  forall self, R self (snd (m self)).

(** The two states agree on the attribute(s) read by [field]. *)
Definition same {B : Type} (field : Nautilus -> B) : Nautilus -> Nautilus -> Prop :=
  fun self self' => field self' = field self.

(** Pointwise equality of computations. *)
Definition eqM {A : Type} (m m' : M A) : Prop := forall self, m self = m' self.

(** The step number, the iteration counters and the solution history. *)
Definition navigation_core (self : Nautilus)
  : Z * option Z * option Z * list (option vec) * list (option vec) :=
  (_step_number self, _n_iterations self, _n_iterations_left self, _xs self, _fs self).

(** The six history lists have one length. *)
Definition equal_lengths (self : Nautilus) : Prop :=
  length (_fs self) = length (_xs self)
  /\ length (_zs self) = length (_xs self)
  /\ length (_ds self) = length (_xs self)
  /\ length (_lower_bounds self) = length (_xs self)
  /\ length (_upper_bounds self) = length (_xs self).

(** The state after a turn that returned normally: the history lists
    have one length and the slots at the current step number and at the
    next one exist. *)
Definition history_ready (self : Nautilus) : Prop :=
  (1 <= _step_number self)%Z
  /\ (_step_number self + 1 < len (_xs self))%Z
  /\ equal_lengths self.

(** Tools that show a use of the achievement function: the function
    raises, and the minimizer evaluates its objective at the starting
    point before it returns that point. *)
Definition tripwire_tools : Tools :=
  mkTools (fun _ _ _ _ _ => Raise (ExternalError "asf"))
          (fun scalarizer _ _ _ x0 =>
             (value <- scalarizer x0 ;; Ok (mkSolverResult x0 value true))%result).

(** ** A small session used for the concrete instances

    Two decision variables with upper bounds 2, two objectives and one
    constraint.  The minimizer of [demo_tools] does no work: it returns
    its starting point and reports [success = False]. *)

Open Scope R_scope.

Definition demo_objectives (x : vec) : vec := [np_sum x; - np_sum x].

Definition demo_constraints (x : vec) : vec := [np_sum x - 1].

Definition demo_problem : MOProblem :=
  mkMOProblem demo_objectives demo_constraints None [2; 2].

Definition demo_tools : Tools :=
  mkTools (fun _ _ _ _ _ => Ok 0)
          (fun _ _ _ _ x0 => Ok (mkSolverResult x0 0 false)).

(** The method object after [__init__] with ideal [0, 0], nadir [4, 4]
    and no epsilon. *)
Definition demo_initial_method : Nautilus :=
  {| _objective_names := ["f1"%string; "f2"%string];
     _minimize := [1%Z; 1%Z];
     _problem := demo_problem;
     _variable_bounds := None;
     _epsilon := 0;
     _ideal := [0; 0];
     _nadir := [4; 4];
     _utopian := [0 - 0; 0 - 0];
     _reachable_ub := [4; 4];
     _reachable_lb := [0; 0];
     _lower_bounds := [];
     _upper_bounds := [];
     _step_number := 1%Z;
     _zs := [];
     _xs := [];
     _fs := [];
     _ds := [];
     _q := None;
     _distance := None;
     _preference_method := None;
     _preference_info := None;
     _preference_factors := None;
     _n_iterations := None;
     _n_iterations_left := None;
     _use_previous_preference := false;
     _step_back := false;
     _short_step := false;
     _first_iteration := true |}.

(** The first response: four iterations, ranks [1, 2]. *)
Definition demo_initial_response : Response :=
  mkResponse (Some 4%Z) None None None (Some 1%Z) (Some [1; 2]).

(** The initial request once its setter has stored
    [demo_initial_response]. *)
Definition demo_initial_request : Request :=
  InitialRequestObj 2 (mkInitialContent [0; 0] [4; 4]) (Some demo_initial_response).

(** The first turn. *)
Definition demo_first_turn : result (option Request) * Nautilus :=
  iterate demo_tools demo_initial_request demo_initial_method.

(** The method object and the request after the first turn. *)
Definition demo_method : Nautilus := snd demo_first_turn.

Definition demo_request : Request :=
  match fst demo_first_turn with
  | Ok (Some next) => next
  | _ => demo_initial_request
  end.

(** Later responses. *)
Definition demo_continue : Response :=
  mkResponse None (Some false) (Some false) (Some true) None None.

Definition demo_short_step : Response :=
  mkResponse None (Some true) (Some true) (Some true) None None.

Definition demo_step_back_previous : Response :=
  mkResponse None (Some true) (Some false) (Some true) None None.

(** The demonstration session continued with [k] "continue" turns, each
    started from the state the previous one left, whatever its outcome. *)
Fixpoint demo_continued (k : nat) : result (option Request) * Nautilus :=
  match k with
  | O => demo_first_turn
  | S k' =>
    iterate demo_tools
            (RequestObj 2 (mkIterationContent [] [] None None None None) (Some demo_continue))
            (snd (demo_continued k'))
  end.

Definition demo_new_preferences : Response :=
  mkResponse None (Some true) (Some false) (Some false) (Some 2%Z) (Some [50; 50]).



(** The session continued after a "continue" response that raises the
    number of iterations from 4 to 6: that turn, then [k] "continue"
    turns, each started from the state the previous one left, whatever
    its outcome. *)
Definition demo_six_iterations : Response :=
  mkResponse (Some 6%Z) (Some false) (Some false) (Some true) None None.

Fixpoint demo_raised (k : nat) : result (option Request) * Nautilus :=
  match k with
  | O =>
    iterate demo_tools
            (RequestObj 2 (mkIterationContent [] [] None None None None)
                        (Some demo_six_iterations))
            demo_method
  | S k' =>
    iterate demo_tools
            (RequestObj 2 (mkIterationContent [] [] None None None None) (Some demo_continue))
            (snd (demo_raised k'))
  end.

(** ** Definitions used to state the further properties *)

Open Scope Z_scope.

(** The point at fraction [t] of the way from the nadir to [f]. *)
Definition segment_point (nadir f : vec) (t : R) : vec :=
  zip_with (fun n_i f_i => (n_i + t * (f_i - n_i))%R) nadir f.

(** [j] updates of the iteration point against a constant objective
    vector, the first with [itn] iterations left, the next with
    [itn - 1], and so on: the iteration points of the first turn and of
    the "continue" turns after it. *)
Fixpoint updates_from (itn : Z) (j : nat) (z f : vec) : result vec :=
  match j with
  | O => Ok z
  | S j' => (z' <- calculate_iteration_point itn (Some z) (Some f) ;;
             updates_from (itn - 1) j' z' f)%result
  end.

(** The entries of [l'] before position [k] are those of [l]. *)
Definition same_before {A : Type} (k : Z) (l l' : list A) : Prop :=
  forall i : nat, Z.of_nat i < k -> nth_error l' i = nth_error l i.

(** The stored preferences and the reference point. *)
Definition stored_preferences (self : Nautilus)
  : option Z * option vec * option (list npfloat) * option vec :=
  (_preference_method self, _preference_info self, _preference_factors self, _q self).

(** What a later turn keeps of the history: the step number does not
    decrease, the slots of the solutions, objective vectors, iteration
    points and distances before the step number are as they were, and so
    are the slots of the bounds up to and including it. *)
Definition history_kept (self self' : Nautilus) : Prop :=
  (_step_number self <= _step_number self')%Z
  /\ same_before (_step_number self) (_xs self) (_xs self')
  /\ same_before (_step_number self) (_fs self) (_fs self')
  /\ same_before (_step_number self) (_zs self) (_zs self')
  /\ same_before (_step_number self) (_ds self) (_ds self')
  /\ same_before (_step_number self + 1) (_lower_bounds self) (_lower_bounds self')
  /\ same_before (_step_number self + 1) (_upper_bounds self) (_upper_bounds self').

(** The iteration request [r] reports what the method object [self]
    holds at its step number: the iteration point as upper bounds, the
    lower bounds solved with the previous iteration point as epsilons,
    the distance of the iteration point, and the total number of
    iterations. *)
Definition reports (T : Tools) (self : Nautilus) (r : option Request) : Prop :=
  let step := _step_number self in
  let x0 := map (fun u => (u / 2)%R) (get_variable_upper_bounds (_problem self)) in
  exists z_prev z f lb d,
    py_getitem (_zs self) (step - 1) = Ok z_prev
    /\ py_getitem (_zs self) step = Ok z
    /\ py_getitem (_fs self) step = Ok f
    /\ calculate_bounds T (evaluate_objectives (_problem self)) (len (_objective_names self))
                        x0 z_prev (_variable_bounds self)
                        (evaluate_constraints_of (_problem self)) None = Ok lb
    /\ calculate_distance z (_nadir self) f = Ok d
    /\ py_getitem (_lower_bounds self) (step + 1) = Ok (Some lb)
    /\ py_getitem (_upper_bounds self) (step + 1) = Ok z
    /\ py_getitem (_ds self) step = Ok (Some d)
    /\ r = Some (NautilusRequest (_ideal self) (_nadir self) (_n_iterations self)
                                 (Some lb) z (Some d)).

(** The lengths of the six history lists. *)
Definition history_lengths (self : Nautilus) : nat * nat * nat * nat * nat * nat :=
  (length (_xs self), length (_fs self), length (_zs self), length (_ds self),
   length (_lower_bounds self), length (_upper_bounds self)).

(** The state of a session whose number of iterations has not been
    changed since the first turn: the history lists have one length,
    which is the step number plus the number of iterations left. *)
Definition on_track (self : Nautilus) : Prop :=
  (1 <= _step_number self)%Z
  /\ equal_lengths self
  /\ exists itn, _n_iterations_left self = Some itn
                 /\ len (_xs self) = (_step_number self + itn)%Z.

(** The attributes that [__init__] sets and no turn writes. *)
Definition fixed_attributes (self : Nautilus) :=
  (_problem self, _objective_names self, _minimize self, _variable_bounds self,
   _epsilon self, _ideal self, _nadir self, _utopian self, _reachable_ub self,
   _reachable_lb self, _distance self, _use_previous_preference self,
   _first_iteration self).

(** Preferences whose validation does not depend on rounding: ranks, or
    whole percentages. *)
Definition exact_preferences (resp : Response) : Prop :=
  forall info, preference_method resp = Some 2%Z -> preference_info resp = Some info ->
               whole_percentages info.

(** * Properties *)

Open Scope R_scope.

(** ** Properties of the vector operations *)

Lemma zip_with_length {A B C : Type} (f : A -> B -> C) (a : list A) (b : list B) :
  length a = length b -> length (zip_with f a b) = length a.
Proof.
  revert b; induction a as [|x a IH]; intros [|y b] H; simpl in *; try congruence.
  now rewrite IH by congruence.
Qed.

Lemma zip_with_map {A B C A' B' : Type} (f : A' -> B' -> C) (g : A -> A') (h : B -> B')
      (a : list A) (b : list B) :
  zip_with f (map g a) (map h b) = zip_with (fun x y => f (g x) (h y)) a b.
Proof.
  revert b; induction a as [|x a IH]; intros [|y b]; simpl; try reflexivity.
  now rewrite IH.
Qed.

Lemma zip_with_ext {A B C : Type} (f g : A -> B -> C) (a : list A) (b : list B) :
  (forall x y, f x y = g x y) -> zip_with f a b = zip_with g a b.
Proof.
  intros E; revert b; induction a as [|x a IH]; intros [|y b]; simpl; try reflexivity.
  now rewrite E, IH.
Qed.

Lemma np_binop_same_length (f : R -> R -> R) (a b : vec) :
  length a = length b -> np_binop f a b = Ok (zip_with f a b).
Proof.
  intros H; unfold np_binop. now rewrite H, Nat.eqb_refl.
Qed.

Lemma calculate_iteration_point_eq (itn : Z) (z_prev f_current : vec) :
  (1 <= itn)%Z -> length z_prev = length f_current ->
  calculate_iteration_point itn (Some z_prev) (Some f_current) =
  Ok (zip_with (fun z f => (IZR (itn - 1) / IZR itn) * z + (1 / IZR itn) * f)
               z_prev f_current).
Proof.
  intros Hitn Hlen. unfold calculate_iteration_point.
  destruct (Z.eqb_spec itn 0) as [->|_]; [lia|].
  cbn [not_none rbind]. unfold np_add, np_scale.
  rewrite np_binop_same_length by (now rewrite !length_map).
  now rewrite zip_with_map.
Qed.

Lemma zip_with_last_update (z f : vec) :
  length z = length f ->
  zip_with (fun x y => (IZR (1 - 1) / IZR 1) * x + (1 / IZR 1) * y) z f = f.
Proof.
  revert f; induction z as [|x z IH]; intros [|y f] H; simpl in *; try congruence.
  rewrite IH by congruence. f_equal. lra.
Qed.

Lemma iterate_updates_final (k : nat) : forall z f : vec,
  (1 <= k)%nat -> length z = length f -> iterate_updates k z f = Ok f.
Proof.
  induction k as [|k IH]; intros z f Hk Hlen; [lia|].
  cbn [iterate_updates].
  rewrite calculate_iteration_point_eq by (try lia; assumption).
  cbn [rbind].
  destruct k as [|k'].
  - cbn [iterate_updates]. f_equal. now apply zip_with_last_update.
  - apply IH; [lia|]. now rewrite zip_with_length.
Qed.

(** C1: for [itn >= 1] and equal-length vectors the iteration point is
    [((itn - 1) / itn) * z_prev + (1 / itn) * f_curr] element-wise, and
    running the update with [itn = n_iterations, ..., 1] against a fixed
    objective vector [f] ends exactly on [f]. *)
Theorem C1_iteration_point (itn : Z) (n_iterations : nat) (z_prev f_curr z0 f : vec)
        (Hitn : (1 <= itn)%Z) (Hlen : length z_prev = length f_curr)
        (Hn : (1 <= n_iterations)%nat) (Hlen0 : length z0 = length f) :
  calculate_iteration_point itn (Some z_prev) (Some f_curr) =
    Ok (zip_with (fun z fc => (IZR (itn - 1) / IZR itn) * z + (1 / IZR itn) * fc)
                 z_prev f_curr)
  /\ iterate_updates n_iterations z0 f = Ok f.
Proof.
  split.
  - now apply calculate_iteration_point_eq.
  - now apply iterate_updates_final.
Qed.

Lemma C1_iteration_point_witness :
  calculate_iteration_point 2 (Some [4; 0]) (Some [2; 6]) =
    Ok (zip_with (fun z fc => (IZR (2 - 1) / IZR 2) * z + (1 / IZR 2) * fc) [4; 0] [2; 6])
  /\ iterate_updates 3 [4; 0] [2; 6] = Ok [2; 6].
Proof.
  apply (@C1_iteration_point 2 3 [4; 0] [2; 6] [4; 0] [2; 6]);
    first [lia | reflexivity].
Defined.

(** ** Decisions on reals *)

Lemma Rleb_true (a b : R) : a <= b -> Rleb a b = true.
Proof. intros H; unfold Rleb; destruct (Rle_dec a b); [reflexivity|contradiction]. Qed.

Lemma Rleb_false (a b : R) : ~ a <= b -> Rleb a b = false.
Proof. intros H; unfold Rleb; destruct (Rle_dec a b); [contradiction|reflexivity]. Qed.

Lemma Reqb_true (a b : R) : a = b -> Reqb a b = true.
Proof. intros H; unfold Reqb; destruct (Req_dec_T a b); [reflexivity|contradiction]. Qed.

Lemma Reqb_false (a b : R) : a <> b -> Reqb a b = false.
Proof. intros H; unfold Reqb; destruct (Req_dec_T a b); [contradiction|reflexivity]. Qed.

Lemma float64_safe_pos : 0 < float64_safe.
Proof. apply IZR_lt. vm_compute. reflexivity. Qed.

Lemma float64_safe_room : 100 * (float64_safe * float64_safe) < float64_overflow.
Proof.
  unfold float64_overflow, float64_safe. rewrite <- !mult_IZR.
  apply IZR_lt. vm_compute. reflexivity.
Qed.

Lemma float64_safe_inverse : / float64_safe <= float64_safe.
Proof.
  assert (H : 1 <= float64_safe) by (apply IZR_le; vm_compute; discriminate).
  pose proof (Rinv_le_contravar 1 float64_safe Rlt_0_1 H) as Hinv.
  rewrite Rinv_1 in Hinv. lra.
Qed.

Lemma np_div_finite (a b : R) :
  b <> 0 -> Rabs (a / b) < float64_overflow -> np_div a b = Finite (a / b).
Proof.
  intros H Hsmall; unfold np_div; destruct (Req_dec_T b 0); [contradiction|].
  destruct (Rle_dec float64_overflow (Rabs (a / b))); [lra|reflexivity].
Qed.

Lemma np_mul_finite (r c : R) :
  Rabs (r * c) < float64_overflow -> np_mul (Finite r) c = Finite (r * c).
Proof.
  intros Hsmall. cbn [np_mul].
  destruct (Rle_dec float64_overflow (Rabs (r * c))); [lra|reflexivity].
Qed.

Lemma moderate_is_safe (d : R) :
  / 1024 <= d <= 1024 -> / float64_safe <= Rabs d <= float64_safe.
Proof.
  intros [Hlow Hhigh].
  assert (H : 1024 <= float64_safe) by (apply IZR_le; vm_compute; discriminate).
  assert (Hinv : / float64_safe <= / 1024) by (apply Rinv_le_contravar; lra).
  assert (Hpos : 0 < / 1024) by (apply Rinv_0_lt_compat; lra).
  rewrite Rabs_right by lra. lra.
Qed.

(** The inverse of a divisor between [1 / float64_safe] and
    [float64_safe] is a float64. *)
Lemma safe_inverse (d : R) :
  / float64_safe <= d <= float64_safe -> 0 < 1 / d /\ Rabs (1 / d) < float64_overflow.
Proof.
  intros [Hlow Hhigh]. pose proof float64_safe_pos as Hpos.
  pose proof float64_safe_room as Hroom.
  assert (Hinv : 0 < / float64_safe) by now apply Rinv_0_lt_compat.
  assert (Hd : 0 < d) by lra.
  assert (Hone : 0 < 1 / d) by (unfold Rdiv; rewrite Rmult_1_l; now apply Rinv_0_lt_compat).
  split; [exact Hone|]. rewrite Rabs_right by lra.
  assert (Hle : 1 / d <= float64_safe).
  { unfold Rdiv. rewrite Rmult_1_l. rewrite <- (Rinv_inv float64_safe).
    apply Rinv_le_contravar; assumption. }
  assert (Hsq : float64_safe <= float64_safe * float64_safe).
  { assert (H1 : 1 <= float64_safe) by (apply IZR_le; vm_compute; discriminate). nra. }
  nra.
Qed.

Lemma np_div_zero (a b : R) : b = 0 -> np_div a b = NonFinite.
Proof. intros H; unfold np_div; destruct (Req_dec_T b 0); [reflexivity|contradiction]. Qed.

(** ** Preference factors *)





(** ** Validation of preferences: accepted inputs *)

Lemma validate_preferences_rank_ok (n_objectives : Z) (resp : Response) (info : vec) (m : R) :
  preference_method resp = Some 1%Z -> preference_info resp = Some info ->
  (n_objectives <= len info)%Z -> py_max info = Ok m -> 1 <= m <= IZR n_objectives ->
  validate_preferences n_objectives resp = Ok tt.
Proof.
  intros Hm Hi Hlen Hmax [H1 H2]. unfold validate_preferences.
  rewrite Hm, Hi. cbn [Z.eqb Pos.eqb orb negb].
  destruct (Z.ltb_spec (len info) n_objectives); [lia|].
  rewrite Hmax. cbn [rbind].
  now rewrite (Rleb_true H1), (Rleb_true H2).
Qed.

Lemma validate_preferences_percentage_ok (n_objectives : Z) (resp : Response) (info : vec) :
  preference_method resp = Some 2%Z -> preference_info resp = Some info ->
  (n_objectives <= len info)%Z -> np_sum info = 100 ->
  validate_preferences n_objectives resp = Ok tt.
Proof.
  intros Hm Hi Hlen Hsum. unfold validate_preferences.
  rewrite Hm, Hi. cbn [Z.eqb Pos.eqb orb negb].
  destruct (Z.ltb_spec (len info) n_objectives); [lia|].
  now rewrite (Reqb_true Hsum).
Qed.



(** Outside the range of C3 a factor need not be finite although every
    entry is positive: with a gap of [2^-1064] between nadir and utopian
    point the quotient is [2^1064], which is [inf] as a float64. *)
Lemma preference_factor_overflow :
  calculate_preference_factors 1 [1; 2] [/ IZR (2 ^ 1064); 4] [0; 0]
  = Some [NonFinite; Finite (1 / (2 * (4 - 0)))].
Proof.
  unfold calculate_preference_factors. cbn [Z.eqb Pos.eqb zip_with3].
  assert (Hbig : 0 < IZR (2 ^ 1064)) by (apply IZR_lt; vm_compute; reflexivity).
  assert (Hover : float64_overflow <= IZR (2 ^ 1064))
    by (apply IZR_le; vm_compute; discriminate).
  assert (Hinv : 0 < / IZR (2 ^ 1064)) by now apply Rinv_0_lt_compat.
  assert (Hq : 1 / (1 * (/ IZR (2 ^ 1064) - 0)) = IZR (2 ^ 1064)) by (field; lra).
  assert (E1 : np_div 1 (1 * (/ IZR (2 ^ 1064) - 0)) = NonFinite).
  { unfold np_div. destruct (Req_dec_T (1 * (/ IZR (2 ^ 1064) - 0)) 0) as [_|_];
      [reflexivity|].
    rewrite Hq, Rabs_right by lra.
    destruct (Rle_dec float64_overflow (IZR (2 ^ 1064))); [reflexivity|contradiction]. }
  rewrite E1.
  assert (Hd : / float64_safe <= 2 * (4 - 0) <= float64_safe).
  { rewrite <- (Rabs_right (2 * (4 - 0))) by lra. apply moderate_is_safe. lra. }
  destruct (safe_inverse Hd) as [_ Hsmall].
  rewrite np_div_finite by (lra || exact Hsmall). reflexivity.
Qed.

(** ** Distance to the Pareto optimal set *)

Lemma sum_squares_nonneg (v : vec) : 0 <= np_sum (map (fun x => x * x) v).
Proof.
  induction v as [|x v IH]; simpl; [lra|]. pose proof (Rle_0_sqr x) as H.
  unfold Rsqr in H. lra.
Qed.

Lemma norm2_nonneg (v : vec) : 0 <= norm2 v.
Proof. apply sqrt_pos. Qed.

Lemma norm2_zero_iff (v : vec) : norm2 v = 0 <-> Forall (fun x => x = 0) v.
Proof.
  unfold norm2. split.
  - intros H. apply sqrt_eq_0 in H; [|apply sum_squares_nonneg].
    induction v as [|x v IH]; [constructor|].
    simpl in H. pose proof (sum_squares_nonneg v) as Hv.
    pose proof (Rle_0_sqr x) as Hx. unfold Rsqr in Hx.
    constructor; [nra | apply IH; lra].
  - intros H. replace (np_sum (map (fun x => x * x) v)) with 0; [apply sqrt_0|].
    induction H as [|x v Hx _ IH]; simpl; [reflexivity|]. subst x. lra.
Qed.

Lemma difference_zero_iff (f nadir : vec) :
  length f = length nadir ->
  (Forall (fun x => x = 0) (zip_with Rminus f nadir) <-> f = nadir).
Proof.
  revert nadir; induction f as [|x f IH]; intros [|n nadir] Hlen; simpl in *;
    try discriminate.
  - split; [reflexivity|constructor].
  - injection Hlen as Hlen. specialize (IH _ Hlen). split.
    + intros H. inversion H as [|? ? Hx Hrest]; subst.
      f_equal; [lra | now apply IH].
    + intros H. injection H as -> ->. constructor; [lra | now apply IH].
Qed.

Lemma norm2_scale (t : R) (v : vec) : 0 <= t -> norm2 (map (Rmult t) v) = t * norm2 v.
Proof.
  intros Ht. unfold norm2.
  replace (np_sum (map (fun x => x * x) (map (Rmult t) v)))
    with (t * t * np_sum (map (fun x => x * x) v)).
  - rewrite sqrt_mult_alt by nra. now rewrite sqrt_square.
  - induction v as [|x v IH]; simpl; [lra|]. rewrite <- IH. lra.
Qed.

Lemma segment_offset (t : R) (nadir f : vec) :
  length f = length nadir ->
  zip_with Rminus (zip_with (fun n fi => n + t * (fi - n)) nadir f) nadir =
  map (Rmult t) (zip_with Rminus f nadir).
Proof.
  revert nadir; induction f as [|x f IH]; intros [|n nadir] Hlen; simpl in *;
    try discriminate; try reflexivity.
  injection Hlen as Hlen. rewrite IH by assumption. f_equal. lra.
Qed.

Lemma calculate_distance_eq (z nadir f : vec) :
  length z = length nadir -> length f = length nadir ->
  calculate_distance (Some z) nadir (Some f) =
  Ok (np_mul (np_div (norm2 (zip_with Rminus z nadir)) (norm2 (zip_with Rminus f nadir))) 100).
Proof.
  intros Hz Hf. unfold calculate_distance, np_sub. cbn [not_none rbind].
  rewrite (np_binop_same_length Rminus z nadir Hz). cbn [rbind].
  now rewrite (np_binop_same_length Rminus f nadir Hf).
Qed.

Lemma norm2_entry (c : R) (v : vec) :
  Exists (fun d => c <= Rabs d) v -> c <= norm2 v.
Proof.
  unfold norm2. induction 1 as [x v Hx|x v _ IH]; cbn [map np_sum fold_right].
  - apply Rle_trans with (1 := Hx). rewrite <- sqrt_Rsqr_abs. unfold Rsqr.
    apply sqrt_le_1_alt. pose proof (sum_squares_nonneg v) as Hv. unfold np_sum in Hv. lra.
  - apply Rle_trans with (1 := IH). apply sqrt_le_1_alt.
    pose proof (Rle_0_sqr x) as Hx. unfold Rsqr in Hx. unfold np_sum. lra.
Qed.

Lemma sqrt_moderate (x : R) : x <= 1024 * 1024 -> sqrt x <= float64_safe.
Proof.
  intros Hx.
  assert (H : 1024 <= float64_safe) by (apply IZR_le; vm_compute; discriminate).
  apply Rle_trans with (2 := H). rewrite <- (sqrt_square 1024) by lra.
  now apply sqrt_le_1_alt.
Qed.

(** The distance for norms that float64 arithmetic can carry. *)
Lemma calculate_distance_safe (z nadir f : vec) :
  length z = length nadir -> length f = length nadir ->
  norm2 (zip_with Rminus z nadir) <= float64_safe ->
  Exists (fun d => / float64_safe <= Rabs d) (zip_with Rminus f nadir) ->
  0 < norm2 (zip_with Rminus f nadir)
  /\ calculate_distance (Some z) nadir (Some f) =
       Ok (Finite (100 * norm2 (zip_with Rminus z nadir) / norm2 (zip_with Rminus f nadir))).
Proof.
  intros Hz Hf Hzn Hsome.
  pose proof float64_safe_pos as Hpos. pose proof float64_safe_room as Hroom.
  assert (Hinv : 0 < / float64_safe) by now apply Rinv_0_lt_compat.
  pose proof (norm2_entry Hsome) as Hfn.
  pose proof (norm2_nonneg (zip_with Rminus z nadir)) as Hz0.
  set (nz := norm2 (zip_with Rminus z nadir)) in *.
  set (nf := norm2 (zip_with Rminus f nadir)) in *.
  assert (Hnf : 0 < nf) by lra.
  assert (Hrec : / nf <= float64_safe).
  { rewrite <- (Rinv_inv float64_safe). apply Rinv_le_contravar; assumption. }
  assert (Hrec0 : 0 < / nf) by now apply Rinv_0_lt_compat.
  assert (Hratio : 0 <= nz / nf <= float64_safe * float64_safe).
  { unfold Rdiv. split; [nra|]. apply Rmult_le_compat; lra. }
  split; [exact Hnf|].
  rewrite (calculate_distance_eq z nadir f Hz Hf). fold nz nf.
  rewrite np_div_finite; [|lra|rewrite Rabs_right; lra].
  rewrite np_mul_finite by (rewrite Rabs_right; nra).
  do 2 f_equal. field. lra.
Qed.

(** C6 (as amended): for vectors of one length whose distances to the
    nadir float64 arithmetic can carry (norms at most [2^500], and
    [f_curr] at least [2^-500] away from the nadir in some objective),
    the distance is [100 * ||z_curr - nadir|| / ||f_curr - nadir||], and
    it lies in [0, 100] when [z_curr] is on the segment from the nadir to
    [f_curr]; when [f_curr] equals the nadir the division by zero is not
    guarded and the result is not a finite number. *)
Theorem C6_distance (z nadir f : vec)
        (Hz : length z = length nadir) (Hf : length f = length nadir) :
  (norm2 (zip_with Rminus z nadir) <= float64_safe ->
   norm2 (zip_with Rminus f nadir) <= float64_safe ->
   Exists (fun d => / float64_safe <= Rabs d) (zip_with Rminus f nadir) ->
   calculate_distance (Some z) nadir (Some f) =
     Ok (Finite (100 * norm2 (zip_with Rminus z nadir) / norm2 (zip_with Rminus f nadir)))
   /\ (forall t, 0 <= t <= 1 -> z = zip_with (fun n fi => n + t * (fi - n)) nadir f ->
       0 <= 100 * norm2 (zip_with Rminus z nadir) / norm2 (zip_with Rminus f nadir) <= 100))
  /\ (f = nadir -> calculate_distance (Some z) nadir (Some f) = Ok NonFinite).
Proof.
  split.
  - intros Hzn _ Hsome.
    destruct (@calculate_distance_safe z nadir f Hz Hf Hzn Hsome) as [Hpos E].
    split; [exact E|].
    intros t [Ht0 Ht1] ->. rewrite segment_offset by assumption.
    rewrite norm2_scale by assumption.
    replace (100 * (t * norm2 (zip_with Rminus f nadir)) / norm2 (zip_with Rminus f nadir))
      with (100 * t) by (field; lra).
    lra.
  - intros ->. rewrite (calculate_distance_eq z nadir nadir Hz Hf).
    rewrite np_div_zero; [reflexivity|].
    apply norm2_zero_iff. now apply difference_zero_iff.
Qed.

Lemma C6_distance_witness :
  calculate_distance (Some [3; 2]) [4; 4] (Some [0; -4]) =
    Ok (Finite (100 * norm2 (zip_with Rminus [3; 2] [4; 4])
                / norm2 (zip_with Rminus [0; -4] [4; 4])))
  /\ 0 <= 100 * norm2 (zip_with Rminus [3; 2] [4; 4])
          / norm2 (zip_with Rminus [0; -4] [4; 4]) <= 100.
Proof.
  destruct (@C6_distance [3; 2] [4; 4] [0; -4] eq_refl eq_refl) as [H _].
  destruct H as [E B].
  - unfold norm2. cbn [zip_with map np_sum fold_right]. apply sqrt_moderate. lra.
  - unfold norm2. cbn [zip_with map np_sum fold_right]. apply sqrt_moderate. lra.
  - cbn [zip_with]. apply Exists_cons_hd.
    rewrite Rabs_left by lra.
    assert (H4 : / 1024 <= 4 <= 1024) by lra.
    apply moderate_is_safe in H4. rewrite Rabs_right in H4 by lra. lra.
  - split; [exact E|]. apply (B (1 / 4)); [lra|].
    simpl. repeat f_equal; lra.
Defined.

(** C6 (as stated) fails: with [f_curr] equal to the nadir the result is
    not 100 but the non-finite outcome of a division by zero. *)
Lemma C6_counterexample :
  calculate_distance (Some [4; 4]) [4; 4] (Some [4; 4]) = Ok NonFinite
  /\ calculate_distance (Some [4; 4]) [4; 4] (Some [4; 4]) <> Ok (Finite 100).
Proof.
  assert (E : calculate_distance (Some [4; 4]) [4; 4] (Some [4; 4]) = Ok NonFinite).
  { rewrite calculate_distance_eq by reflexivity.
    rewrite np_div_zero; [reflexivity|].
    apply norm2_zero_iff. simpl. repeat constructor; lra. }
  split; [exact E|]. rewrite E. discriminate.
Qed.

(** ** Epsilon constraints *)

Section WithoutIndex.

Variable t : Z.

Let keep (j : nat) : bool := negb (Z.of_nat j =? t)%Z.

Lemma without_index_from {A : Type} (s : nat) (l : list A) (d : A) :
  map snd (filter (fun p => negb (fst p =? t)%Z) (combine (map Z.of_nat (seq s (length l))) l))
  = map (fun j => nth (j - s) l d) (filter keep (seq s (length l))).
Proof.
  revert s; induction l as [|x l IH]; intros s; [reflexivity|].
  cbn [length seq map combine filter fst]. fold (keep s).
  assert (Htail : map (fun j => nth (j - S s) l d) (filter keep (seq (S s) (length l)))
                  = map (fun j => nth (j - s) (x :: l) d) (filter keep (seq (S s) (length l)))).
  { apply map_ext_in. intros j Hj. apply filter_In in Hj as [Hj _]. apply in_seq in Hj.
    replace (j - s)%nat with (S (j - S s)) by lia. reflexivity. }
  destruct (keep s); cbn [map snd]; rewrite IH, Htail; [|reflexivity].
  now rewrite Nat.sub_diag.
Qed.

Lemma without_index_nth {A : Type} (l : list A) (d : A) :
  without_index t l = map (fun j => nth j l d) (filter keep (seq 0 (length l))).
Proof.
  unfold without_index, enumerate. rewrite (without_index_from 0 l d).
  apply map_ext. intros j. now rewrite Nat.sub_0_r.
Qed.

Lemma filter_keep_length (s n : nat) :
  length (filter keep (seq s n)) =
  if ((Z.of_nat s <=? t) && (t <? Z.of_nat (s + n)))%Z then (n - 1)%nat else n.
Proof.
  revert s; induction n as [|n IH]; intros s.
  - simpl. now destruct ((Z.of_nat s <=? t) && (t <? Z.of_nat (s + 0)))%Z.
  - cbn [seq filter]. unfold keep at 1.
    destruct (Z.eqb_spec (Z.of_nat s) t) as [E|E]; cbn [negb length]; rewrite IH.
    + destruct (Z.leb_spec (Z.of_nat (S s)) t); [lia|].
      destruct (Z.leb_spec (Z.of_nat s) t); [|lia].
      destruct (Z.ltb_spec t (Z.of_nat (s + S n))); [|lia].
      cbn [andb]. lia.
    + destruct (Z.leb_spec (Z.of_nat (S s)) t), (Z.leb_spec (Z.of_nat s) t),
        (Z.ltb_spec t (Z.of_nat (S s + n))), (Z.ltb_spec t (Z.of_nat (s + S n)));
        cbn [andb]; lia.
Qed.

Lemma without_index_length {A : Type} (l : list A) :
  (0 <= t < len l)%Z -> length (without_index t l) = (length l - 1)%nat.
Proof.
  intros Ht. destruct l as [|d l']; [unfold len in Ht; simpl in Ht; lia|].
  rewrite (without_index_nth _ d), length_map, filter_keep_length.
  unfold len in Ht.
  destruct (Z.leb_spec (Z.of_nat 0) t); [|lia].
  destruct (Z.ltb_spec t (Z.of_nat (0 + length (d :: l')))); [reflexivity|lia].
Qed.

End WithoutIndex.

Lemma zip_with_map_index {A B C : Type} (g : A -> B -> C) (fa : nat -> A) (fb : nat -> B)
      (js : list nat) :
  zip_with g (map fa js) (map fb js) = map (fun j => g (fa j) (fb j)) js.
Proof. induction js as [|j js IH]; simpl; [reflexivity|now rewrite IH]. Qed.

(** The constraint evaluator of the subproblem for objective [i]. *)
Lemma evaluate_constraints_bound_problem (objs cons : vec -> vec) (eps : vec)
      (i : Z) (x : vec) :
  length (objs x) = length eps ->
  evaluate_constraints (bound_problem objs cons eps i) x =
  Ok (cons x ++
      map (fun j => - (nth j (objs x) 0 - nth j eps 0))
          (filter (fun j => negb (Z.of_nat j =? i)%Z) (seq 0 (length eps)))).
Proof.
  intros Hlen. unfold evaluate_constraints, bound_problem.
  cbn [objectives _to_be_minimized epsilons constraints].
  rewrite (without_index_nth i (objs x) 0), (without_index_nth i eps 0), Hlen.
  rewrite !length_map, Nat.eqb_refl. cbn [negb].
  now rewrite zip_with_map_index.
Qed.

Lemma py_getitem_nth {A : Type} (l : list A) (i : Z) (d : A) :
  (0 <= i < len l)%Z -> py_getitem l i = Ok (nth (Z.to_nat i) l d).
Proof.
  intros Hi. unfold py_getitem, py_index.
  destruct (Z.leb_spec 0 i); [|lia]. destruct (Z.ltb_spec i (len l)); [|lia].
  cbn [andb]. unfold len in Hi.
  destruct (nth_error l (Z.to_nat i)) eqn:E.
  - now rewrite (nth_error_nth _ _ d E).
  - apply nth_error_None in E. lia.
Qed.

Lemma py_setitem_app {A : Type} (done rest : list A) (old a : A) :
  py_setitem (done ++ old :: rest) (len done) a = Ok (done ++ a :: rest).
Proof.
  unfold py_setitem, py_index, len. rewrite length_app. cbn [length].
  destruct (Z.leb_spec 0 (Z.of_nat (length done))); [|lia].
  destruct (Z.ltb_spec (Z.of_nat (length done)) (Z.of_nat (length done + S (length rest))));
    [|lia].
  cbn [andb]. rewrite Nat2Z.id. f_equal. clear.
  induction done as [|h done IH]; simpl; [reflexivity|now rewrite IH].
Qed.

Section Bounds.

Variable T : Tools.
Variables (objs cons : vec -> vec) (x0 eps : vec).
Variable bounds : option (list vec).
Variable method : option ScalarMethod.

Lemma calculate_bounds_loop_mapM (m : nat) : forall (done : list (option R)),
  calculate_bounds_loop T objs x0 (Some eps) bounds cons method
                        (map Z.of_nat (seq (length done) m)) (done ++ repeat None m)
  = (bs <- result_mapM (solved_bound T objs cons x0 eps bounds method) (map Z.of_nat (seq (length done) m)) ;;
     Ok (done ++ bs))%result.
Proof.
  induction m as [|m IH]; intros done.
  - simpl. reflexivity.
  - cbn [seq map calculate_bounds_loop result_mapM repeat].
    unfold calculate_bounds_step, solved_bound. cbn [not_none rbind].
    fold (bound_problem objs cons eps (Z.of_nat (length done))).
    destruct (ScalarMinimizer_minimize T _ bounds _ method x0) as [res|e];
      cbn [rbind]; [|reflexivity].
    destruct (py_getitem (objs (result_x res)) (Z.of_nat (length done))) as [f_i|e];
      cbn [rbind]; [|reflexivity].
    change (Z.of_nat (length done)) with (len done) at 1.
    rewrite py_setitem_app. cbn [rbind].
    replace (done ++ Some f_i :: repeat None m) with ((done ++ [Some f_i]) ++ repeat None m)
      by (now rewrite <- app_assoc).
    replace (S (length done)) with (length (done ++ [Some f_i]))
      by (rewrite length_app; simpl; lia).
    rewrite IH.
    destruct (result_mapM _ _) as [bs|e]; cbn [rbind]; [|reflexivity].
    now rewrite <- app_assoc.
Qed.

Lemma calculate_bounds_mapM (n_objectives : Z) :
  calculate_bounds T objs n_objectives x0 (Some eps) bounds cons method =
  result_mapM (solved_bound T objs cons x0 eps bounds method) (py_range n_objectives).
Proof.
  unfold calculate_bounds, py_range, py_repeat.
  pose proof (calculate_bounds_loop_mapM (Z.to_nat n_objectives) []) as E.
  cbn [app length] in E. rewrite E. now destruct (result_mapM _ _).
Qed.

End Bounds.

Lemma result_mapM_nth {A B : Type} (f : A -> result B) (l : list A) : forall (bs : list B),
  result_mapM f l = Ok bs ->
  forall (k : nat) (a : A), nth_error l k = Some a ->
  exists b, f a = Ok b /\ nth_error bs k = Some b.
Proof.
  induction l as [|h l IH]; intros bs Hm k a Hk; [now destruct k|].
  cbn [result_mapM] in Hm.
  destruct (f h) as [b|e] eqn:Eh; [|discriminate]. cbn [rbind] in Hm.
  destruct (result_mapM f l) as [bs'|e]; [|discriminate]. cbn [rbind] in Hm.
  injection Hm as <-. destruct k as [|k]; cbn [nth_error] in *.
  - injection Hk as <-. now exists b.
  - now apply (IH bs' eq_refl k a).
Qed.

Lemma result_mapM_ok {A B : Type} (f : A -> result B) (l : list A) :
  (forall a, In a l -> exists b, f a = Ok b) ->
  exists bs, result_mapM f l = Ok bs /\ length bs = length l.
Proof.
  induction l as [|h l IH]; intros Hall; [now exists []|].
  destruct (Hall h (or_introl eq_refl)) as [b Hb].
  destruct IH as [bs [Hbs Hlen]]; [intros a Ha; apply Hall; now right|].
  exists (b :: bs). cbn [result_mapM]. rewrite Hb, Hbs. cbn [rbind length].
  now rewrite Hlen.
Qed.

Lemma py_range_nth (n i : Z) :
  (0 <= i < n)%Z -> nth_error (py_range n) (Z.to_nat i) = Some i.
Proof.
  intros Hi. unfold py_range.
  rewrite nth_error_map, nth_error_seq.
  destruct (Nat.ltb_spec (Z.to_nat i) (Z.to_nat n)); [|lia].
  cbn [option_map]. f_equal. lia.
Qed.

Lemma py_range_in (n j : Z) : In j (py_range n) -> (0 <= j < n)%Z.
Proof.
  unfold py_range. intros H. apply in_map_iff in H as [k [<- Hk]].
  apply in_seq in Hk. lia.
Qed.

(** C2: for an objective index [i] in [0..n-1], the constraint evaluator
    built by [calculate_bounds] returns the problem's constraint values
    followed by [-(f_j(x) - epsilon_j)] for every [j <> i]; the scalar
    objective handed to the minimizer is [f_i]; the bounds are the
    per-objective results in order, the entry for [i] being [f_i] at the
    point returned by the minimizer, and all the sub-solves succeeding
    gives the full vector; and an evaluator whose epsilon vector has a
    length other than [n - 1] raises ECMError. *)
Theorem C2_bounds (T : Tools) (objs cons : vec -> vec) (x0 eps : vec)
        (bounds : option (list vec)) (method : option ScalarMethod) (n i : Z)
        (Hi : (0 <= i < n)%Z)
        (Hobjs : forall x, len (objs x) = n)
        (Heps : len eps = n) :
  let problem := bound_problem objs cons eps in
  let solve j := ScalarMinimizer_minimize T (Scalarizer objs (ecm_call (problem j))) bounds
                                          (Some (evaluate_constraints (problem j))) method x0 in
  (forall x, evaluate_constraints (problem i) x =
             Ok (cons x ++
                 map (fun j => - (nth j (objs x) 0 - nth j eps 0))
                     (filter (fun j => negb (Z.of_nat j =? i)%Z) (seq 0 (Z.to_nat n)))))
  /\ (forall x, Scalarizer objs (ecm_call (problem i)) x = Ok (nth (Z.to_nat i) (objs x) 0))
  /\ calculate_bounds T objs n x0 (Some eps) bounds cons method =
     result_mapM (solved_bound T objs cons x0 eps bounds method) (py_range n)
  /\ (forall lbs, calculate_bounds T objs n x0 (Some eps) bounds cons method = Ok lbs ->
      exists res, solve i = Ok res
                  /\ nth_error lbs (Z.to_nat i)
                     = Some (Some (nth (Z.to_nat i) (objs (result_x res)) 0)))
  /\ ((forall j, (0 <= j < n)%Z -> exists res, solve j = Ok res) ->
      exists lbs, calculate_bounds T objs n x0 (Some eps) bounds cons method = Ok lbs
                  /\ len lbs = n)
  /\ (forall (e : EpsilonConstraintMethod) (x : vec),
      objectives e = objs -> _to_be_minimized e = i -> len (epsilons e) <> (n - 1)%Z ->
      evaluate_constraints e x = Raise ECMError).
Proof.
  intros problem solve.
  assert (Hget : forall x j, (0 <= j < n)%Z ->
                             py_getitem (objs x) j = Ok (nth (Z.to_nat j) (objs x) 0)).
  { intros x j Hj. apply py_getitem_nth. now rewrite Hobjs. }
  split; [|split; [|split; [|split; [|split]]]].
  - intros x. unfold problem.
    replace (Z.to_nat n) with (length eps) by (unfold len in Heps; lia).
    apply evaluate_constraints_bound_problem.
    specialize (Hobjs x). unfold len in *. lia.
  - intros x. unfold Scalarizer, ecm_call, problem, bound_problem.
    cbn [_to_be_minimized]. now apply Hget.
  - apply calculate_bounds_mapM.
  - intros lbs Hlbs. rewrite calculate_bounds_mapM in Hlbs.
    destruct (result_mapM_nth _ _ Hlbs (Z.to_nat i) (py_range_nth Hi)) as [b [Hb Hnth]].
    unfold solved_bound in Hb. fold (problem i) in Hb. fold (solve i) in Hb.
    destruct (solve i) as [res|e]; [|discriminate]. cbn [rbind] in Hb.
    rewrite (Hget _ _ Hi) in Hb. cbn [rbind] in Hb. injection Hb as <-.
    now exists res.
  - intros Hall. rewrite calculate_bounds_mapM.
    destruct (result_mapM_ok (solved_bound T objs cons x0 eps bounds method) (py_range n))
      as [bs [Hbs Hlen]].
    + intros j Hj. apply py_range_in in Hj. destruct (Hall j Hj) as [res Hres].
      unfold solved_bound. fold (problem j). fold (solve j). rewrite Hres. cbn [rbind].
      rewrite (Hget _ _ Hj). cbn [rbind]. eauto.
    + exists bs. split; [exact Hbs|]. unfold len. rewrite Hlen. unfold py_range.
      rewrite length_map, length_seq. lia.
  - intros e x Hobj Hmin Hlen. unfold evaluate_constraints.
    rewrite Hobj, Hmin, without_index_length by (now rewrite Hobjs).
    specialize (Hobjs x). unfold len in *.
    destruct (Nat.eqb_spec (length (objs x) - 1) (length (epsilons e))); [lia|reflexivity].
Qed.

Lemma C2_bounds_witness :
  evaluate_constraints (bound_problem demo_objectives demo_constraints [4; 4] 0) [1; 1] =
    Ok (demo_constraints [1; 1] ++ [- (nth 1 (demo_objectives [1; 1]) 0 - nth 1 [4; 4] 0)])
  /\ calculate_bounds demo_tools demo_objectives 2 [1; 1] (Some [4; 4]) None
                      demo_constraints None
     = Ok [Some (nth 0 (demo_objectives [1; 1]) 0); Some (nth 1 (demo_objectives [1; 1]) 0)]
  /\ evaluate_constraints
       (mkEpsilonConstraintMethod demo_objectives 0 [4; 4] (Some demo_constraints)) [1; 1]
     = Raise ECMError.
Proof.
  destruct (@C2_bounds demo_tools demo_objectives demo_constraints [1; 1] [4; 4] None None 2 0)
    as [Ha [_ [Hb [_ [_ Hc]]]]]; [lia | reflexivity | reflexivity |].
  split; [exact (Ha [1; 1])|]. split; [etransitivity; [exact Hb|reflexivity]|].
  apply Hc; [reflexivity | reflexivity | unfold len; simpl; lia].
Defined.

(** ** Computations in [M] *)

Lemma returns_bind {A B : Type} (P : B -> Prop) (m : M A) (k : A -> M B) :
  (forall a, returns P (k a)) -> returns P (bind m k).
Proof.
  intros Hk self b self' H. unfold bind in H.
  destruct (m self) as [[a|e] s1]; [|discriminate].
  exact (Hk a s1 b self' H).
Qed.

Lemma returns_ret {A : Type} (P : A -> Prop) (a : A) : P a -> returns P (ret a).
Proof. intros H self b self' E. injection E as <- _. exact H. Qed.

Lemma same_trans {B : Type} (field : Nautilus -> B) (s1 s2 s3 : Nautilus) :
  same field s1 s2 -> same field s2 s3 -> same field s1 s3.
Proof. unfold same. congruence. Qed.

Lemma preserves_bind {A B : Type} (R : Nautilus -> Nautilus -> Prop)
      (m : M A) (k : A -> M B) :
  (forall s1 s2 s3, R s1 s2 -> R s2 s3 -> R s1 s3) ->
  preserves R m -> (forall a, preserves R (k a)) -> preserves R (bind m k).
Proof.
  intros Htrans Hm Hk self. unfold bind. specialize (Hm self).
  destruct (m self) as [[a|e] s1]; cbn [snd] in *; [|exact Hm].
  exact (Htrans _ _ _ Hm (Hk a s1)).
Qed.

Lemma preserves_pure {A B : Type} (field : Nautilus -> B) (m : M A) :
  (forall self, snd (m self) = self) -> preserves (same field) m.
Proof. intros H self. unfold same. now rewrite H. Qed.

Lemma preserves_modify {B : Type} (field : Nautilus -> B) (f : Nautilus -> Nautilus) :
  (forall self, field (f self) = field self) -> preserves (same field) (modify f).
Proof. intros H self. exact (H self). Qed.

Lemma preserves_assign_item {A B : Type} (field : Nautilus -> B)
      (get : Nautilus -> list A) (set : list A -> Nautilus -> Nautilus) (i : Z) (a : A) :
  (forall l self, field (set l self) = field self) ->
  preserves (same field) (assign_item get set i a).
Proof.
  intros H self. unfold assign_item, same.
  destruct (py_setitem (get self) i a); cbn [snd]; [apply H|reflexivity].
Qed.

Lemma eqM_refl {A : Type} (m : M A) : eqM m m.
Proof. intros self. reflexivity. Qed.

Lemma eqM_bind {A B : Type} (m m' : M A) (k k' : A -> M B) :
  eqM m m' -> (forall a, eqM (k a) (k' a)) -> eqM (bind m k) (bind m' k').
Proof.
  intros Hm Hk self. unfold bind. rewrite (Hm self).
  destruct (m' self) as [[a|e] s1]; [apply Hk|reflexivity].
Qed.

(** Walks down a chain of [bind]s whose steps leave [field] alone. *)
Ltac frame :=
  lazymatch goal with
  | |- preserves _ (bind _ _) =>
    apply preserves_bind; [apply same_trans | frame | intro; frame]
  | |- preserves _ (modify _) => apply preserves_modify; intro; reflexivity
  | |- preserves _ (assign_item _ _ _ _) =>
    apply preserves_assign_item; intros; reflexivity
  | |- preserves _ (if ?b then _ else _) => destruct b; frame
  | |- preserves _ _ => first [ assumption | apply preserves_pure; intro; reflexivity ]
  end.

(** Walks down a chain of [bind]s to its return value. *)
Ltac to_return :=
  lazymatch goal with
  | |- returns _ (bind _ _) => apply returns_bind; intro; to_return
  | |- returns _ (ret _) => apply returns_ret
  | |- returns _ (if ?b then _ else _) => destruct b; to_return
  | |- returns _ _ => first [ assumption | idtac ]
  end.

(** ** The closing block of a turn *)

Section Handlers.

Variable T : Tools.

Lemma bounds_distance_request_core (x0 : vec) :
  preserves (same (fun self => (navigation_core self, _zs self)))
            (bounds_distance_request T x0).
Proof. unfold bounds_distance_request. frame. Qed.

Lemma bounds_distance_request_returns (x0 : vec) :
  returns (fun r => is_stop_request r = false) (bounds_distance_request T x0).
Proof. unfold bounds_distance_request. to_return. reflexivity. Qed.

End Handlers.

(** ** Attributes after an assignment *)

Ltac fields :=
  cbn [_objective_names _minimize _problem _variable_bounds _epsilon _ideal _nadir _utopian
       _reachable_ub _reachable_lb _lower_bounds _upper_bounds _step_number _zs _xs _fs _ds
       _q _distance _preference_method _preference_info _preference_factors _n_iterations
       _n_iterations_left _use_previous_preference _step_back _short_step _first_iteration
       set_lower_bounds set_upper_bounds set_step_number set_zs set_xs set_fs set_ds set_q
       set_preference_method set_preference_info set_preference_factors set_n_iterations
       set_n_iterations_left set_step_back set_short_step] in *.

Ltac unfold_handle_request :=
  cbv beta iota delta [handle_request bind lift gets modify ret item response not_none].

(** ** Dispatch of [handle_request] *)

Section Dispatch.

Variable T : Tools.
Variables (n : Z) (c : IterationContent) (resp : Response) (self : Nautilus).

Lemma apply_n_iterations_core :
  _step_number (apply_n_iterations resp self) = _step_number self
  /\ _xs (apply_n_iterations resp self) = _xs self
  /\ _fs (apply_n_iterations resp self) = _fs self
  /\ _zs (apply_n_iterations resp self) = _zs self.
Proof. unfold apply_n_iterations. destruct (n_iterations resp); repeat split. Qed.

Lemma handle_request_untyped :
  _n_iterations_left (apply_n_iterations resp self) = None ->
  handle_request T (RequestObj n c (Some resp)) self = (Raise TypeError, apply_n_iterations resp self).
Proof.
  unfold_handle_request. unfold apply_n_iterations.
  destruct (n_iterations resp); fields; intros Hleft; [discriminate|].
  now rewrite Hleft.
Qed.

Lemma handle_request_terminates (itn : Z) :
  _n_iterations_left (apply_n_iterations resp self) = Some itn -> (itn <= 1)%Z ->
  handle_request T (RequestObj n c (Some resp)) self = terminated (apply_n_iterations resp self).
Proof.
  unfold_handle_request. unfold apply_n_iterations, terminated.
  destruct (n_iterations resp); fields; intros Hleft Hlast.
  - injection Hleft as ->. destruct (Z.leb_spec itn 1); [|lia]. fields.
    destruct (py_getitem (_xs self) (_step_number self)); [|reflexivity].
    destruct (py_getitem (_fs self) (_step_number self)); reflexivity.
  - rewrite Hleft. destruct (Z.leb_spec itn 1); [|lia]. fields.
    destruct (py_getitem (_xs self) (_step_number self)); [|reflexivity].
    destruct (py_getitem (_fs self) (_step_number self)); reflexivity.
Qed.

Lemma handle_request_continues (itn : Z) :
  _n_iterations_left (apply_n_iterations resp self) = Some itn -> (1 < itn)%Z ->
  use_previous_preference resp = Some true -> step_back resp = Some false ->
  handle_request T (RequestObj n c (Some resp)) self =
  continue_with_previous_preference T (apply_n_iterations resp self).
Proof.
  unfold_handle_request. unfold apply_n_iterations.
  intros Hleft Hmore -> ->. cbn [getkey negb].
  destruct (n_iterations resp); fields.
  - injection Hleft as ->. now destruct (Z.leb_spec itn 1); [lia|].
  - rewrite Hleft. now destruct (Z.leb_spec itn 1); [lia|].
Qed.

Lemma handle_request_short_step (itn : Z) (use_previous : bool) :
  _n_iterations_left (apply_n_iterations resp self) = Some itn -> (1 < itn)%Z ->
  use_previous_preference resp = Some use_previous ->
  step_back resp = Some true -> short_step resp = Some true ->
  handle_request T (RequestObj n c (Some resp)) self =
  take_short_step T (set_step_back true (apply_n_iterations resp self)).
Proof.
  unfold_handle_request. unfold apply_n_iterations.
  intros Hleft Hmore -> -> ->. cbn [getkey negb].
  destruct (n_iterations resp); fields.
  - injection Hleft as ->. destruct (Z.leb_spec itn 1); [lia|]. now destruct use_previous.
  - rewrite Hleft. destruct (Z.leb_spec itn 1); [lia|]. now destruct use_previous.
Qed.

Lemma handle_request_new_preferences (itn : Z) :
  _n_iterations_left (apply_n_iterations resp self) = Some itn -> (1 < itn)%Z ->
  use_previous_preference resp = Some false ->
  step_back resp = Some true -> short_step resp = Some false ->
  handle_request T (RequestObj n c (Some resp)) self =
  step_back_with_new_preferences T resp (set_step_back true (apply_n_iterations resp self)).
Proof.
  unfold_handle_request. unfold apply_n_iterations.
  intros Hleft Hmore -> -> ->. cbn [getkey negb].
  destruct (n_iterations resp); fields.
  - injection Hleft as ->. now destruct (Z.leb_spec itn 1); [lia|].
  - rewrite Hleft. now destruct (Z.leb_spec itn 1); [lia|].
Qed.

Lemma handle_request_falls_through (itn : Z) :
  _n_iterations_left (apply_n_iterations resp self) = Some itn -> (1 < itn)%Z ->
  use_previous_preference resp = Some true ->
  step_back resp = Some true -> short_step resp = Some false ->
  handle_request T (RequestObj n c (Some resp)) self =
  (Ok None, set_step_back true (apply_n_iterations resp self)).
Proof.
  unfold_handle_request. unfold apply_n_iterations.
  intros Hleft Hmore -> -> ->. cbn [getkey negb].
  destruct (n_iterations resp); fields.
  - injection Hleft as ->. now destruct (Z.leb_spec itn 1); [lia|].
  - rewrite Hleft. now destruct (Z.leb_spec itn 1); [lia|].
Qed.

End Dispatch.

(** ** The branches of a turn *)

Ltac frame_block :=
  lazymatch goal with
  | |- preserves _ (bind _ _) =>
    apply preserves_bind; [apply same_trans | frame_block | intro; frame_block]
  | |- preserves _ (bounds_distance_request _ _) => unfold bounds_distance_request; frame_block
  | |- preserves _ _ => frame
  end.

Ltac to_return_block :=
  lazymatch goal with
  | |- returns _ (bind _ _) => apply returns_bind; intro; to_return_block
  | |- returns _ (bounds_distance_request _ _) =>
    unfold bounds_distance_request; to_return; reflexivity
  | |- returns _ _ => to_return
  end.

Lemma bind_modify {B : Type} (f : Nautilus -> Nautilus) (k : unit -> M B) (self : Nautilus) :
  bind (modify f) k self = k tt (f self).
Proof. reflexivity. Qed.

Lemma bind_gets {A B : Type} (field : Nautilus -> A) (k : A -> M B) (self : Nautilus) :
  bind (gets field) k self = k (field self) self.
Proof. reflexivity. Qed.

Lemma bind_lift_ok {A B : Type} (a : A) (k : A -> M B) (self : Nautilus) :
  bind (lift (Ok a)) k self = k a self.
Proof. reflexivity. Qed.

Lemma bind_item {A B : Type} (field : Nautilus -> list A) (i : Z) (a : A) (k : A -> M B)
      (self : Nautilus) :
  py_getitem (field self) i = Ok a -> bind (item field i) k self = k a self.
Proof. intros H. unfold bind, item. now rewrite H. Qed.

Lemma bind_assign_item {A B : Type} (field : Nautilus -> list A)
      (set : list A -> Nautilus -> Nautilus) (i : Z) (a : A) (l : list A) (k : unit -> M B)
      (self : Nautilus) :
  py_setitem (field self) i a = Ok l ->
  bind (assign_item field set i a) k self = k tt (set l self).
Proof. intros H. unfold bind, assign_item. now rewrite H. Qed.

Lemma preserves_apply {A : Type} (R : Nautilus -> Nautilus -> Prop) (m : M A)
      (self : Nautilus) :
  preserves R m -> R self (snd (m self)).
Proof. intros H. apply H. Qed.

Section Branches.

Variable T : Tools.

Lemma take_short_step_core :
  preserves (same navigation_core) (take_short_step T).
Proof. unfold take_short_step. frame_block. Qed.

Lemma take_short_step_returns :
  returns (fun r => is_stop_request r = false) (take_short_step T).
Proof. unfold take_short_step. to_return_block. Qed.

Lemma step_back_with_new_preferences_counters (resp : Response) :
  preserves (same (fun self => (_step_number self, _n_iterations self,
                                _n_iterations_left self)))
            (step_back_with_new_preferences T resp).
Proof. unfold step_back_with_new_preferences. frame_block. Qed.

Lemma step_back_with_new_preferences_returns (resp : Response) :
  returns (fun r => is_stop_request r = false) (step_back_with_new_preferences T resp).
Proof. unfold step_back_with_new_preferences. to_return_block. Qed.

Lemma continue_with_previous_preference_returns :
  returns (fun r => is_stop_request r = false) (continue_with_previous_preference T).
Proof. unfold continue_with_previous_preference. to_return_block. Qed.

Lemma continue_with_previous_preference_counters (self : Nautilus) (itn : Z) :
  _n_iterations_left self = Some itn ->
  let self' := snd (continue_with_previous_preference T self) in
  _n_iterations_left self' = Some (itn - 1)%Z
  /\ _n_iterations self' = _n_iterations self
  /\ _step_number self' = (_step_number self + 1)%Z.
Proof.
  intros Hleft. unfold continue_with_previous_preference.
  rewrite bind_modify, bind_gets. fields. rewrite Hleft. cbn [not_none].
  rewrite bind_lift_ok, bind_modify, bind_gets, bind_modify, bind_gets. fields.
  cbv zeta.
  match goal with
  | |- _n_iterations_left (snd (?m ?s)) = _ /\ _ =>
    assert (H : same (fun self => (_n_iterations_left self, _n_iterations self,
                                   _step_number self)) s (snd (m s)))
      by (apply preserves_apply; frame_block)
  end.
  unfold same in H. fields. injection H as H1 H2 H3.
  now rewrite H1, H2, H3.
Qed.

End Branches.

(** ** Termination *)

(** C8 (as amended): on an intermediate turn whose remaining-iterations
    counter, as tested by [handle_request], is at most 1, and on which
    the slots of [xs] and [fs] at the current step number exist, the
    turn returns the stop request holding the decision and objective
    vectors stored there and the message "Final solution found.",
    without advancing the step; and [iterate] on that stop request
    returns it and leaves the method object as it is. *)
Theorem C8_termination (T : Tools) (n : Z) (c : IterationContent) (resp : Response)
        (self : Nautilus) (itn : Z) (x_h f_h : option vec)
        (Hleft : _n_iterations_left (apply_n_iterations resp self) = Some itn)
        (Hlast : (itn <= 1)%Z)
        (Hx : py_getitem (_xs self) (_step_number self) = Ok x_h)
        (Hf : py_getitem (_fs self) (_step_number self) = Ok f_h) :
  let stop := StopRequestObj (mkStopContent "Final solution found." x_h f_h) in
  let turn := iterate T (RequestObj n c (Some resp)) self in
  fst turn = Ok (Some stop)
  /\ snd turn = set_n_iterations_left (Some 0%Z) (apply_n_iterations resp self)
  /\ _step_number (snd turn) = _step_number self
  /\ (forall self', iterate T stop self' = (Ok (Some stop), self')).
Proof.
  intros stop turn. unfold turn. cbn [iterate].
  rewrite (handle_request_terminates T n c resp self Hleft Hlast).
  destruct (apply_n_iterations_core resp self) as [Hs [Hxs [Hfs _]]].
  unfold terminated. rewrite Hs, Hxs, Hfs, Hx, Hf. cbn [rbind fst snd].
  repeat split. fields. exact Hs.
Qed.

Lemma C8_termination_witness :
  let last := mkResponse (Some 1%Z) (Some false) None (Some true) None None in
  let stop := StopRequestObj (mkStopContent "Final solution found."
                                            (nth 1 (_xs demo_method) None)
                                            (nth 1 (_fs demo_method) None)) in
  let turn := iterate demo_tools (RequestObj 2 (mkIterationContent [] [] None None None None)
                                             (Some last)) demo_method in
  fst turn = Ok (Some stop)
  /\ snd turn = set_n_iterations_left (Some 0%Z) (apply_n_iterations last demo_method)
  /\ _step_number (snd turn) = _step_number demo_method
  /\ (forall self', iterate demo_tools stop self' = (Ok (Some stop), self')).
Proof.
  intros last stop turn.
  apply (@C8_termination demo_tools 2 (mkIterationContent [] [] None None None None) last
                         demo_method 1%Z (nth 1 (_xs demo_method) None)
                         (nth 1 (_fs demo_method) None)).
  - reflexivity.
  - lia.
  - vm_compute. reflexivity.
  - vm_compute. reflexivity.
Defined.

(** C8 (as stated) fails where the slots do not exist.  On a fresh
    method object the history lists are empty, and an intermediate turn
    with one iteration remaining raises IndexError.  In the demonstration
    session a "continue" response raises the number of iterations from 4
    to 6; the lists keep their five slots; after four more "continue"
    turns one iteration remains at step 6, and the turn that should end
    the session raises IndexError too.  Every response is one the setter
    accepts. *)
Lemma C8_counterexample :
  let c := mkIterationContent [] [] None None None None in
  let last := mkResponse (Some 1%Z) (Some false) None (Some true) None None in
  (set_response (RequestObj 2 c None) last = (Ok tt, RequestObj 2 c (Some last))
   /\ _n_iterations_left (apply_n_iterations last demo_initial_method) = Some 1%Z
   /\ fst (iterate demo_tools (RequestObj 2 c (Some last)) demo_initial_method)
      = Raise IndexError)
  /\ (set_response (RequestObj 2 c None) demo_six_iterations
      = (Ok tt, RequestObj 2 c (Some demo_six_iterations))
      /\ set_response (RequestObj 2 c None) demo_continue
         = (Ok tt, RequestObj 2 c (Some demo_continue))
      /\ _n_iterations_left (snd (demo_raised 4)) = Some 1%Z
      /\ _step_number (snd (demo_raised 4)) = 6%Z
      /\ len (_xs (snd (demo_raised 4))) = 5%Z
      /\ fst (iterate demo_tools (RequestObj 2 c (Some demo_continue)) (snd (demo_raised 4)))
         = Raise IndexError).
Proof.
  cbv zeta. split; [split; [|split]|split; [|split; [|split; [|split; [|split]]]]];
    vm_compute; reflexivity.
Qed.

(** ** The unhandled combination *)

(** C9: the code at the failing input.  The response with
    [step_back = True], [short_step = False] and
    [use_previous_preference = True] is accepted by the setter of the
    request, and the turn then returns [None]: only the [_step_back] flag
    of the method object changes. *)
Theorem C9_falls_through :
  set_response demo_request demo_step_back_previous
    = (Ok tt, snd (set_response demo_request demo_step_back_previous))
  /\ response (snd (set_response demo_request demo_step_back_previous))
     = Some demo_step_back_previous
  /\ respond_and_iterate demo_tools demo_step_back_previous (demo_method, demo_request)
     = (Ok None, (set_step_back true demo_method,
                  snd (set_response demo_request demo_step_back_previous))).
Proof.
  split; [|split]; vm_compute; reflexivity.
Qed.

(** ** Changing the number of iterations *)

Lemma handle_request_after_n_iterations (T : Tools) (n : Z) (c : IterationContent)
      (resp : Response) (self : Nautilus) :
  handle_request T (RequestObj n c (Some resp)) self =
  handle_request T (RequestObj n c (Some (clear_n_iterations resp)))
                 (apply_n_iterations resp self).
Proof.
  unfold_handle_request. unfold apply_n_iterations, clear_n_iterations.
  cbn [n_iterations step_back short_step use_previous_preference].
  destruct (n_iterations resp); reflexivity.
Qed.

Lemma handle_request_not_stop (T : Tools) (n : Z) (c : IterationContent)
      (resp : Response) (self : Nautilus) (itn : Z) :
  _n_iterations_left (apply_n_iterations resp self) = Some itn -> (1 < itn)%Z ->
  forall r self', handle_request T (RequestObj n c (Some resp)) self = (Ok r, self') ->
  is_stop_request r = false
  /\ _n_iterations self' = _n_iterations (apply_n_iterations resp self)
  /\ (_n_iterations_left self' = Some itn \/ _n_iterations_left self' = Some (itn - 1)%Z).
Proof.
  intros Hleft Hmore r self' Hrun.
  assert (Hraw := Hrun). rewrite handle_request_after_n_iterations in Hraw.
  set (s0 := apply_n_iterations resp self) in *.
  revert Hraw. unfold_handle_request.
  cbn [clear_n_iterations n_iterations use_previous_preference step_back short_step].
  rewrite Hleft. destruct (Z.leb_spec itn 1); [lia|].
  destruct (use_previous_preference resp) as [use_previous|] eqn:Hprev; [|discriminate].
  destruct (step_back resp) as [back|] eqn:Hback;
    [|destruct use_previous; discriminate].
  cbn [getkey]. destruct back.
  - destruct (short_step resp) as [short|] eqn:Hshort;
      [|destruct use_previous; discriminate].
    intros _. destruct short; [|destruct use_previous].
    + rewrite (handle_request_short_step T n c resp self Hleft Hmore Hprev Hback Hshort)
        in Hrun. fold s0 in Hrun.
      pose proof (take_short_step_core T (set_step_back true s0)) as Hcore.
      rewrite Hrun in Hcore. unfold same, navigation_core in Hcore. cbn [snd] in Hcore.
      fields. injection Hcore as _ Hits Hl _ _.
      split; [exact (take_short_step_returns T _ Hrun)|]. split; [exact Hits|].
      left. now rewrite Hl.
    + rewrite (handle_request_falls_through T n c resp self Hleft Hmore Hprev Hback Hshort)
        in Hrun. fold s0 in Hrun. injection Hrun as <- <-. fields.
      split; [reflexivity|]. split; [reflexivity|]. now left.
    + rewrite (handle_request_new_preferences T n c resp self Hleft Hmore Hprev Hback Hshort)
        in Hrun. fold s0 in Hrun.
      pose proof (step_back_with_new_preferences_counters T resp (set_step_back true s0))
        as Hcore.
      rewrite Hrun in Hcore. unfold same in Hcore. cbn [snd] in Hcore.
      fields. injection Hcore as _ Hits Hl.
      split; [exact (step_back_with_new_preferences_returns T resp _ Hrun)|]. split; [exact Hits|].
      left. now rewrite Hl.
  - destruct use_previous.
    + intros _.
      rewrite (handle_request_continues T n c resp self Hleft Hmore Hprev Hback) in Hrun.
      fold s0 in Hrun.
      destruct (continue_with_previous_preference_counters T s0 Hleft) as [Hl [Hits _]].
      rewrite Hrun in Hl, Hits. cbn [snd] in Hl, Hits.
      split; [exact (continue_with_previous_preference_returns T _ Hrun)|]. split; [exact Hits|].
      now right.
    + cbn [negb]. intros Hraw. injection Hraw as <- <-.
      split; [reflexivity|]. split; [reflexivity|]. now left.
Qed.

(** C10: when the response carries an ["n_iterations"] entry [k], both
    counters are set to [k] before anything else: the turn is the turn of
    the same response without the entry, run from the state whose total
    and remaining counts are [k].  So [k <= 1] ends in the termination
    branch, and [k >= 2] never returns a stop request, whatever the
    remaining count was; the total stays [k] and the remaining count is
    [k] or, after a "continue", [k - 1]. *)
Theorem C10_change_iterations (T : Tools) (n : Z) (c : IterationContent) (resp : Response)
        (self : Nautilus) (k : Z) (Hk : n_iterations resp = Some k) :
  let self_k := set_n_iterations_left (Some k) (set_n_iterations (Some k) self) in
  let turn := handle_request T (RequestObj n c (Some resp)) self in
  _n_iterations self_k = Some k
  /\ _n_iterations_left self_k = Some k
  /\ turn = handle_request T (RequestObj n c (Some (clear_n_iterations resp))) self_k
  /\ ((k <= 1)%Z -> turn = terminated self_k)
  /\ ((1 < k)%Z -> forall r self', turn = (Ok r, self') ->
      is_stop_request r = false
      /\ _n_iterations self' = Some k
      /\ (_n_iterations_left self' = Some k \/ _n_iterations_left self' = Some (k - 1)%Z)).
Proof.
  intros self_k turn.
  assert (Happly : apply_n_iterations resp self = self_k)
    by (unfold apply_n_iterations; now rewrite Hk).
  split; [reflexivity|]. split; [reflexivity|]. split; [|split].
  - unfold turn. now rewrite handle_request_after_n_iterations, Happly.
  - intros Hlast. unfold turn. rewrite <- Happly.
    apply handle_request_terminates with (itn := k); [now rewrite Happly|exact Hlast].
  - intros Hmore r self' Hrun.
    destruct (@handle_request_not_stop T n c resp self k) with (r := r) (self' := self')
      as [Hstop [Hits Hl]];
      [now rewrite Happly | exact Hmore | exact Hrun |].
    rewrite Happly in Hits. now repeat split.
Qed.

Lemma C10_change_iterations_witness :
  let resp := mkResponse (Some 2%Z) (Some false) None (Some true) None None in
  let c := mkIterationContent [] [] None None None None in
  let self_k := set_n_iterations_left (Some 2%Z) (set_n_iterations (Some 2%Z) demo_method) in
  let turn := handle_request demo_tools (RequestObj 2 c (Some resp)) demo_method in
  _n_iterations self_k = Some 2%Z
  /\ _n_iterations_left self_k = Some 2%Z
  /\ turn = handle_request demo_tools (RequestObj 2 c (Some (clear_n_iterations resp))) self_k
  /\ ((2 <= 1)%Z -> turn = terminated self_k)
  /\ ((1 < 2)%Z -> forall r self', turn = (Ok r, self') ->
      is_stop_request r = false
      /\ _n_iterations self' = Some 2%Z
      /\ (_n_iterations_left self' = Some 2%Z
          \/ _n_iterations_left self' = Some (2 - 1)%Z)).
Proof.
  intros resp c self_k turn.
  apply (@C10_change_iterations demo_tools 2 c resp demo_method 2%Z).
  reflexivity.
Defined.

(** ** The short step *)


Lemma list_update_nth_error {A : Type} (l : list A) (k : nat) (a b : A) :
  nth_error l k = Some a -> nth_error (list_update l k b) k = Some b.
Proof.
  revert k; induction l as [|h l IH]; intros [|k] H; simpl in *; try discriminate.
  - reflexivity.
  - now apply IH.
Qed.

Lemma list_update_length {A : Type} (l : list A) (k : nat) (b : A) :
  length (list_update l k b) = length l.
Proof.
  revert k; induction l as [|h l IH]; intros [|k]; simpl; try reflexivity.
  now rewrite IH.
Qed.







(** ** The success flag of the minimizer *)

Section SuccessFlag.

Variable flag : bool.
Variable T : Tools.

Lemma calculate_bounds_with_success (objs : vec -> vec) (n_objectives : Z) (x0 : vec)
      (eps : option vec) (bounds : option (list vec)) (cons : vec -> vec)
      (method : option ScalarMethod) :
  calculate_bounds (with_success flag T) objs n_objectives x0 eps bounds cons method =
  calculate_bounds T objs n_objectives x0 eps bounds cons method.
Proof.
  unfold calculate_bounds.
  generalize (py_repeat (@None R) n_objectives) as acc.
  induction (py_range n_objectives) as [|i range IH]; intros acc; [reflexivity|].
  cbn [calculate_bounds_loop].
  assert (Hstep : calculate_bounds_step (with_success flag T) objs x0 eps bounds cons
                                        method acc i
                  = calculate_bounds_step T objs x0 eps bounds cons method acc i).
  { unfold calculate_bounds_step. destruct eps as [eps_array|]; [|reflexivity].
    cbn [not_none rbind with_success ScalarMinimizer_minimize]. unfold rmap.
    now destruct (ScalarMinimizer_minimize T _ bounds _ method x0). }
  rewrite Hstep.
  destruct (calculate_bounds_step T objs x0 eps bounds cons method acc i); cbn [rbind];
    [apply IH|reflexivity].
Qed.

Lemma solve_asf_with_success {B : Type} (q : option vec) (x0 : vec)
      (factors : option (list npfloat)) (nadir utopian : vec) (objs : vec -> vec)
      (variable_bounds : option (list vec)) (method : option ScalarMethod)
      (k k' : SolverResult -> M B) :
  (forall res, eqM (k (mkSolverResult (result_x res) (result_fun res) flag)) (k' res)) ->
  eqM (bind (lift (solve_asf (with_success flag T) q x0 factors nadir utopian objs
                             variable_bounds method)) k)
      (bind (lift (solve_asf T q x0 factors nadir utopian objs variable_bounds method)) k').
Proof.
  intros Hk self. unfold bind, lift, solve_asf.
  cbn [with_success ScalarMinimizer_minimize ReferencePointASF]. unfold rmap.
  destruct (ScalarMinimizer_minimize T _ variable_bounds None method x0) as [res|e];
    cbn [rbind]; [apply Hk|reflexivity].
Qed.

Ltac walk :=
  lazymatch goal with
  | |- eqM (bind (lift (solve_asf _ _ _ _ _ _ _ _ _)) _) _ =>
    apply solve_asf_with_success; intro; cbv beta; cbn [result_x]; walk
  | |- eqM (bind (lift (calculate_bounds _ _ _ _ _ _ _ _)) _) _ =>
    rewrite calculate_bounds_with_success; apply eqM_bind; [apply eqM_refl|intro; walk]
  | |- eqM (bind _ _) (bind _ _) => apply eqM_bind; [apply eqM_refl|intro; walk]
  | |- eqM (bounds_distance_request _ _) _ => unfold bounds_distance_request; walk
  | |- eqM (continue_with_previous_preference _) _ =>
    unfold continue_with_previous_preference; walk
  | |- eqM (take_short_step _) _ => unfold take_short_step; walk
  | |- eqM (step_back_with_new_preferences _ _) _ =>
    unfold step_back_with_new_preferences; walk
  | |- eqM (if ?b then _ else _) _ => destruct b; walk
  | |- eqM _ _ => apply eqM_refl
  end.

Lemma handle_initial_request_with_success (request : Request) :
  eqM (handle_initial_request (with_success flag T) request)
      (handle_initial_request T request).
Proof. unfold handle_initial_request. walk. Qed.

Lemma handle_request_with_success (request : Request) :
  eqM (handle_request (with_success flag T) request) (handle_request T request).
Proof. unfold handle_request. walk. Qed.

Lemma iterate_with_success (request : Request) :
  eqM (iterate (with_success flag T) request) (iterate T request).
Proof.
  destruct request as [n c r|n c r|c]; cbn [iterate].
  - apply eqM_bind; [apply handle_initial_request_with_success|intro; apply eqM_refl].
  - apply handle_request_with_success.
  - apply eqM_refl.
Qed.

End SuccessFlag.

(** C5 (as amended): the handlers never read the [success] entry of a
    result of the minimizer.  A turn run with tools whose results all
    carry [success = flag] has the outcome and the final state of the
    same turn run with the tools as they are; in particular a failed
    solve is treated exactly like a successful one. *)
Theorem C5_success_ignored (flag : bool) (T : Tools) (request : Request) (self : Nautilus) :
  iterate (with_success flag T) request self = iterate T request self.
Proof. apply iterate_with_success. Qed.

(** C5 (as stated) fails: every solve of [demo_tools] reports
    [success = False], yet the first turn stores a solution at step 1 and
    answers with an ordinary iteration request, and the "continue" turn
    that follows advances the step number and overwrites the slots of
    step 2. *)
Lemma C5_counterexample :
  (forall scalarizer bounds evaluator method x0,
      exists res, ScalarMinimizer_minimize demo_tools scalarizer bounds evaluator method x0
                  = Ok res /\ result_success res = false)
  /\ (exists n c, fst demo_first_turn = Ok (Some (RequestObj n c None)))
  /\ (exists x f z, py_getitem (_xs demo_method) 1 = Ok (Some x)
                    /\ py_getitem (_fs demo_method) 1 = Ok (Some f)
                    /\ py_getitem (_zs demo_method) 1 = Ok (Some z))
  /\ (let turn := respond_and_iterate demo_tools demo_continue (demo_method, demo_request) in
      (exists n c, fst turn = Ok (Some (RequestObj n c None)))
      /\ _step_number demo_method = 1%Z
      /\ _step_number (fst (snd turn)) = 2%Z
      /\ py_getitem (_xs demo_method) 2 = Ok None
      /\ (exists x, py_getitem (_xs (fst (snd turn))) 2 = Ok (Some x))
      /\ py_getitem (_ds demo_method) 2 = Ok None
      /\ (exists d, py_getitem (_ds (fst (snd turn))) 2 = Ok (Some d))).
Proof.
  split; [|split; [|split]].
  - intros scalarizer bounds evaluator method x0. eexists. split; reflexivity.
  - vm_compute. do 2 eexists. reflexivity.
  - vm_compute. do 3 eexists. split; [|split]; reflexivity.
  - cbv zeta. split; [|split; [|split; [|split; [|split; [|split]]]]].
    + vm_compute. do 2 eexists. reflexivity.
    + vm_compute. reflexivity.
    + vm_compute. reflexivity.
    + vm_compute. reflexivity.
    + vm_compute. eexists. reflexivity.
    + vm_compute. reflexivity.
    + vm_compute. eexists. reflexivity.
Qed.

(** ** Rejected responses *)

Lemma sum_magnitudes_nonneg (v : vec) : 0 <= np_sum (map Rabs v).
Proof.
  unfold np_sum. induction v as [|x v IH]; cbn [map fold_right]; [lra|].
  pose proof (Rabs_pos x) as Hx. lra.
Qed.

Lemma sum_clearly_not_100_differs (info : vec) :
  sum_clearly_not_100 info -> np_sum info <> 100.
Proof.
  intros (_ & _ & Hfar) Hsum. rewrite Hsum in Hfar.
  replace (100 - 100) with 0 in Hfar by lra. rewrite Rabs_R0, Rmult_0_r in Hfar.
  pose proof (sum_magnitudes_nonneg info) as Hpos. lra.
Qed.

Lemma validate_preferences_rejects (n_objectives : Z) (resp : Response) :
  rejected_preferences n_objectives resp ->
  exists msg, validate_preferences n_objectives resp = Raise (NautilusException msg).
Proof.
  intros [method [info [Hm [Hi Hbad]]]]. unfold validate_preferences. rewrite Hm, Hi.
  destruct Hbad as [[Hmethod Hshort] | [[-> [top [Hmax Hout]]] | [-> Hsum]]].
  - destruct (Z.ltb_spec (len info) n_objectives) as [_|]; [|lia].
    destruct Hmethod as [-> | ->]; cbn [Z.eqb Pos.eqb orb negb];
      eexists; reflexivity.
  - cbn [Z.eqb Pos.eqb orb negb].
    destruct (Z.ltb_spec (len info) n_objectives); [eexists; reflexivity|].
    rewrite Hmax. cbn [rbind].
    destruct (Rle_dec 1 top) as [H1|H1];
      [destruct (Rle_dec top (IZR n_objectives)) as [H2|H2]|].
    + tauto.
    + rewrite (Rleb_true H1), (Rleb_false H2). cbn [andb negb]. eexists; reflexivity.
    + rewrite (Rleb_false H1). cbn [andb negb]. eexists; reflexivity.
  - cbn [Z.eqb Pos.eqb orb negb].
    destruct (Z.ltb_spec (len info) n_objectives); [eexists; reflexivity|].
    rewrite (Reqb_false (sum_clearly_not_100_differs Hsum)). cbn [negb].
    eexists; reflexivity.
Qed.

Lemma validate_response_rejects_later (n_objectives : Z) (resp : Response) :
  rejected_preferences n_objectives resp -> use_previous_preference resp = Some false ->
  exists msg, validate_response n_objectives resp false = Raise (NautilusException msg).
Proof.
  intros Hbad Hprev. destruct (validate_preferences_rejects Hbad) as [msg Hmsg].
  exists msg. unfold validate_response. rewrite Hprev. cbn [getkey rbind negb].
  now rewrite Hmsg.
Qed.

Lemma validate_response_rejects_first (n_objectives : Z) (resp : Response) :
  rejected_preferences n_objectives resp ->
  exists msg, validate_response n_objectives resp true = Raise (NautilusException msg).
Proof.
  intros Hbad. destruct (validate_preferences_rejects Hbad) as [msg Hmsg].
  unfold validate_response.
  destruct (n_iterations resp) as [n_it|]; cbn [has_key negb rbind];
    [|eexists; reflexivity].
  destruct (step_back resp); cbn [has_key rbind]; [eexists; reflexivity|].
  destruct (use_previous_preference resp); cbn [has_key rbind]; [eexists; reflexivity|].
  rewrite Hmsg. cbn [rbind]. eexists; reflexivity.
Qed.

(** C4 (as amended): a response whose preferences are validated (any
    response to the initial request; a later response with
    [use_previous_preference = False]) and whose preference vector is
    shorter than the number of objectives, or whose largest rank is
    outside [1, n_objectives], or whose percentages have a sum clear of
    100 (further from it than float64 rounding can bridge, as 99 is), is
    refused by the setter with a NautilusException: the turn stops there,
    whatever the tools are, and the method object and the request keep
    their values. *)
Theorem C4_validation_rejects (n : Z) (resp : Response)
        (Hbad : rejected_preferences n resp) :
  (use_previous_preference resp = Some false ->
   exists msg, forall (T : Tools) (method : Nautilus) (content : IterationContent)
                      (old : option Response),
       respond_and_iterate T resp (method, RequestObj n content old)
       = (Raise (NautilusException msg), (method, RequestObj n content old)))
  /\ (exists msg, forall (T : Tools) (method : Nautilus) (content : InitialContent)
                         (old : option Response),
         respond_and_iterate T resp (method, InitialRequestObj n content old)
         = (Raise (NautilusException msg), (method, InitialRequestObj n content old))).
Proof.
  split.
  - intros Hprev. destruct (validate_response_rejects_later Hbad Hprev) as [msg Hmsg].
    exists msg. intros T method content old.
    cbn [respond_and_iterate set_response]. unfold NautilusRequest_set_response.
    now rewrite Hmsg.
  - destruct (validate_response_rejects_first Hbad) as [msg Hmsg].
    exists msg. intros T method content old.
    cbn [respond_and_iterate set_response]. unfold NautilusInitialRequest_set_response.
    now rewrite Hmsg.
Qed.

Lemma demo_percentages_99_rejected :
  rejected_preferences 2 (mkResponse None (Some true) (Some false) (Some false) (Some 2%Z)
                                     (Some [50; 49])).
Proof.
  exists 2%Z, [50; 49]. split; [reflexivity|]. split; [reflexivity|].
  right. right. split; [reflexivity|].
  assert (Hbig : 1024 <= IZR (2 ^ 40) /\ 1024 <= IZR (2 ^ 50))
    by (split; apply IZR_le; vm_compute; discriminate).
  destruct Hbig as [H40 H50].
  split; [simpl; lia|]. split.
  - constructor; [rewrite Rabs_right by lra; lra|].
    constructor; [rewrite Rabs_right by lra; lra|]. constructor.
  - cbn [map np_sum fold_right]. rewrite !Rabs_right by lra.
    replace (50 + (49 + 0) - 100) with (-1) by lra.
    rewrite Rabs_left by lra. lra.
Qed.

Lemma C4_validation_rejects_witness :
  let resp := mkResponse None (Some true) (Some false) (Some false) (Some 2%Z)
                         (Some [50; 49]) in
  (exists msg, forall (T : Tools) (method : Nautilus) (content : IterationContent)
                      (old : option Response),
       respond_and_iterate T resp (method, RequestObj 2 content old)
       = (Raise (NautilusException msg), (method, RequestObj 2 content old)))
  /\ (exists msg, forall (T : Tools) (method : Nautilus) (content : InitialContent)
                         (old : option Response),
         respond_and_iterate T resp (method, InitialRequestObj 2 content old)
         = (Raise (NautilusException msg), (method, InitialRequestObj 2 content old))).
Proof.
  intros resp.
  destruct (@C4_validation_rejects 2 resp demo_percentages_99_rejected) as [Hlater Hfirst].
  split; [apply Hlater; reflexivity|exact Hfirst].
Defined.

(** C4 (as stated) fails: with [use_previous_preference = True] the
    preferences are not looked at, so percentages summing to 99 are
    stored by the setter; and a vector longer than the number of
    objectives passes the length test. *)
Lemma C4_counterexample :
  (let resp := mkResponse None (Some false) None (Some true) (Some 2%Z) (Some [50; 49]) in
   np_sum [50; 49] <> 100
   /\ set_response demo_request resp = (Ok tt, snd (set_response demo_request resp))
   /\ response (snd (set_response demo_request resp)) = Some resp)
  /\ (let resp := mkResponse None (Some true) (Some true) (Some false) (Some 2%Z)
                             (Some [50; 30; 20]) in
      len [50; 30; 20] <> 2%Z
      /\ validate_response 2 resp false = Ok tt).
Proof.
  split; cbv zeta.
  - split; [simpl; lra|]. split; vm_compute; reflexivity.
  - split; [unfold len; simpl; lia|].
    unfold validate_response.
    cbn [use_previous_preference getkey rbind negb n_iterations].
    rewrite validate_preferences_percentage_ok with (info := [50; 30; 20]);
      [reflexivity | reflexivity | reflexivity | unfold len; simpl; lia | simpl; lra].
Qed.

(** ** States reached by turns that return *)

Lemma py_setitem_length {A : Type} (l l' : list A) (i : Z) (a : A) :
  py_setitem l i a = Ok l' -> length l' = length l /\ (- len l <= i < len l)%Z.
Proof.
  unfold py_setitem, py_index. intros H.
  destruct ((0 <=? i)%Z && (i <? len l)%Z) eqn:E1.
  - injection H as <-. split; [apply list_update_length|].
    apply andb_prop in E1 as [H1 H2]. unfold len in *. lia.
  - destruct ((i <? 0)%Z && (0 <=? i + len l)%Z) eqn:E2; [|discriminate].
    injection H as <-. split; [apply list_update_length|].
    apply andb_prop in E2 as [H1 H2]. unfold len in *. lia.
Qed.

Lemma bind_assoc {A B C : Type} (m : M A) (k1 : A -> M B) (k2 : B -> M C)
      (self : Nautilus) :
  bind (bind m k1) k2 self = bind m (fun a => bind (k1 a) k2) self.
Proof. unfold bind. destruct (m self) as [[a|e] s1]; reflexivity. Qed.

Ltac fields_in H :=
  cbn [_objective_names _minimize _problem _variable_bounds _epsilon _ideal _nadir _utopian
       _reachable_ub _reachable_lb _lower_bounds _upper_bounds _step_number _zs _xs _fs _ds
       _q _distance _preference_method _preference_info _preference_factors _n_iterations
       _n_iterations_left _use_previous_preference _step_back _short_step _first_iteration
       set_lower_bounds set_upper_bounds set_step_number set_zs set_xs set_fs set_ds set_q
       set_preference_method set_preference_info set_preference_factors set_n_iterations
       set_n_iterations_left set_step_back set_short_step] in H.

(** Runs a straight-line computation that is known to return: every
    step that could raise yields the equation of its success. *)
Ltac symex H :=
  fields_in H;
  lazymatch type of H with
  | bind (gets _) _ _ = _ => rewrite bind_gets in H; symex H
  | bind (modify _) _ _ = _ => rewrite bind_modify in H; symex H
  | bind (lift ?r) _ _ = _ =>
    let a := fresh "a" in
    let E := fresh "E" in
    destruct r as [a|] eqn:E;
    [rewrite bind_lift_ok in H; symex H
    |exfalso; revert H; unfold bind, lift; discriminate]
  | bind (item ?f ?i) _ ?s = _ =>
    let a := fresh "a" in
    let E := fresh "E" in
    destruct (py_getitem (f s) i) as [a|] eqn:E;
    [rewrite (@bind_item _ _ f i a _ s E) in H; symex H
    |exfalso; revert H; unfold bind, item; rewrite E; discriminate]
  | bind (assign_item ?f ?set ?i ?v) _ ?s = _ =>
    let l := fresh "l" in
    let E := fresh "E" in
    destruct (py_setitem (f s) i v) as [l|] eqn:E;
    [rewrite (@bind_assign_item _ _ f set i v l _ s E) in H; symex H
    |exfalso; revert H; unfold bind, assign_item; rewrite E; discriminate]
  | ret _ _ = _ => unfold ret in H; injection H as H ?
  | _ => idtac
  end.

(** The same, through the branches of [handle_request]. *)
Ltac symex_all H :=
  symex H;
  lazymatch type of H with
  | bind (bind _ _) _ _ = _ => rewrite bind_assoc in H; symex_all H
  | bind (ret _) _ _ = _ => change (bind (ret ?a) ?k ?s) with (k a s) in H; symex_all H
  | bind (if ?b then _ else _) _ _ = _ => destruct b; symex_all H
  | (if ?b then _ else _) _ = _ => destruct b eqn:?; symex_all H
  | _ => idtac
  end.

Ltac lengths :=
  fields;
  repeat match goal with
         | E : py_setitem _ _ _ = Ok _ |- _ =>
           apply py_setitem_length in E; destruct E as [? ?]
         end;
  unfold py_repeat, len in *;
  repeat match goal with
         | H : context [length (repeat _ _)] |- _ => rewrite repeat_length in H
         end.

Section Ready.

Variable T : Tools.

Lemma bounds_distance_request_ready (x0 : vec) (s s' : Nautilus) (r : option Request) :
  bounds_distance_request T x0 s = (Ok r, s') ->
  (1 <= _step_number s)%Z -> equal_lengths s -> history_ready s'.
Proof.
  intros Hrun Hstep Hlen. unfold bounds_distance_request in Hrun.
  symex Hrun. subst s'. unfold history_ready, equal_lengths in *. lengths. lia.
Qed.

Lemma continue_with_previous_preference_ready (s s' : Nautilus) (r : option Request) :
  continue_with_previous_preference T s = (Ok r, s') ->
  (1 <= _step_number s)%Z -> equal_lengths s -> history_ready s'.
Proof.
  intros Hrun Hstep Hlen. unfold continue_with_previous_preference in Hrun.
  symex Hrun.
  apply bounds_distance_request_ready in Hrun; [exact Hrun| |];
    unfold equal_lengths in *; lengths; lia.
Qed.

Lemma take_short_step_ready (s s' : Nautilus) (r : option Request) :
  take_short_step T s = (Ok r, s') ->
  (1 <= _step_number s)%Z -> equal_lengths s -> history_ready s'.
Proof.
  intros Hrun Hstep Hlen. unfold take_short_step in Hrun.
  symex Hrun.
  apply bounds_distance_request_ready in Hrun; [exact Hrun| |];
    unfold equal_lengths in *; lengths; lia.
Qed.

Lemma step_back_with_new_preferences_ready (resp : Response) (s s' : Nautilus)
      (r : option Request) :
  step_back_with_new_preferences T resp s = (Ok r, s') ->
  (1 <= _step_number s)%Z -> equal_lengths s -> history_ready s'.
Proof.
  intros Hrun Hstep Hlen. unfold step_back_with_new_preferences in Hrun.
  symex Hrun.
  apply bounds_distance_request_ready in Hrun; [exact Hrun| |];
    unfold equal_lengths in *; lengths; lia.
Qed.

(** The first turn, when it returns, leaves the history ready. *)
Lemma handle_initial_request_ready (request : Request) (s s' : Nautilus) (r : Request) :
  handle_initial_request T request s = (Ok r, s') ->
  (1 <= _step_number s)%Z -> history_ready s'.
Proof.
  intros Hrun Hstep. unfold handle_initial_request in Hrun.
  symex Hrun. subst s'. unfold history_ready, equal_lengths. lengths. lia.
Qed.

(** A later turn, when it returns, keeps the history ready. *)
Lemma handle_request_ready (request : Request) (s s' : Nautilus) (r : option Request) :
  handle_request T request s = (Ok r, s') -> history_ready s -> history_ready s'.
Proof.
  intros Hrun Hready. unfold handle_request in Hrun.
  assert (Hstep : (1 <= _step_number s)%Z) by apply Hready.
  assert (Hlen : equal_lengths s) by apply Hready.
  symex Hrun.
  destruct (n_iterations a) as [k|]; symex_all Hrun;
    lazymatch type of Hrun with
    | continue_with_previous_preference _ _ = _ =>
      apply continue_with_previous_preference_ready in Hrun;
        [exact Hrun|exact Hstep|exact Hlen]
    | take_short_step _ _ = _ =>
      apply take_short_step_ready in Hrun; [exact Hrun|exact Hstep|exact Hlen]
    | step_back_with_new_preferences _ _ _ = _ =>
      apply step_back_with_new_preferences_ready in Hrun;
        [exact Hrun|exact Hstep|exact Hlen]
    | _ => subst s'; exact Hready
    end.
Qed.

Lemma iterate_ready (request : Request) (s s' : Nautilus) (r : option Request) :
  iterate T request s = (Ok r, s') ->
  match request with
  | InitialRequestObj _ _ _ => (1 <= _step_number s)%Z
  | _ => history_ready s
  end ->
  history_ready s'.
Proof.
  destruct request as [n c resp|n c resp|c]; cbn [iterate]; intros Hrun Hpre.
  - unfold bind in Hrun.
    destruct (handle_initial_request T (InitialRequestObj n c resp) s) as [[next|e] s1] eqn:E;
      [|discriminate].
    injection Hrun as _ <-. exact (@handle_initial_request_ready _ _ _ _ E Hpre).
  - exact (@handle_request_ready _ _ _ _ Hrun Hpre).
  - injection Hrun as _ <-. exact Hpre.
Qed.

Lemma history_ready_slots (s : Nautilus) :
  history_ready s ->
  exists x_h f_h, py_getitem (_xs s) (_step_number s) = Ok x_h
                  /\ py_getitem (_fs s) (_step_number s) = Ok f_h.
Proof.
  intros [Hstep [Hnext [Hfs _]]].
  exists (nth (Z.to_nat (_step_number s)) (_xs s) None),
         (nth (Z.to_nat (_step_number s)) (_fs s) None).
  split; apply py_getitem_nth; unfold len in *; lia.
Qed.

(** In a ready state a turn with at most one iteration remaining returns
    the stop request. *)
Lemma ready_turn_terminates (n : Z) (c : IterationContent) (resp : Response)
      (s : Nautilus) (itn : Z) :
  history_ready s ->
  _n_iterations_left (apply_n_iterations resp s) = Some itn -> (itn <= 1)%Z ->
  exists x_h f_h,
    handle_request T (RequestObj n c (Some resp)) s
    = (Ok (Some (NautilusStopRequest x_h f_h)),
       set_n_iterations_left (Some 0%Z) (apply_n_iterations resp s)).
Proof.
  intros Hready Hleft Hlast.
  destruct (history_ready_slots Hready) as [x_h [f_h [Hx Hf]]].
  exists x_h, f_h. rewrite (handle_request_terminates T n c resp s Hleft Hlast).
  destruct (apply_n_iterations_core resp s) as [Hs [Hxs [Hfs _]]].
  unfold terminated. now rewrite Hs, Hxs, Hfs, Hx, Hf.
Qed.

End Ready.

(** ** The demonstration session *)

Lemma demo_init :
  Nautilus_init demo_problem [0; 0] [4; 4] 0 None None = Ok demo_initial_method.
Proof. reflexivity. Qed.

Lemma demo_initial_response_accepted :
  set_response (start demo_initial_method) demo_initial_response
  = (Ok tt, demo_initial_request).
Proof.
  cbn [start set_response NautilusInitialRequest demo_initial_method _ideal _nadir].
  unfold NautilusInitialRequest_set_response.
  assert (Hv : validate_response (len [0; 0]) demo_initial_response true = Ok tt).
  { unfold validate_response, demo_initial_response.
    cbn [n_iterations step_back use_previous_preference has_key negb].
    rewrite validate_preferences_rank_ok with (info := [1; 2]) (m := Rmax 1 2);
      try reflexivity.
    rewrite Rmax_right by lra. change (IZR (len [0; 0])) with 2. lra. }
  rewrite Hv. reflexivity.
Qed.

Lemma demo_method_ready : history_ready demo_method.
Proof.
  unfold demo_method, demo_first_turn.
  destruct (iterate demo_tools demo_initial_request demo_initial_method) as [r s'] eqn:E.
  assert (Hok : exists next, r = Ok next).
  { replace r with (fst (iterate demo_tools demo_initial_request demo_initial_method))
      by (now rewrite E).
    vm_compute. eexists. reflexivity. }
  destruct Hok as [next ->].
  apply (@iterate_ready _ _ _ _ _ E).
  unfold demo_initial_request, demo_initial_method. cbn [_step_number]. lia.
Qed.

(** The short step leaves the achievement function alone and the step
    back with new preferences does not: with [tripwire_tools] the first
    returns a request and the second raises the exception planted in the
    achievement function. *)
Lemma tripwire_contrast :
  (exists n c, fst (iterate tripwire_tools
                            (RequestObj 2 (mkIterationContent [] [] None None None None)
                                        (Some demo_short_step)) demo_method)
               = Ok (Some (RequestObj n c None)))
  /\ fst (iterate tripwire_tools
                  (RequestObj 2 (mkIterationContent [] [] None None None None)
                              (Some demo_new_preferences)) demo_method)
     = Raise (ExternalError "asf").
Proof.
  split.
  - vm_compute. do 2 eexists. reflexivity.
  - vm_compute. reflexivity.
Qed.

(** The session run to its end with four iterations: two "continue"
    turns return; the third, which brings the counter to 1 at step 4,
    raises IndexError when it writes the lower bounds of step 5 into
    lists of five slots; the turn after it returns the stop request. *)
Lemma demo_run_to_end :
  (exists n c, fst (demo_continued 1) = Ok (Some (RequestObj n c None)))
  /\ (exists n c, fst (demo_continued 2) = Ok (Some (RequestObj n c None)))
  /\ fst (demo_continued 3) = Raise IndexError
  /\ _step_number (snd (demo_continued 3)) = 4%Z
  /\ _n_iterations_left (snd (demo_continued 3)) = Some 1%Z
  /\ len (_lower_bounds (snd (demo_continued 3))) = 5%Z
  /\ is_stop_request (match fst (demo_continued 4) with Ok r => r | Raise _ => None end)
     = true.
Proof.
  split; [|split; [|split; [|split; [|split; [|split]]]]].
  - vm_compute. do 2 eexists. reflexivity.
  - vm_compute. do 2 eexists. reflexivity.
  - vm_compute. reflexivity.
  - vm_compute. reflexivity.
  - vm_compute. reflexivity.
  - vm_compute. reflexivity.
  - vm_compute. reflexivity.
Qed.

(** * Further properties *)

(** ** Accepted responses *)

Lemma fold_left_Rmax_le (l : vec) (x b : R) :
  fold_left Rmax l x <= b <-> x <= b /\ Forall (fun r => r <= b) l.
Proof.
  revert x; induction l as [|y l IH]; intros x; cbn [fold_left].
  - split; [intros H; split; [exact H|constructor]|tauto].
  - rewrite IH. split.
    + intros [Hm Hl]. pose proof (Rmax_l x y). pose proof (Rmax_r x y).
      split; [lra|constructor; [lra|exact Hl]].
    + intros [Hx Hl]. inversion Hl as [|? ? Hy Hl']; subst.
      split; [apply Rmax_lub; assumption|exact Hl'].
Qed.

Lemma fold_left_Rmax_ge (l : vec) (x a : R) :
  a <= fold_left Rmax l x <-> a <= x \/ Exists (fun r => a <= r) l.
Proof.
  revert x; induction l as [|y l IH]; intros x; cbn [fold_left].
  - split; [now left|]. intros [H|H]; [exact H|inversion H].
  - rewrite IH. split.
    + intros [Hm|Hl].
      * unfold Rmax in Hm. destruct (Rle_dec x y); [right; now left|now left].
      * right. now right.
    + intros [Hx|Hl].
      * left. pose proof (Rmax_l x y). lra.
      * inversion Hl as [? ? Hy|? ? Hl']; subst.
        -- left. pose proof (Rmax_r x y). lra.
        -- now right.
Qed.

Lemma py_max_range (info : vec) (top a b : R) :
  py_max info = Ok top ->
  (a <= top <= b <-> Exists (fun r => a <= r) info /\ Forall (fun r => r <= b) info).
Proof.
  destruct info as [|x l]; [discriminate|]. cbn [py_max]. intros H. injection H as <-.
  rewrite fold_left_Rmax_le, fold_left_Rmax_ge. split.
  - intros [[Hx|Hl] [Hb Hall]]; (split; [|now constructor]);
      [now left|now right].
  - intros [Hex Hall]. inversion Hall as [|? ? Hb Hall']; subst.
    inversion Hex as [? ? Hx|? ? Hl]; subst; tauto.
Qed.

(** The outcomes of [validate_preferences], with the sum of the
    percentages as the model has it. *)
Lemma validate_preferences_outcomes (n_objectives : Z) (resp : Response) :
  (validate_preferences n_objectives resp = Ok tt <->
   exists (method : Z) (info : vec),
     preference_method resp = Some method /\ preference_info resp = Some info /\
     (n_objectives <= len info)%Z /\
     ((method = 1%Z /\ Forall (fun r => r <= IZR n_objectives) info
       /\ Exists (fun r => 1 <= r) info)
      \/ (method = 2%Z /\ np_sum info = 100)))
  /\ (forall e, validate_preferences n_objectives resp = Raise e ->
      (exists msg, e = NautilusException msg)
      \/ (e = ValueError /\ preference_method resp = Some 1%Z
          /\ preference_info resp = Some [] /\ (n_objectives <= 0)%Z)).
Proof.
  unfold validate_preferences.
  destruct (preference_method resp) as [method|];
    [|split; [split; [discriminate|intros [m [i [H _]]]; discriminate]
             |intros e H; injection H as <-; left; eexists; reflexivity]].
  destruct (preference_info resp) as [info|];
    [|split; [split; [discriminate|intros [m [i [_ [H _]]]]; discriminate]
             |intros e H; injection H as <-; left; eexists; reflexivity]].
  destruct (Z.eqb_spec method 1) as [->|Hn1].
  - cbn [orb negb Z.eqb Pos.eqb].
    destruct (Z.ltb_spec (len info) n_objectives) as [Hshort|Hlong].
    + split; [split; [discriminate|]|intros e H; injection H as <-; left; eexists; reflexivity].
      intros [m [i [Hm [Hi [Hlen _]]]]]. injection Hi as <-. lia.
    + destruct (py_max info) as [top|e0] eqn:Hmax; cbn [rbind].
      * pose proof (@py_max_range info top 1 (IZR n_objectives) Hmax) as Hrange.
        destruct (Rle_dec 1 top) as [H1|H1];
          [destruct (Rle_dec top (IZR n_objectives)) as [H2|H2]|].
        -- rewrite (Rleb_true H1), (Rleb_true H2). cbn [andb negb].
           split; [split; [intros _|reflexivity]|discriminate].
           exists 1%Z, info. repeat split; try assumption. left.
           split; [reflexivity|]. split; apply Hrange; lra.
        -- rewrite (Rleb_true H1), (Rleb_false H2). cbn [andb negb].
           split; [split; [discriminate|]
                  |intros e H; injection H as <-; left; eexists; reflexivity].
           intros [m [i [Hm [Hi [_ [[_ [Hall Hex]]|[Hm2 _]]]]]]];
             injection Hm as <-; injection Hi as <-; [|discriminate].
           exfalso. apply H2. apply Hrange. now split.
        -- rewrite (Rleb_false H1). cbn [andb negb].
           split; [split; [discriminate|]
                  |intros e H; injection H as <-; left; eexists; reflexivity].
           intros [m [i [Hm [Hi [_ [[_ [Hall Hex]]|[Hm2 _]]]]]]];
             injection Hm as <-; injection Hi as <-; [|discriminate].
           exfalso. apply H1. apply Hrange. now split.
      * destruct info as [|x l]; [|discriminate]. cbn [py_max] in Hmax.
        injection Hmax as <-.
        split; [split; [discriminate|]|].
        -- intros [m [i [Hm [Hi [_ [[_ [_ Hex]]|[Hm2 _]]]]]]];
             injection Hm as <-; injection Hi as <-; [inversion Hex|discriminate].
        -- intros e H. injection H as <-. right. unfold len in Hlong. cbn in Hlong.
           repeat split. lia.
  - destruct (Z.eqb_spec method 2) as [->|Hn2].
    + cbn [orb negb Z.eqb Pos.eqb].
      destruct (Z.ltb_spec (len info) n_objectives) as [Hshort|Hlong].
      * split; [split; [discriminate|]
               |intros e H; injection H as <-; left; eexists; reflexivity].
        intros [m [i [Hm [Hi [Hlen _]]]]]. injection Hi as <-. lia.
      * destruct (Req_dec_T (np_sum info) 100) as [Hsum|Hsum].
        -- rewrite (Reqb_true Hsum). cbn [negb].
           split; [split; [intros _|reflexivity]|discriminate].
           exists 2%Z, info. repeat split; try assumption. right. now split.
        -- rewrite (Reqb_false Hsum). cbn [negb].
           split; [split; [discriminate|]
                  |intros e H; injection H as <-; left; eexists; reflexivity].
           intros [m [i [Hm [Hi [_ [[Hm1 _]|[_ Hs]]]]]]];
             injection Hm as <-; injection Hi as <-; [discriminate|contradiction].
    + cbn [orb negb].
      split; [split; [discriminate|]
             |intros e H; injection H as <-; left; eexists; reflexivity].
      intros [m [i [Hm [_ [_ [[Hm1 _]|[Hm2 _]]]]]]]; injection Hm as <-; contradiction.
Qed.

(** X1: the outcomes of [validate_preferences].  A missing entry or a
    method other than 1 and 2 raises NautilusException, and so does a
    vector with fewer than [n_objectives] entries.  Ranks (method 1) are
    accepted exactly when the vector has at least [n_objectives] entries,
    every rank is at most [n_objectives] and some rank is at least 1:
    only the largest rank is tested.  Percentages (method 2) that are
    whole numbers are accepted exactly when the vector has at least
    [n_objectives] entries and they sum to 100; percentages whose sum is
    clear of 100 raise NautilusException.  The only other exception is the
    ValueError of [max] on an empty vector of ranks, when
    [n_objectives <= 0]. *)
Theorem X1_validate_preferences_accepts (n_objectives : Z) (resp : Response) :
  (preference_method resp = None \/ preference_info resp = None ->
   exists msg, validate_preferences n_objectives resp = Raise (NautilusException msg))
  /\ (forall method,
         preference_method resp = Some method -> method <> 1%Z -> method <> 2%Z ->
         exists msg, validate_preferences n_objectives resp = Raise (NautilusException msg))
  /\ (forall info,
         preference_method resp = Some 1%Z -> preference_info resp = Some info ->
         (validate_preferences n_objectives resp = Ok tt <->
          (n_objectives <= len info)%Z /\ Forall (fun r => r <= IZR n_objectives) info
          /\ Exists (fun r => 1 <= r) info))
  /\ (forall info,
         preference_method resp = Some 2%Z -> preference_info resp = Some info ->
         (whole_percentages info ->
          (validate_preferences n_objectives resp = Ok tt <->
           (n_objectives <= len info)%Z /\ np_sum info = 100))
         /\ (sum_clearly_not_100 info ->
             exists msg,
               validate_preferences n_objectives resp = Raise (NautilusException msg)))
  /\ (forall e, validate_preferences n_objectives resp = Raise e ->
      (exists msg, e = NautilusException msg)
      \/ (e = ValueError /\ preference_method resp = Some 1%Z
          /\ preference_info resp = Some [] /\ (n_objectives <= 0)%Z)).
Proof.
  destruct (validate_preferences_outcomes n_objectives resp) as [Hacc Herr].
  split; [|split; [|split; [|split; [|exact Herr]]]].
  - intros Hmissing.
    destruct (validate_preferences n_objectives resp) as [[]|e] eqn:Hv.
    + destruct (proj1 Hacc eq_refl) as (m & i & Hm & Hi & _).
      destruct Hmissing as [H|H]; congruence.
    + destruct (Herr e eq_refl) as [[msg ->]|(_ & _ & Hi & _)]; [now exists msg|].
      destruct Hmissing as [H|H]; [|congruence].
      unfold validate_preferences in Hv. rewrite H in Hv. injection Hv as <-.
      eexists; reflexivity.
  - intros method Hm Hn1 Hn2.
    destruct (validate_preferences n_objectives resp) as [[]|e] eqn:Hv.
    + destruct (proj1 Hacc eq_refl) as (m & i & Hm' & _ & _ & [[-> _]|[-> _]]); congruence.
    + destruct (Herr e eq_refl) as [[msg ->]|(_ & Hm' & _)]; [now exists msg|congruence].
  - intros info Hm Hi. rewrite Hacc. split.
    + intros (m & i & Hm' & Hi' & Hlen & [[_ Hr]|[-> _]]); [|congruence].
      assert (i = info) by congruence. subst i. now split.
    + intros (Hlen & Hall & Hex). exists 1%Z, info. repeat split; try assumption.
      left. now repeat split.
  - intros info Hm Hi. split.
    + intros _. rewrite Hacc. split.
      * intros (m & i & Hm' & Hi' & Hlen & [[-> _]|[_ Hsum]]); [congruence|].
        assert (i = info) by congruence. subst i. now split.
      * intros (Hlen & Hsum). exists 2%Z, info. repeat split; try assumption.
        right. now split.
    + intros Hfar. apply validate_preferences_rejects.
      exists 2%Z, info. split; [exact Hm|]. split; [exact Hi|]. right. right. now split.
Qed.

(** X2: how [validate_response] composes its checks, for responses whose
    ["n_iterations"] entry is a Python int.  The first response is
    accepted exactly when it carries a positive ["n_iterations"], neither
    ["step_back"] nor ["use_previous_preference"], and preferences that
    [validate_preferences] accepts; a later response exactly when
    ["use_previous_preference"] is present, [validate_preferences]
    accepts the preferences if it is false, and ["n_iterations"], if
    present, is positive.  The preferences of a later response with
    [use_previous_preference] true are not validated, and the keys
    ["step_back"] and ["short_step"] of a later response are not looked
    at.  Each setter stores an accepted response and leaves the request
    as it was otherwise. *)
Theorem X2_validate_response_accepts (n_objectives : Z) (resp : Response) :
  (validate_response n_objectives resp true = Ok tt <->
   (exists k, n_iterations resp = Some k /\ (1 <= k)%Z)
   /\ step_back resp = None /\ use_previous_preference resp = None
   /\ validate_preferences n_objectives resp = Ok tt)
  /\ (validate_response n_objectives resp false = Ok tt <->
      (exists use_previous, use_previous_preference resp = Some use_previous
                            /\ (use_previous = false ->
                                validate_preferences n_objectives resp = Ok tt))
      /\ (forall k, n_iterations resp = Some k -> (1 <= k)%Z))
  /\ (forall c old,
      set_response (InitialRequestObj n_objectives c old) resp
      = match validate_response n_objectives resp true with
        | Ok _ => (Ok tt, InitialRequestObj n_objectives c (Some resp))
        | Raise e => (Raise e, InitialRequestObj n_objectives c old)
        end)
  /\ (forall c old,
      set_response (RequestObj n_objectives c old) resp
      = match validate_response n_objectives resp false with
        | Ok _ => (Ok tt, RequestObj n_objectives c (Some resp))
        | Raise e => (Raise e, RequestObj n_objectives c old)
        end).
Proof.
  split; [|split; [|split; reflexivity]].
  - unfold validate_response, validate_n_iterations.
    destruct (n_iterations resp) as [k|]; cbn [has_key negb rbind].
    + destruct (step_back resp) as [b|]; cbn [has_key rbind].
      * split; [discriminate|]. intros [_ [H _]]. discriminate.
      * destruct (use_previous_preference resp) as [u|]; cbn [has_key rbind].
        -- split; [discriminate|]. intros [_ [_ [H _]]]. discriminate.
        -- destruct (validate_preferences n_objectives resp) as [[]|e] eqn:Hv;
             cbn [rbind].
           ++ destruct (Z.ltb_spec k 1).
              ** split; [discriminate|]. intros [[k' [Hk Hpos]] _].
                 injection Hk as <-. lia.
              ** split; [intros _|reflexivity].
                 split; [exists k; split; [reflexivity|lia]|]. now repeat split.
           ++ split; [discriminate|]. intros [_ [_ [_ Ha]]]. discriminate.
    + split; [discriminate|]. intros [[k [H _]] _]. discriminate.
  - unfold validate_response, validate_n_iterations.
    destruct (use_previous_preference resp) as [u|]; cbn [getkey rbind].
    + assert (Hn : (match n_iterations resp with
                    | Some n_it => if (n_it <? 1)%Z
                                   then Raise (NautilusException MsgIterationsNotPositive)
                                   else Ok tt
                    | None => Ok tt
                    end = Ok tt) <-> (forall k, n_iterations resp = Some k -> (1 <= k)%Z)).
      { destruct (n_iterations resp) as [k|].
        - destruct (Z.ltb_spec k 1).
          + split; [discriminate|]. intros H'. specialize (H' k eq_refl). lia.
          + split; [|reflexivity]. intros _ k' Hk. injection Hk as <-. lia.
        - split; [|reflexivity]. intros _ k Hk. discriminate. }
      destruct u; cbn [negb].
      * cbn [rbind]. rewrite Hn. split.
        -- intros H. split; [exists true; split; [reflexivity|discriminate]|exact H].
        -- intros [_ H]. exact H.
      * destruct (validate_preferences n_objectives resp) as [[]|e] eqn:Hv;
          cbn [rbind].
        -- rewrite Hn. split.
           ++ intros H. split; [|exact H]. exists false. split; [reflexivity|].
              intros _. reflexivity.
           ++ intros [_ H]. exact H.
        -- split; [discriminate|]. intros [[u [Hu Ha]] _]. injection Hu as <-.
           specialize (Ha eq_refl). discriminate.
    + split; [discriminate|]. intros [[u [H _]] _]. discriminate.
Qed.

(** ** The method object when it is created *)

Lemma default_objective_names_length (n : nat) : length (default_objective_names n) = n.
Proof. unfold default_objective_names. now rewrite length_map, length_seq. Qed.

Lemma Nautilus_init_state (problem : MOProblem) (ideal nadir : vec) (epsilon : R)
      (names : option (list string)) (mins : option (list Z)) (self : Nautilus) :
  Nautilus_init problem ideal nadir epsilon names mins = Ok self ->
  length ideal = length nadir
  /\ length (_objective_names self) = length ideal
  /\ _problem self = problem
  /\ _ideal self = ideal /\ _nadir self = nadir
  /\ _utopian self = map (fun ideal_i => ideal_i - epsilon) ideal
  /\ _step_number self = 1%Z
  /\ _n_iterations self = None /\ _n_iterations_left self = None
  /\ _xs self = [] /\ _fs self = [] /\ _zs self = [] /\ _ds self = []
  /\ _lower_bounds self = [] /\ _upper_bounds self = [].
Proof.
  unfold Nautilus_init. intros H.
  destruct (Z.eqb_spec (len ideal) (len nadir)) as [Hdim|]; [|discriminate].
  cbn [negb] in H.
  match type of H with
  | rbind ?m _ = _ => destruct m as [l|] eqn:Hnames; [|discriminate]
  end.
  cbn [rbind] in H.
  match type of H with
  | rbind ?m _ = _ => destruct m as [ms|] eqn:Hmins; [|discriminate]
  end.
  cbn [rbind] in H. injection H as H. subst self. cbn.
  assert (Hl : length l = length ideal).
  { destruct names as [[|name given]|].
    - injection Hnames as <-. apply default_objective_names_length.
    - destruct (Z.eqb_spec (len (name :: given)) (len ideal)) as [E|]; [|discriminate].
      injection Hnames as <-. unfold len in E. lia.
    - injection Hnames as <-. apply default_objective_names_length. }
  unfold len in Hdim. repeat split; try reflexivity; try assumption. lia.
Qed.

(** X3: when [__init__] returns, the ideal and the nadir have one
    length, which is also the number of objective names (given or
    generated); the utopian point is the ideal minus epsilon in every
    objective; the step number is 1, both iteration counters are unset
    and the history lists are empty.  So a later request handled before
    the initial one raises TypeError at the test of the unset counter,
    unless its response sets the counter. *)
Theorem X3_init_state (problem : MOProblem) (ideal nadir : vec) (epsilon : R)
        (names : option (list string)) (mins : option (list Z)) (self : Nautilus)
        (Hinit : Nautilus_init problem ideal nadir epsilon names mins = Ok self) :
  length ideal = length nadir
  /\ length (_objective_names self) = length ideal
  /\ _ideal self = ideal /\ _nadir self = nadir
  /\ _utopian self = map (fun ideal_i => ideal_i - epsilon) ideal
  /\ _step_number self = 1%Z
  /\ _n_iterations self = None /\ _n_iterations_left self = None
  /\ _xs self = [] /\ _fs self = [] /\ _zs self = [] /\ _ds self = []
  /\ _lower_bounds self = [] /\ _upper_bounds self = []
  /\ start self = InitialRequestObj (len ideal) (mkInitialContent ideal nadir) None
  /\ (forall T n c resp,
         n_iterations resp = None ->
         handle_request T (RequestObj n c (Some resp)) self = (Raise TypeError, self)).
Proof.
  destruct (Nautilus_init_state _ _ _ _ _ _ Hinit)
    as (H1 & H2 & H3 & H4 & H5 & H6 & H7 & H8 & H9 & H10 & H11 & H12 & H13 & H14 & H15).
  repeat (split; [assumption|]). split.
  - unfold start, NautilusInitialRequest. now rewrite H4, H5.
  - intros T n c resp Hnone.
    assert (Happly : apply_n_iterations resp self = self)
      by (unfold apply_n_iterations; now rewrite Hnone).
    rewrite <- Happly at 2. apply handle_request_untyped. now rewrite Happly.
Qed.

Lemma X3_init_state_witness :
  length [0; 0] = length [4; 4]
  /\ length (_objective_names demo_initial_method) = length [0; 0]
  /\ _ideal demo_initial_method = [0; 0] /\ _nadir demo_initial_method = [4; 4]
  /\ _utopian demo_initial_method = map (fun ideal_i => ideal_i - 0) [0; 0]
  /\ _step_number demo_initial_method = 1%Z
  /\ _n_iterations demo_initial_method = None
  /\ _n_iterations_left demo_initial_method = None
  /\ _xs demo_initial_method = [] /\ _fs demo_initial_method = []
  /\ _zs demo_initial_method = [] /\ _ds demo_initial_method = []
  /\ _lower_bounds demo_initial_method = [] /\ _upper_bounds demo_initial_method = []
  /\ start demo_initial_method
     = InitialRequestObj (len [0; 0]) (mkInitialContent [0; 0] [4; 4]) None
  /\ (forall T n c resp,
         n_iterations resp = None ->
         handle_request T (RequestObj n c (Some resp)) demo_initial_method
         = (Raise TypeError, demo_initial_method)).
Proof.
  apply (@X3_init_state demo_problem [0; 0] [4; 4] 0 None None demo_initial_method).
  reflexivity.
Defined.

(** X4: [__init__] raises NautilusException when the ideal and the nadir
    differ in length, and when a non-empty list of objective names has
    another length than the ideal.  A non-empty [minimize] list given
    without objective names raises TypeError, because the length that is
    tested is the length of the names; for the same reason a [minimize]
    list of any length is stored when the names fit.  An empty list of
    names counts as none given. *)
Theorem X4_init_errors (problem : MOProblem) (ideal nadir : vec) (epsilon : R) :
  (forall names mins,
      length ideal <> length nadir ->
      Nautilus_init problem ideal nadir epsilon names mins
      = Raise (NautilusException MsgDimensionMismatch))
  /\ (forall name given mins,
         length ideal = length nadir -> length (name :: given) <> length ideal ->
         Nautilus_init problem ideal nadir epsilon (Some (name :: given)) mins
         = Raise (NautilusException MsgObjectiveNamesLength))
  /\ (forall m mins,
         length ideal = length nadir ->
         Nautilus_init problem ideal nadir epsilon None (Some (m :: mins))
         = Raise TypeError)
  /\ (forall name given m mins,
         length ideal = length nadir -> length (name :: given) = length ideal ->
         exists self,
           Nautilus_init problem ideal nadir epsilon (Some (name :: given)) (Some (m :: mins))
           = Ok self
           /\ _minimize self = m :: mins /\ _objective_names self = name :: given)
  /\ (forall mins,
         Nautilus_init problem ideal nadir epsilon (Some []) mins
         = Nautilus_init problem ideal nadir epsilon None mins
         \/ exists m rest, mins = Some (m :: rest)).
Proof.
  unfold Nautilus_init. split; [|split; [|split; [|split]]].
  - intros names mins Hdim.
    destruct (Z.eqb_spec (len ideal) (len nadir)) as [E|]; [|reflexivity].
    unfold len in E. lia.
  - intros name given mins Hdim Hlen.
    destruct (Z.eqb_spec (len ideal) (len nadir)) as [_|E]; [|unfold len in E; lia].
    cbn [negb].
    destruct (Z.eqb_spec (len (name :: given)) (len ideal)) as [E|]; [|reflexivity].
    unfold len in E. lia.
  - intros m mins Hdim.
    destruct (Z.eqb_spec (len ideal) (len nadir)) as [_|E]; [|unfold len in E; lia].
    reflexivity.
  - intros name given m mins Hdim Hlen.
    destruct (Z.eqb_spec (len ideal) (len nadir)) as [_|E]; [|unfold len in E; lia].
    cbn [negb rbind not_none].
    destruct (Z.eqb_spec (len (name :: given)) (len ideal)) as [_|E];
      [|unfold len in E; lia].
    cbn [negb rbind]. eexists. split; [reflexivity|]. split; reflexivity.
  - intros [[|m rest]|]; [left; reflexivity|right; eauto|left; reflexivity].
Qed.

(** ** Reading a list after an assignment *)

Lemma list_update_nth_error_other {A : Type} (l : list A) (n k : nat) (b : A) :
  k <> n -> nth_error (list_update l n b) k = nth_error l k.
Proof.
  revert n k; induction l as [|h l IH]; intros [|n] [|k] H; simpl; try reflexivity.
  - contradiction.
  - apply IH. congruence.
Qed.

Lemma py_index_nonneg {A : Type} (l : list A) (i : Z) :
  (0 <= i)%Z ->
  py_index l i = if (i <? len l)%Z then Some (Z.to_nat i) else None.
Proof.
  intros Hi. unfold py_index.
  destruct (Z.leb_spec 0 i); [|lia]. destruct (Z.ltb_spec i (len l)); cbn [andb];
    [reflexivity|].
  destruct (Z.ltb_spec i 0); [lia|reflexivity].
Qed.

Lemma py_set_get_same {A : Type} (l l' : list A) (i : Z) (v : A) :
  py_setitem l i v = Ok l' -> py_getitem l' i = Ok v.
Proof.
  unfold py_setitem, py_getitem. intros H.
  destruct (py_index l i) as [k|] eqn:Hi; [|discriminate]. injection H as <-.
  assert (Hi' : py_index (list_update l k v) i = Some k).
  { unfold py_index, len in *. now rewrite list_update_length. }
  rewrite Hi'.
  assert (Hk : (k < length l)%nat).
  { unfold py_index, len in Hi.
    destruct ((0 <=? i)%Z && (i <? Z.of_nat (length l))%Z) eqn:E1.
    - injection Hi as <-. apply andb_prop in E1 as [H1 H2]. lia.
    - destruct ((i <? 0)%Z && (0 <=? i + Z.of_nat (length l))%Z) eqn:E2; [|discriminate].
      injection Hi as <-. apply andb_prop in E2 as [H1 H2]. lia. }
  destruct (nth_error l k) as [a|] eqn:Hn; [|apply nth_error_None in Hn; lia].
  now rewrite (list_update_nth_error l k v Hn).
Qed.

Lemma py_set_nth_other {A : Type} (l l' : list A) (i : Z) (v : A) (k : nat) :
  py_setitem l i v = Ok l' -> (0 <= i)%Z -> Z.of_nat k <> i ->
  nth_error l' k = nth_error l k.
Proof.
  unfold py_setitem. intros H Hi Hk. rewrite (py_index_nonneg l Hi) in H.
  destruct (Z.ltb_spec i (len l)); [|discriminate]. injection H as <-.
  apply list_update_nth_error_other. lia.
Qed.

Lemma py_set_get_other {A : Type} (l l' : list A) (i j : Z) (v : A) :
  py_setitem l i v = Ok l' -> (0 <= i)%Z -> (0 <= j)%Z -> i <> j ->
  py_getitem l' j = py_getitem l j.
Proof.
  intros H Hi Hj Hij. unfold py_getitem.
  destruct (py_setitem_length _ _ _ H) as [Hlen _].
  rewrite (py_index_nonneg l' Hj), (py_index_nonneg l Hj). unfold len. rewrite Hlen.
  destruct (Z.ltb_spec j (Z.of_nat (length l))); [|reflexivity].
  rewrite (@py_set_nth_other _ l l' i v (Z.to_nat j) H Hi); [reflexivity|lia].
Qed.


(** Resolves the reads of list slots against the assignments before them. *)
Ltac resolve_reads :=
  repeat match goal with
         | S : py_setitem ?l ?i ?v = Ok ?l', G : py_getitem ?l' ?i = Ok ?a |- _ =>
           rewrite (@py_set_get_same _ l l' i v S) in G;
           injection G as G; first [subst a | symmetry in G; subst a | idtac]
         | S : py_setitem ?l ?i ?v = Ok ?l', G : py_getitem ?l' ?j = Ok ?a |- _ =>
           rewrite (@py_set_get_other _ l l' i j v S) in G by lia
         end.

(** ** The first turn *)

Section FirstTurn.
Variable T : Tools.

Lemma handle_initial_request_state (request : Request) (s s' : Nautilus) (next : Request) :
  (1 <= _step_number s)%Z ->
  handle_initial_request T request s = (Ok next, s') ->
  let step := _step_number s in
  let nadir := _nadir s in
  let objectives := evaluate_objectives (_problem s) in
  let x0 := map (fun u => u / 2) (get_variable_upper_bounds (_problem s)) in
  exists resp n method info res z lb d,
    response request = Some resp
    /\ n_iterations resp = Some n
    /\ preference_method resp = Some method
    /\ preference_info resp = Some info
    /\ (step < n)%Z
    /\ _step_number s' = step
    /\ _n_iterations s' = Some n /\ _n_iterations_left s' = Some n
    /\ stored_preferences s'
       = (Some method, Some info,
          calculate_preference_factors method info nadir (_utopian s), Some nadir)
    /\ (len (_xs s') = n + 1 /\ len (_fs s') = n + 1 /\ len (_zs s') = n + 1
        /\ len (_ds s') = n + 1 /\ len (_lower_bounds s') = n + 1
        /\ len (_upper_bounds s') = n + 1)%Z
    /\ solve_asf T (Some nadir) x0
                 (calculate_preference_factors method info nadir (_utopian s))
                 nadir (_utopian s) objectives (_variable_bounds s) None = Ok res
    /\ py_getitem (_xs s') step = Ok (Some (result_x res))
    /\ py_getitem (_fs s') step = Ok (Some (objectives (result_x res)))
    /\ py_getitem (_zs s') (step - 1) = Ok (Some nadir)
    /\ calculate_iteration_point n (Some nadir) (Some (objectives (result_x res))) = Ok z
    /\ py_getitem (_zs s') step = Ok (Some z)
    /\ calculate_bounds T objectives (len (_objective_names s)) x0 (Some nadir)
                        (_variable_bounds s) (evaluate_constraints_of (_problem s)) None
       = Ok lb
    /\ py_getitem (_lower_bounds s') (step + 1) = Ok (Some lb)
    /\ py_getitem (_upper_bounds s') (step + 1) = Ok (Some z)
    /\ calculate_distance (Some z) nadir (Some (objectives (result_x res))) = Ok d
    /\ py_getitem (_ds s') step = Ok (Some d)
    /\ next = NautilusRequest (_ideal s) nadir (Some n) (Some lb) (Some z) (Some d).
Proof.
  intros Hstep Hrun step nadir objectives x0.
  unfold handle_initial_request in Hrun. symex Hrun. fields.
  unfold step, nadir, objectives, x0.
  assert (Hlen : len (@py_repeat (option (list (option R))) None (a0 + 1)) = (a0 + 1)%Z
                 /\ (_step_number s < a0)%Z).
  { destruct (py_setitem_length _ _ _ E17) as [_ Hr]. revert Hr.
    unfold py_repeat, len. rewrite repeat_length. lia. }
  destruct Hlen as [_ Hn].
  assert (Hrep : forall A : Type, len (@py_repeat (option A) None (a0 + 1)) = (a0 + 1)%Z).
  { intros A. unfold py_repeat, len. rewrite repeat_length. lia. }
  assert (Hl : forall (A : Type) (l l' : list A) i v,
             py_setitem l i v = Ok l' -> len l' = len l).
  { intros A l' l'' i v Hs. unfold len. now destruct (py_setitem_length _ _ _ Hs) as [-> _]. }
  resolve_reads.
  cbn [not_none] in E8, E12. injection E8 as <-. injection E12 as <-.
  destruct (response request) as [resp|] eqn:Hresp; [|discriminate].
  cbn [not_none] in E. injection E as ->.
  destruct (n_iterations a) as [n|] eqn:Hits; [|discriminate].
  cbn [getkey] in E0. injection E0 as ->.
  destruct (preference_method a) as [method|] eqn:Hmethod; [|discriminate].
  cbn [getkey] in E2. injection E2 as ->.
  destruct (preference_info a) as [info|] eqn:Hinfo; [|discriminate].
  cbn [getkey] in E3. injection E3 as ->.
  exists a, a0, a1, a2, a4, a10, a12, a16. subst s'. unfold stored_preferences. fields.
  rewrite (Hl _ _ _ _ _ E6), (Hl _ _ _ _ _ E9), (Hl _ _ _ _ _ E14), (Hl _ _ _ _ _ E1),
    (Hl _ _ _ _ _ E23), (Hl _ _ _ _ _ E17), (Hl _ _ _ _ _ E19), !Hrep.
  rewrite (py_set_get_same _ _ _ E6), (py_set_get_same _ _ _ E9),
    (py_set_get_same _ _ _ E14), (py_set_get_same _ _ _ E17), (py_set_get_same _ _ _ E19),
    (py_set_get_same _ _ _ E23).
  rewrite (@py_set_get_other _ _ _ _ (_step_number s - 1)%Z _ E14) by lia.
  rewrite (py_set_get_same _ _ _ E1).
  repeat match goal with |- _ /\ _ => split end;
    try reflexivity; try assumption. now symmetry.
Qed.

End FirstTurn.

(** X5: when the first turn returns (from a method object whose step
    number is at least 1, as [__init__] leaves it), the response carried
    ["n_iterations"] [n] and both preference entries, and [n] exceeds the
    step number, so that a first turn with [n_iterations = 1] never
    returns.  Both counters are [n], the step number is unchanged, the six
    history lists have [n + 1] slots, the stored preferences are those of
    the response with the nadir as reference point, and, writing [res]
    for the result of the achievement problem: [xs[step]] is its decision
    vector, [fs[step]] the objectives there, [zs[step - 1]] the nadir,
    [zs[step]] the iteration point computed from the nadir with [n]
    iterations left, [lower_bounds[step + 1]] the bounds solved with the
    nadir as epsilons, [upper_bounds[step + 1]] the new iteration point
    and [ds[step]] its distance; the returned request shows the last
    three. *)
Theorem X5_first_turn (T : Tools) (request : Request) (s s' : Nautilus) (next : Request)
        (Hstep : (1 <= _step_number s)%Z)
        (Hrun : handle_initial_request T request s = (Ok next, s')) :
  let step := _step_number s in
  let nadir := _nadir s in
  let objectives := evaluate_objectives (_problem s) in
  let x0 := map (fun u => u / 2) (get_variable_upper_bounds (_problem s)) in
  exists resp n method info res z lb d,
    response request = Some resp
    /\ n_iterations resp = Some n
    /\ preference_method resp = Some method
    /\ preference_info resp = Some info
    /\ (step < n)%Z
    /\ _step_number s' = step
    /\ _n_iterations s' = Some n /\ _n_iterations_left s' = Some n
    /\ stored_preferences s'
       = (Some method, Some info,
          calculate_preference_factors method info nadir (_utopian s), Some nadir)
    /\ (len (_xs s') = n + 1 /\ len (_fs s') = n + 1 /\ len (_zs s') = n + 1
        /\ len (_ds s') = n + 1 /\ len (_lower_bounds s') = n + 1
        /\ len (_upper_bounds s') = n + 1)%Z
    /\ solve_asf T (Some nadir) x0
                 (calculate_preference_factors method info nadir (_utopian s))
                 nadir (_utopian s) objectives (_variable_bounds s) None = Ok res
    /\ py_getitem (_xs s') step = Ok (Some (result_x res))
    /\ py_getitem (_fs s') step = Ok (Some (objectives (result_x res)))
    /\ py_getitem (_zs s') (step - 1) = Ok (Some nadir)
    /\ calculate_iteration_point n (Some nadir) (Some (objectives (result_x res))) = Ok z
    /\ py_getitem (_zs s') step = Ok (Some z)
    /\ calculate_bounds T objectives (len (_objective_names s)) x0 (Some nadir)
                        (_variable_bounds s) (evaluate_constraints_of (_problem s)) None
       = Ok lb
    /\ py_getitem (_lower_bounds s') (step + 1) = Ok (Some lb)
    /\ py_getitem (_upper_bounds s') (step + 1) = Ok (Some z)
    /\ calculate_distance (Some z) nadir (Some (objectives (result_x res))) = Ok d
    /\ py_getitem (_ds s') step = Ok (Some d)
    /\ next = NautilusRequest (_ideal s) nadir (Some n) (Some lb) (Some z) (Some d).
Proof. exact (@handle_initial_request_state T request s s' next Hstep Hrun). Qed.

Lemma X5_first_turn_witness :
  let s := demo_initial_method in
  let s' := demo_method in
  let step := _step_number s in
  let nadir := _nadir s in
  let objectives := evaluate_objectives (_problem s) in
  let x0 := map (fun u => u / 2) (get_variable_upper_bounds (_problem s)) in
  exists resp n method info res z lb d,
    response demo_initial_request = Some resp
    /\ n_iterations resp = Some n
    /\ preference_method resp = Some method
    /\ preference_info resp = Some info
    /\ (step < n)%Z
    /\ _step_number s' = step
    /\ _n_iterations s' = Some n /\ _n_iterations_left s' = Some n
    /\ stored_preferences s'
       = (Some method, Some info,
          calculate_preference_factors method info nadir (_utopian s), Some nadir)
    /\ (len (_xs s') = n + 1 /\ len (_fs s') = n + 1 /\ len (_zs s') = n + 1
        /\ len (_ds s') = n + 1 /\ len (_lower_bounds s') = n + 1
        /\ len (_upper_bounds s') = n + 1)%Z
    /\ solve_asf demo_tools (Some nadir) x0
                 (calculate_preference_factors method info nadir (_utopian s))
                 nadir (_utopian s) objectives (_variable_bounds s) None = Ok res
    /\ py_getitem (_xs s') step = Ok (Some (result_x res))
    /\ py_getitem (_fs s') step = Ok (Some (objectives (result_x res)))
    /\ py_getitem (_zs s') (step - 1) = Ok (Some nadir)
    /\ calculate_iteration_point n (Some nadir) (Some (objectives (result_x res))) = Ok z
    /\ py_getitem (_zs s') step = Ok (Some z)
    /\ calculate_bounds demo_tools objectives (len (_objective_names s)) x0 (Some nadir)
                        (_variable_bounds s) (evaluate_constraints_of (_problem s)) None
       = Ok lb
    /\ py_getitem (_lower_bounds s') (step + 1) = Ok (Some lb)
    /\ py_getitem (_upper_bounds s') (step + 1) = Ok (Some z)
    /\ calculate_distance (Some z) nadir (Some (objectives (result_x res))) = Ok d
    /\ py_getitem (_ds s') step = Ok (Some d)
    /\ demo_request = NautilusRequest (_ideal s) nadir (Some n) (Some lb) (Some z) (Some d).
Proof.
  intros s s'.
  apply (@X5_first_turn demo_tools demo_initial_request s s' demo_request).
  - unfold s, demo_initial_method. cbn [_step_number]. lia.
  - vm_compute. reflexivity.
Defined.

(** ** The closing block and the later turns *)

Section LaterTurns.
Variable T : Tools.

Lemma bounds_distance_request_state (x0 : vec) (s s' : Nautilus) (r : option Request) :
  (1 <= _step_number s)%Z ->
  bounds_distance_request T x0 s = (Ok r, s') ->
  let step := _step_number s in
  exists z_prev z f lb d lbs ubs ds,
    py_getitem (_zs s) (step - 1) = Ok z_prev
    /\ py_getitem (_zs s) step = Ok z
    /\ py_getitem (_fs s) step = Ok f
    /\ calculate_bounds T (evaluate_objectives (_problem s)) (len (_objective_names s)) x0
                        z_prev (_variable_bounds s) (evaluate_constraints_of (_problem s))
                        None = Ok lb
    /\ calculate_distance z (_nadir s) f = Ok d
    /\ py_setitem (_lower_bounds s) (step + 1) (Some lb) = Ok lbs
    /\ py_setitem (_upper_bounds s) (step + 1) z = Ok ubs
    /\ py_setitem (_ds s) step (Some d) = Ok ds
    /\ s' = set_ds ds (set_upper_bounds ubs (set_lower_bounds lbs s))
    /\ r = Some (NautilusRequest (_ideal s) (_nadir s) (_n_iterations s)
                                 (Some lb) z (Some d)).
Proof.
  intros Hstep Hrun step. unfold bounds_distance_request in Hrun. symex Hrun. fields.
  resolve_reads. rewrite E2 in E4. injection E4 as <-.
  exists a, a1, a3, a0, a4, l, l0, l1. unfold step.
  repeat match goal with |- _ /\ _ => split end; try assumption; now symmetry.
Qed.

(** The "continue" turn. *)
Lemma continue_with_previous_preference_state (s s' : Nautilus) (r : option Request)
      (itn : Z) :
  (1 <= _step_number s)%Z ->
  _n_iterations_left s = Some itn ->
  continue_with_previous_preference T s = (Ok r, s') ->
  let step := _step_number s in
  let x0 := map (fun u => u / 2) (get_variable_upper_bounds (_problem s)) in
  exists x f z_prev z lb d,
    py_getitem (_xs s) step = Ok x
    /\ py_getitem (_fs s) step = Ok f
    /\ py_getitem (_zs s) step = Ok z_prev
    /\ (step + 2 < len (_lower_bounds s))%Z
    /\ _step_number s' = (step + 1)%Z
    /\ _n_iterations_left s' = Some (itn - 1)%Z
    /\ _n_iterations s' = _n_iterations s
    /\ stored_preferences s' = stored_preferences s
    /\ py_getitem (_xs s') (step + 1) = Ok x
    /\ py_getitem (_fs s') (step + 1) = Ok f
    /\ calculate_iteration_point (itn - 1) z_prev f = Ok z
    /\ py_getitem (_zs s') (step + 1) = Ok (Some z)
    /\ calculate_bounds T (evaluate_objectives (_problem s)) (len (_objective_names s)) x0
                        z_prev (_variable_bounds s) (evaluate_constraints_of (_problem s))
                        None = Ok lb
    /\ py_getitem (_lower_bounds s') (step + 2) = Ok (Some lb)
    /\ py_getitem (_upper_bounds s') (step + 2) = Ok (Some z)
    /\ calculate_distance (Some z) (_nadir s) f = Ok d
    /\ py_getitem (_ds s') (step + 1) = Ok (Some d)
    /\ r = Some (NautilusRequest (_ideal s) (_nadir s) (_n_iterations s)
                                 (Some lb) (Some z) (Some d)).
Proof.
  intros Hstep Hleft Hrun step x0. unfold continue_with_previous_preference in Hrun.
  symex Hrun.
  apply bounds_distance_request_state in Hrun; [|fields; lia].
  cbv zeta in Hrun. destruct Hrun as (z_prev & z & f & lb & d & lbs & ubs & ds & Hrun).
  fields. rewrite Hleft in E. cbn [not_none] in E, E6. injection E as <-. injection E6 as <-.
  replace (_step_number s + 1 - 1)%Z with (_step_number s) in * by lia.
  replace (_step_number s + 1 + 1)%Z with (_step_number s + 2)%Z in * by lia.
  destruct Hrun as (Hzp & Hz & Hf & Hlb & Hd & Hlbs & Hubs & Hds & -> & ->).
  rewrite (@py_set_get_other _ _ _ _ (_step_number s) _ E8) in Hzp by lia.
  resolve_reads.
  rewrite E4 in Hzp. injection Hzp as <-.
  exists a0, a1, a2, a5, lb, d. unfold step, x0, stored_preferences. fields.
  rewrite (py_set_get_same _ _ _ E1), (py_set_get_same _ _ _ E3),
    (py_set_get_same _ _ _ E8), (py_set_get_same _ _ _ Hlbs), (py_set_get_same _ _ _ Hubs),
    (py_set_get_same _ _ _ Hds).
  destruct (py_setitem_length _ _ _ Hlbs) as [_ Hrange].
  repeat match goal with |- _ /\ _ => split end; try reflexivity; try assumption; lia.
Qed.

(** The step back with new preferences. *)
Lemma step_back_with_new_preferences_state (resp : Response) (s s' : Nautilus)
      (r : option Request) :
  (1 <= _step_number s)%Z ->
  step_back_with_new_preferences T resp s = (Ok r, s') ->
  let step := _step_number s in
  let nadir := _nadir s in
  let objectives := evaluate_objectives (_problem s) in
  let x0 := map (fun u => u / 2) (get_variable_upper_bounds (_problem s)) in
  exists method info itn z_prev res z lb d,
    preference_method resp = Some method
    /\ preference_info resp = Some info
    /\ _n_iterations_left s = Some itn
    /\ py_getitem (_zs s) (step - 1) = Ok z_prev
    /\ (step + 1 < len (_lower_bounds s))%Z
    /\ _step_number s' = step
    /\ _n_iterations_left s' = Some itn
    /\ _n_iterations s' = _n_iterations s
    /\ stored_preferences s'
       = (Some method, Some info,
          calculate_preference_factors method info nadir (_utopian s), z_prev)
    /\ solve_asf T z_prev x0 (calculate_preference_factors method info nadir (_utopian s))
                 nadir (_utopian s) objectives (_variable_bounds s) None = Ok res
    /\ py_getitem (_xs s') step = Ok (Some (result_x res))
    /\ py_getitem (_fs s') step = Ok (Some (objectives (result_x res)))
    /\ py_getitem (_zs s') (step - 1) = Ok z_prev
    /\ calculate_iteration_point itn z_prev (Some (objectives (result_x res))) = Ok z
    /\ py_getitem (_zs s') step = Ok (Some z)
    /\ calculate_bounds T objectives (len (_objective_names s)) x0 z_prev
                        (_variable_bounds s) (evaluate_constraints_of (_problem s)) None
       = Ok lb
    /\ py_getitem (_lower_bounds s') (step + 1) = Ok (Some lb)
    /\ py_getitem (_upper_bounds s') (step + 1) = Ok (Some z)
    /\ calculate_distance (Some z) nadir (Some (objectives (result_x res))) = Ok d
    /\ py_getitem (_ds s') step = Ok (Some d)
    /\ r = Some (NautilusRequest (_ideal s) nadir (_n_iterations s)
                                 (Some lb) (Some z) (Some d)).
Proof.
  intros Hstep Hrun step nadir objectives x0.
  unfold step_back_with_new_preferences in Hrun. symex Hrun.
  apply bounds_distance_request_state in Hrun; [|fields; lia].
  cbv zeta in Hrun. destruct Hrun as (z_prev & z & f & lb & d & lbs & ubs & ds & Hrun).
  fields.
  destruct Hrun as (Hzp & Hz & Hf & Hlb & Hd & Hlbs & Hubs & Hds & -> & ->).
  resolve_reads.
  rewrite E1 in E7, Hzp. injection E7 as <-. injection Hzp as <-.
  cbn [not_none] in E5. injection E5 as <-.
  destruct (_n_iterations_left s) as [itn|] eqn:Hleft; [|discriminate].
  cbn [not_none] in E9. injection E9 as <-.
  destruct (preference_method resp) as [method|] eqn:Hmethod; [|discriminate].
  cbn [getkey] in E. injection E as <-.
  destruct (preference_info resp) as [info|] eqn:Hinfo; [|discriminate].
  cbn [getkey] in E0. injection E0 as <-.
  exists method, info, itn, a1, a2, a8, lb, d.
  unfold step, nadir, objectives, x0, stored_preferences. fields.
  rewrite (py_set_get_same _ _ _ E3), (py_set_get_same _ _ _ E6),
    (py_set_get_same _ _ _ E11), (py_set_get_same _ _ _ Hlbs), (py_set_get_same _ _ _ Hubs),
    (py_set_get_same _ _ _ Hds).
  rewrite (@py_set_get_other _ _ _ _ (_step_number s - 1)%Z _ E11) by lia.
  destruct (py_setitem_length _ _ _ Hlbs) as [_ Hrange].
  repeat match goal with |- _ /\ _ => split end; try reflexivity; try assumption; lia.
Qed.

(** The decision table of a later turn. *)
Lemma handle_request_dispatch (n : Z) (c : IterationContent) (resp : Response)
      (s : Nautilus) :
  handle_request T (RequestObj n c (Some resp)) s =
  let s0 := apply_n_iterations resp s in
  match _n_iterations_left s0 with
  | None => (Raise TypeError, s0)
  | Some itn =>
    if (itn <=? 1)%Z then terminated s0
    else match use_previous_preference resp, step_back resp with
         | None, _ => (Raise (KeyError "use_previous_preference"), s0)
         | Some _, None => (Raise (KeyError "step_back"), s0)
         | Some true, Some false => continue_with_previous_preference T s0
         | Some false, Some false => (Ok None, s0)
         | Some use_previous, Some true =>
           match short_step resp with
           | None => (Raise (KeyError "short_step"), set_step_back true s0)
           | Some true => take_short_step T (set_step_back true s0)
           | Some false =>
             if use_previous then (Ok None, set_step_back true s0)
             else step_back_with_new_preferences T resp (set_step_back true s0)
           end
         end
  end.
Proof.
  cbv zeta.
  destruct (_n_iterations_left (apply_n_iterations resp s)) as [itn|] eqn:Hleft.
  - destruct (Z.leb_spec itn 1) as [Hlast|Hmore].
    + exact (handle_request_terminates T n c resp s Hleft Hlast).
    + destruct (use_previous_preference resp) as [[|]|] eqn:Hprev;
        (destruct (step_back resp) as [[|]|] eqn:Hback;
         [destruct (short_step resp) as [[|]|] eqn:Hshort| |]);
        first [ exact (handle_request_continues T n c resp s Hleft Hmore Hprev Hback)
              | exact (handle_request_short_step T n c resp s Hleft Hmore Hprev Hback Hshort)
              | exact (handle_request_new_preferences T n c resp s Hleft Hmore Hprev Hback
                                                       Hshort)
              | exact (handle_request_falls_through T n c resp s Hleft Hmore Hprev Hback
                                                     Hshort)
              | idtac ];
        revert Hleft; unfold_handle_request; unfold apply_n_iterations;
        rewrite ?Hprev, ?Hback, ?Hshort; cbn [getkey negb];
        (destruct (n_iterations resp); fields; intros Hleft;
         [injection Hleft as ->|rewrite Hleft]);
        (destruct (Z.leb_spec itn 1); [lia|reflexivity]).
  - exact (handle_request_untyped T n c resp s Hleft).
Qed.

End LaterTurns.

(** ** What a later turn keeps of the history *)

Lemma bind_lift_raise {A B : Type} (e : exn) (k : A -> M B) (self : Nautilus) :
  bind (lift (Raise e)) k self = (Raise e, self).
Proof. reflexivity. Qed.

Lemma bind_item_raise {A B : Type} (field : Nautilus -> list A) (i : Z) (e : exn)
      (k : A -> M B) (self : Nautilus) :
  py_getitem (field self) i = Raise e -> bind (item field i) k self = (Raise e, self).
Proof. intros H. unfold bind, item. now rewrite H. Qed.

Lemma bind_assign_item_raise {A B : Type} (field : Nautilus -> list A)
      (set : list A -> Nautilus -> Nautilus) (i : Z) (a : A) (e : exn) (k : unit -> M B)
      (self : Nautilus) :
  py_setitem (field self) i a = Raise e ->
  bind (assign_item field set i a) k self = (Raise e, self).
Proof. intros H. unfold bind, assign_item. now rewrite H. Qed.

(** Runs a straight-line computation to each of its outcomes: the
    normal return and every step that can raise. *)
Ltac symex_any H :=
  fields_in H;
  lazymatch type of H with
  | bind (gets _) _ _ = _ => rewrite bind_gets in H; symex_any H
  | bind (modify _) _ _ = _ => rewrite bind_modify in H; symex_any H
  | bind (lift ?r) _ _ = _ =>
    let a := fresh "a" in
    let E := fresh "E" in
    destruct r as [a|a] eqn:E;
    [rewrite bind_lift_ok in H; symex_any H
    |rewrite bind_lift_raise in H]
  | bind (item ?f ?i) _ ?s = _ =>
    let a := fresh "a" in
    let E := fresh "E" in
    destruct (py_getitem (f s) i) as [a|a] eqn:E;
    [rewrite (@bind_item _ _ f i a _ s E) in H; symex_any H
    |rewrite (@bind_item_raise _ _ f i a _ s E) in H]
  | bind (assign_item ?f ?set ?i ?v) _ ?s = _ =>
    let l := fresh "l" in
    let E := fresh "E" in
    destruct (py_setitem (f s) i v) as [l|l] eqn:E;
    [rewrite (@bind_assign_item _ _ f set i v l _ s E) in H; symex_any H
    |rewrite (@bind_assign_item_raise _ _ f set i v l _ s E) in H]
  | ret _ _ = _ => unfold ret in H
  | _ => idtac
  end.

Lemma same_before_refl {A : Type} (k : Z) (l : list A) : same_before k l l.
Proof. intros i _. reflexivity. Qed.

Lemma py_setitem_same_before {A : Type} (l l' : list A) (i k : Z) (v : A) :
  py_setitem l i v = Ok l' -> (k <= i)%Z -> same_before k l l'.
Proof.
  intros H Hk j Hj. destruct (Z.leb_spec 0 i) as [Hi|Hi].
  - apply (@py_set_nth_other _ l l' i v j H Hi). lia.
  - lia.
Qed.

Lemma same_before_trans {A : Type} (k k' : Z) (l1 l2 l3 : list A) :
  (k <= k')%Z -> same_before k l1 l2 -> same_before k' l2 l3 -> same_before k l1 l3.
Proof. intros Hk H1 H2 i Hi. rewrite H2 by lia. now apply H1. Qed.

Lemma history_kept_refl (s : Nautilus) : history_kept s s.
Proof.
  unfold history_kept.
  repeat lazymatch goal with |- _ /\ _ => split end;
    first [apply same_before_refl | lia].
Qed.

Lemma history_kept_trans (s1 s2 s3 : Nautilus) :
  history_kept s1 s2 -> history_kept s2 s3 -> history_kept s1 s3.
Proof.
  intros (H0 & H1 & H2 & H3 & H4 & H5 & H6) (K0 & K1 & K2 & K3 & K4 & K5 & K6).
  unfold history_kept.
  repeat lazymatch goal with |- _ /\ _ => split end; [lia| | | | | |];
    (eapply same_before_trans; [|eassumption|eassumption]; lia).
Qed.

Ltac kept :=
  unfold history_kept; fields;
  repeat lazymatch goal with |- _ /\ _ => split end;
  try lia;
  try apply same_before_refl;
  try lazymatch goal with
      | |- same_before _ _ ?l =>
        lazymatch goal with
        | E : py_setitem _ _ _ = Ok l |- _ =>
          eapply py_setitem_same_before; [exact E|lia]
        end
      end.
Section Kept.
Variable T : Tools.

Lemma bounds_distance_request_kept (x0 : vec) (s : Nautilus) :
  history_kept s (snd (bounds_distance_request T x0 s)).
Proof.
  destruct (bounds_distance_request T x0 s) as [r s'] eqn:H. cbn [snd].
  unfold bounds_distance_request in H.
  symex_any H. all: injection H as _ <-. all: kept.
Qed.

(** Closes a branch that ends in the closing block. *)
Ltac kept_block H :=
  lazymatch type of H with
  | bounds_distance_request ?T ?x0 ?s1 = (_, ?s') =>
    apply history_kept_trans with (s2 := s1);
    [kept
    |replace s' with (snd (bounds_distance_request T x0 s1)) by (now rewrite H);
     apply bounds_distance_request_kept]
  | _ => injection H as _ <-; kept
  end.

Lemma continue_with_previous_preference_kept (s : Nautilus) :
  history_kept s (snd (continue_with_previous_preference T s)).
Proof.
  destruct (continue_with_previous_preference T s) as [r s'] eqn:H. cbn [snd].
  unfold continue_with_previous_preference in H.
  symex_any H. all: kept_block H.
Qed.

Lemma take_short_step_kept (s : Nautilus) :
  history_kept s (snd (take_short_step T s)).
Proof.
  destruct (take_short_step T s) as [r s'] eqn:H. cbn [snd].
  unfold take_short_step in H.
  symex_any H. all: kept_block H.
Qed.

Lemma step_back_with_new_preferences_kept (resp : Response) (s : Nautilus) :
  history_kept s (snd (step_back_with_new_preferences T resp s)).
Proof.
  destruct (step_back_with_new_preferences T resp s) as [r s'] eqn:H. cbn [snd].
  unfold step_back_with_new_preferences in H.
  symex_any H. all: kept_block H.
Qed.

Lemma apply_n_iterations_kept (resp : Response) (s : Nautilus) :
  history_kept s (apply_n_iterations resp s).
Proof.
  unfold apply_n_iterations. destruct (n_iterations resp); [|apply history_kept_refl].
  kept.
Qed.

Lemma handle_request_kept (request : Request) (s : Nautilus) :
  history_kept s (snd (handle_request T request s)).
Proof.
  destruct (response request) as [resp|] eqn:Hresp.
  - assert (Heq : handle_request T request s
                  = handle_request T (RequestObj 0 (mkIterationContent [] [] None None None None)
                                                 (Some resp)) s).
    { unfold handle_request. cbn [response]. now rewrite Hresp. }
    rewrite Heq, handle_request_dispatch. cbv zeta.
    pose proof (apply_n_iterations_kept resp s) as H0.
    set (s0 := apply_n_iterations resp s) in *.
    assert (Hback : history_kept s (set_step_back true s0)).
    { apply (history_kept_trans H0). kept. }
    destruct (_n_iterations_left s0) as [itn|]; [|exact H0].
    destruct (itn <=? 1)%Z.
    { unfold terminated. cbn [snd]. apply (history_kept_trans H0). kept. }
    destruct (use_previous_preference resp) as [[|]|];
      (destruct (step_back resp) as [[|]|]; [destruct (short_step resp) as [[|]|]| |]);
      lazymatch goal with
      | |- history_kept _ (snd (continue_with_previous_preference _ _)) =>
        apply (history_kept_trans H0); apply continue_with_previous_preference_kept
      | |- history_kept _ (snd (take_short_step _ _)) =>
        apply (history_kept_trans Hback); apply take_short_step_kept
      | |- history_kept _ (snd (step_back_with_new_preferences _ _ _)) =>
        apply (history_kept_trans Hback); apply step_back_with_new_preferences_kept
      | |- history_kept _ (snd (_, set_step_back true _)) => exact Hback
      | |- history_kept _ (snd (_, _)) => exact H0
      end.
  - unfold handle_request, bind, lift. rewrite Hresp. cbn [not_none snd].
    apply history_kept_refl.
Qed.

End Kept.

(** X9: whatever its outcome, a turn on an intermediate request or on a
    stop request leaves the past of the history as it was: the step
    number does not decrease, the solutions, objective vectors, iteration
    points and distances stored before the current step number are
    untouched, and so are the bounds stored up to and including it.  This
    holds as well for a turn that raises midway. *)
Theorem X9_history_kept (T : Tools) (request : Request) (s : Nautilus) :
  match request with
  | InitialRequestObj _ _ _ => True
  | _ => history_kept s (snd (iterate T request s))
  end.
Proof.
  destruct request as [n c resp|n c resp|c]; cbn [iterate].
  - exact I.
  - apply handle_request_kept.
  - apply history_kept_refl.
Qed.

(** ** The turns that move the iteration point *)

Lemma apply_n_iterations_frame (resp : Response) (s : Nautilus) :
  _step_number (apply_n_iterations resp s) = _step_number s
  /\ _xs (apply_n_iterations resp s) = _xs s
  /\ _fs (apply_n_iterations resp s) = _fs s
  /\ _zs (apply_n_iterations resp s) = _zs s
  /\ _ds (apply_n_iterations resp s) = _ds s
  /\ _lower_bounds (apply_n_iterations resp s) = _lower_bounds s
  /\ _upper_bounds (apply_n_iterations resp s) = _upper_bounds s
  /\ _problem (apply_n_iterations resp s) = _problem s
  /\ _objective_names (apply_n_iterations resp s) = _objective_names s
  /\ _variable_bounds (apply_n_iterations resp s) = _variable_bounds s
  /\ _ideal (apply_n_iterations resp s) = _ideal s
  /\ _nadir (apply_n_iterations resp s) = _nadir s
  /\ _utopian (apply_n_iterations resp s) = _utopian s
  /\ stored_preferences (apply_n_iterations resp s) = stored_preferences s.
Proof.
  unfold apply_n_iterations, stored_preferences.
  destruct (n_iterations resp); fields;
    repeat lazymatch goal with |- _ /\ _ => split end; reflexivity.
Qed.

(** X6: a "continue" turn (previous preferences, no step back, more than
    one iteration remaining) that returns has advanced the step number by
    one and lowered the remaining count by one; the solution and the
    objective vector of the previous step are copied to the new step; the
    new iteration point is computed from the previous one with the
    lowered count; the lower bounds are solved with the previous
    iteration point as epsilons and stored, with the new iteration point
    as upper bound, one slot further; the stored preferences are
    untouched.  The slot [step + 2] of the bounds must exist for the turn
    to return. *)
Theorem X6_continue_turn (T : Tools) (n : Z) (c : IterationContent) (resp : Response)
        (s s' : Nautilus) (r : option Request) (itn : Z)
        (Hstep : (1 <= _step_number s)%Z)
        (Hprev : use_previous_preference resp = Some true)
        (Hback : step_back resp = Some false)
        (Hleft : _n_iterations_left (apply_n_iterations resp s) = Some itn)
        (Hmore : (1 < itn)%Z)
        (Hrun : handle_request T (RequestObj n c (Some resp)) s = (Ok r, s')) :
  let step := _step_number s in
  let total := _n_iterations (apply_n_iterations resp s) in
  let x0 := map (fun u => u / 2) (get_variable_upper_bounds (_problem s)) in
  exists x f z_prev z lb d,
    py_getitem (_xs s) step = Ok x
    /\ py_getitem (_fs s) step = Ok f
    /\ py_getitem (_zs s) step = Ok z_prev
    /\ (step + 2 < len (_lower_bounds s))%Z
    /\ _step_number s' = (step + 1)%Z
    /\ _n_iterations_left s' = Some (itn - 1)%Z
    /\ _n_iterations s' = total
    /\ stored_preferences s' = stored_preferences s
    /\ py_getitem (_xs s') (step + 1) = Ok x
    /\ py_getitem (_fs s') (step + 1) = Ok f
    /\ calculate_iteration_point (itn - 1) z_prev f = Ok z
    /\ py_getitem (_zs s') (step + 1) = Ok (Some z)
    /\ calculate_bounds T (evaluate_objectives (_problem s)) (len (_objective_names s)) x0
                        z_prev (_variable_bounds s) (evaluate_constraints_of (_problem s))
                        None = Ok lb
    /\ py_getitem (_lower_bounds s') (step + 2) = Ok (Some lb)
    /\ py_getitem (_upper_bounds s') (step + 2) = Ok (Some z)
    /\ calculate_distance (Some z) (_nadir s) f = Ok d
    /\ py_getitem (_ds s') (step + 1) = Ok (Some d)
    /\ r = Some (NautilusRequest (_ideal s) (_nadir s) total (Some lb) (Some z) (Some d)).
Proof.
  intros step total x0. unfold step, total, x0.
  rewrite (handle_request_continues T n c resp s Hleft Hmore Hprev Hback) in Hrun.
  destruct (apply_n_iterations_frame resp s)
    as (F1 & F2 & F3 & F4 & F5 & F6 & F7 & F8 & F9 & F10 & F11 & F12 & F13 & F14).
  assert (Hstep0 : (1 <= _step_number (apply_n_iterations resp s))%Z) by now rewrite F1.
  pose proof (@continue_with_previous_preference_state T _ _ _ _ Hstep0 Hleft Hrun) as H.
  cbv zeta in H. rewrite F1, F2, F3, F4, F6, F8, F9, F10, F11, F12, F14 in H. exact H.
Qed.

Lemma X6_continue_turn_witness :
  let s := demo_method in
  let s' := snd (demo_continued 1) in
  let r := match fst (demo_continued 1) with Ok r => r | Raise _ => None end in
  let step := _step_number s in
  let total := _n_iterations (apply_n_iterations demo_continue s) in
  let x0 := map (fun u => u / 2) (get_variable_upper_bounds (_problem s)) in
  exists x f z_prev z lb d,
    py_getitem (_xs s) step = Ok x
    /\ py_getitem (_fs s) step = Ok f
    /\ py_getitem (_zs s) step = Ok z_prev
    /\ (step + 2 < len (_lower_bounds s))%Z
    /\ _step_number s' = (step + 1)%Z
    /\ _n_iterations_left s' = Some (4 - 1)%Z
    /\ _n_iterations s' = total
    /\ stored_preferences s' = stored_preferences s
    /\ py_getitem (_xs s') (step + 1) = Ok x
    /\ py_getitem (_fs s') (step + 1) = Ok f
    /\ calculate_iteration_point (4 - 1) z_prev f = Ok z
    /\ py_getitem (_zs s') (step + 1) = Ok (Some z)
    /\ calculate_bounds demo_tools (evaluate_objectives (_problem s))
                        (len (_objective_names s)) x0
                        z_prev (_variable_bounds s) (evaluate_constraints_of (_problem s))
                        None = Ok lb
    /\ py_getitem (_lower_bounds s') (step + 2) = Ok (Some lb)
    /\ py_getitem (_upper_bounds s') (step + 2) = Ok (Some z)
    /\ calculate_distance (Some z) (_nadir s) f = Ok d
    /\ py_getitem (_ds s') (step + 1) = Ok (Some d)
    /\ r = Some (NautilusRequest (_ideal s) (_nadir s) total (Some lb) (Some z) (Some d)).
Proof.
  intros s s' r.
  apply (@X6_continue_turn demo_tools 2 (mkIterationContent [] [] None None None None)
                           demo_continue s s' r 4%Z).
  - vm_compute. discriminate.
  - reflexivity.
  - reflexivity.
  - vm_compute. reflexivity.
  - lia.
  - vm_compute. reflexivity.
Defined.

(** X7: a step back with new preferences ([step_back] true, [short_step]
    false, [use_previous_preference] false, more than one iteration
    remaining) that returns has kept the step number and both counters;
    the stored preferences are those of the response and the reference
    point is the previous iteration point [zs[step - 1]], which is left
    as it was; [xs[step]] and [fs[step]] are replaced by the solution of
    the achievement problem for the new preferences and its objectives;
    [zs[step]] is recomputed from [zs[step - 1]] with the unchanged
    remaining count; bounds and distance are recomputed and stored in the
    same slots as before. *)
Theorem X7_new_preferences_turn (T : Tools) (n : Z) (c : IterationContent)
        (resp : Response) (s s' : Nautilus) (r : option Request) (itn : Z)
        (Hstep : (1 <= _step_number s)%Z)
        (Hprev : use_previous_preference resp = Some false)
        (Hback : step_back resp = Some true)
        (Hshort : short_step resp = Some false)
        (Hleft : _n_iterations_left (apply_n_iterations resp s) = Some itn)
        (Hmore : (1 < itn)%Z)
        (Hrun : handle_request T (RequestObj n c (Some resp)) s = (Ok r, s')) :
  let step := _step_number s in
  let total := _n_iterations (apply_n_iterations resp s) in
  let nadir := _nadir s in
  let objectives := evaluate_objectives (_problem s) in
  let x0 := map (fun u => u / 2) (get_variable_upper_bounds (_problem s)) in
  exists method info z_prev res z lb d,
    preference_method resp = Some method
    /\ preference_info resp = Some info
    /\ py_getitem (_zs s) (step - 1) = Ok z_prev
    /\ (step + 1 < len (_lower_bounds s))%Z
    /\ _step_number s' = step
    /\ _n_iterations_left s' = Some itn
    /\ _n_iterations s' = total
    /\ _step_back s' = true
    /\ stored_preferences s'
       = (Some method, Some info,
          calculate_preference_factors method info nadir (_utopian s), z_prev)
    /\ solve_asf T z_prev x0 (calculate_preference_factors method info nadir (_utopian s))
                 nadir (_utopian s) objectives (_variable_bounds s) None = Ok res
    /\ py_getitem (_xs s') step = Ok (Some (result_x res))
    /\ py_getitem (_fs s') step = Ok (Some (objectives (result_x res)))
    /\ py_getitem (_zs s') (step - 1) = Ok z_prev
    /\ calculate_iteration_point itn z_prev (Some (objectives (result_x res))) = Ok z
    /\ py_getitem (_zs s') step = Ok (Some z)
    /\ calculate_bounds T objectives (len (_objective_names s)) x0 z_prev
                        (_variable_bounds s) (evaluate_constraints_of (_problem s)) None
       = Ok lb
    /\ py_getitem (_lower_bounds s') (step + 1) = Ok (Some lb)
    /\ py_getitem (_upper_bounds s') (step + 1) = Ok (Some z)
    /\ calculate_distance (Some z) nadir (Some (objectives (result_x res))) = Ok d
    /\ py_getitem (_ds s') step = Ok (Some d)
    /\ r = Some (NautilusRequest (_ideal s) nadir total (Some lb) (Some z) (Some d)).
Proof.
  intros step total nadir objectives x0. unfold step, total, nadir, objectives, x0.
  rewrite (handle_request_new_preferences T n c resp s Hleft Hmore Hprev Hback Hshort)
    in Hrun.
  destruct (apply_n_iterations_frame resp s)
    as (F1 & F2 & F3 & F4 & F5 & F6 & F7 & F8 & F9 & F10 & F11 & F12 & F13 & F14).
  set (s0 := apply_n_iterations resp s) in *.
  assert (Hflag : _step_back s' = true).
  { pose proof (preserves_apply (set_step_back true s0)
                  (R := same _step_back)
                  (m := step_back_with_new_preferences T resp)) as Hp.
    rewrite Hrun in Hp. apply Hp. unfold step_back_with_new_preferences. frame_block. }
  assert (Hstep0 : (1 <= _step_number (set_step_back true s0))%Z)
    by (fields; now rewrite F1).
  pose proof (@step_back_with_new_preferences_state T _ _ _ _ Hstep0 Hrun) as H.
  cbv zeta in H. fields.
  destruct H as (method & info & itn' & z_prev & res & z & lb & d & H).
  rewrite Hleft in H.
  rewrite F1, F4, F6, F8, F9, F10, F11, F12, F13 in H.
  exists method, info, z_prev, res, z, lb, d.
  destruct H as (H1 & H2 & H3 & H4 & H5 & H6 & H7 & H8 & H9 & H10 & H11 & H12 & H13 & H14
                 & H15 & H16 & H17 & H18 & H19 & H20 & H21).
  injection H3 as <-.
  repeat lazymatch goal with |- _ /\ _ => split end; assumption.
Qed.

Lemma X7_new_preferences_turn_witness :
  let s := demo_method in
  let turn := handle_request demo_tools
                             (RequestObj 2 (mkIterationContent [] [] None None None None)
                                         (Some demo_new_preferences)) s in
  let s' := snd turn in
  let r := match fst turn with Ok r => r | Raise _ => None end in
  let step := _step_number s in
  let total := _n_iterations (apply_n_iterations demo_new_preferences s) in
  let nadir := _nadir s in
  let objectives := evaluate_objectives (_problem s) in
  let x0 := map (fun u => u / 2) (get_variable_upper_bounds (_problem s)) in
  exists method info z_prev res z lb d,
    preference_method demo_new_preferences = Some method
    /\ preference_info demo_new_preferences = Some info
    /\ py_getitem (_zs s) (step - 1) = Ok z_prev
    /\ (step + 1 < len (_lower_bounds s))%Z
    /\ _step_number s' = step
    /\ _n_iterations_left s' = Some 4%Z
    /\ _n_iterations s' = total
    /\ _step_back s' = true
    /\ stored_preferences s'
       = (Some method, Some info,
          calculate_preference_factors method info nadir (_utopian s), z_prev)
    /\ solve_asf demo_tools z_prev x0
                 (calculate_preference_factors method info nadir (_utopian s))
                 nadir (_utopian s) objectives (_variable_bounds s) None = Ok res
    /\ py_getitem (_xs s') step = Ok (Some (result_x res))
    /\ py_getitem (_fs s') step = Ok (Some (objectives (result_x res)))
    /\ py_getitem (_zs s') (step - 1) = Ok z_prev
    /\ calculate_iteration_point 4 z_prev (Some (objectives (result_x res))) = Ok z
    /\ py_getitem (_zs s') step = Ok (Some z)
    /\ calculate_bounds demo_tools objectives (len (_objective_names s)) x0 z_prev
                        (_variable_bounds s) (evaluate_constraints_of (_problem s)) None
       = Ok lb
    /\ py_getitem (_lower_bounds s') (step + 1) = Ok (Some lb)
    /\ py_getitem (_upper_bounds s') (step + 1) = Ok (Some z)
    /\ calculate_distance (Some z) nadir (Some (objectives (result_x res))) = Ok d
    /\ py_getitem (_ds s') step = Ok (Some d)
    /\ r = Some (NautilusRequest (_ideal s) nadir total (Some lb) (Some z) (Some d)).
Proof.
  intros s turn s' r.
  apply (@X7_new_preferences_turn demo_tools 2 (mkIterationContent [] [] None None None None)
                                  demo_new_preferences s s' r 4%Z).
  - vm_compute. discriminate.
  - reflexivity.
  - reflexivity.
  - reflexivity.
  - vm_compute. reflexivity.
  - lia.
  - vm_compute. reflexivity.
Defined.

(** ** What a turn returns *)

Section Reports.
Variable T : Tools.

Lemma bounds_distance_request_reports (x0 : vec) (s s' : Nautilus) (r : option Request) :
  (1 <= _step_number s)%Z ->
  x0 = map (fun u => u / 2) (get_variable_upper_bounds (_problem s)) ->
  bounds_distance_request T x0 s = (Ok r, s') ->
  reports T s' r.
Proof.
  intros Hstep -> Hrun. apply bounds_distance_request_state in Hrun; [|exact Hstep].
  cbv zeta in Hrun.
  destruct Hrun as (z_prev & z & f & lb & d & lbs & ubs & ds & H1 & H2 & H3 & H4 & H5
                    & H6 & H7 & H8 & -> & ->).
  unfold reports. fields. exists z_prev, z, f, lb, d.
  rewrite (py_set_get_same _ _ _ H6), (py_set_get_same _ _ _ H7), (py_set_get_same _ _ _ H8).
  repeat lazymatch goal with |- _ /\ _ => split end; first [assumption|reflexivity].
Qed.

Lemma continue_with_previous_preference_reports (s s' : Nautilus) (r : option Request) :
  (1 <= _step_number s)%Z ->
  continue_with_previous_preference T s = (Ok r, s') -> reports T s' r.
Proof.
  intros Hstep Hrun. unfold continue_with_previous_preference in Hrun. symex Hrun.
  apply bounds_distance_request_reports in Hrun; [exact Hrun|fields; lia|reflexivity].
Qed.

Lemma take_short_step_reports (s s' : Nautilus) (r : option Request) :
  (1 <= _step_number s)%Z ->
  take_short_step T s = (Ok r, s') -> reports T s' r.
Proof.
  intros Hstep Hrun. unfold take_short_step in Hrun. symex Hrun.
  apply bounds_distance_request_reports in Hrun; [exact Hrun|fields; lia|reflexivity].
Qed.

Lemma step_back_with_new_preferences_reports (resp : Response) (s s' : Nautilus)
      (r : option Request) :
  (1 <= _step_number s)%Z ->
  step_back_with_new_preferences T resp s = (Ok r, s') -> reports T s' r.
Proof.
  intros Hstep Hrun. unfold step_back_with_new_preferences in Hrun. symex Hrun.
  apply bounds_distance_request_reports in Hrun; [exact Hrun|fields; lia|reflexivity].
Qed.

Lemma handle_initial_request_reports (request : Request) (s s' : Nautilus) (next : Request) :
  (1 <= _step_number s)%Z ->
  handle_initial_request T request s = (Ok next, s') -> reports T s' (Some next).
Proof.
  intros Hstep Hrun.
  assert (Hframe : same (fun self => (_problem self, _objective_names self,
                                      _variable_bounds self, _ideal self, _nadir self))
                        s s').
  { pose proof (preserves_apply s (R := same (fun self =>
                  (_problem self, _objective_names self, _variable_bounds self,
                   _ideal self, _nadir self)))
                  (m := handle_initial_request T request)) as Hp.
    rewrite Hrun in Hp. apply Hp. unfold handle_initial_request. frame. }
  unfold same in Hframe. injection Hframe as F1 F2 F3 F4 F5.
  destruct (@handle_initial_request_state T request s s' next Hstep Hrun)
    as (resp & n & method & info & res & z & lb & d & H).
  cbv zeta in H.
  destruct H as (_ & _ & _ & _ & _ & Hs & Hn & _ & _ & _ & _ & _ & Hf & Hzp & _ & Hz & Hlb
                 & Hlbs & Hubs & Hd & Hds & ->).
  unfold reports. rewrite F1, F2, F3, F4, F5, Hs, Hn.
  exists (Some (_nadir s)), (Some z), (Some (evaluate_objectives (_problem s) (result_x res))),
         lb, d.
  repeat lazymatch goal with |- _ /\ _ => split end; first [assumption|reflexivity].
Qed.

Lemma iterate_reports (request : Request) (s s' : Nautilus) (r : option Request) :
  (1 <= _step_number s)%Z ->
  iterate T request s = (Ok r, s') ->
  r = None \/ is_stop_request r = true \/ reports T s' r.
Proof.
  intros Hstep Hrun. destruct request as [n c resp|n c [resp|]|c]; cbn [iterate] in Hrun.
  - unfold bind in Hrun.
    destruct (handle_initial_request T (InitialRequestObj n c resp) s) as [[next|e] s1] eqn:E;
      [|discriminate].
    injection Hrun as <- <-. right. right.
    exact (@handle_initial_request_reports _ _ _ _ Hstep E).
  - rewrite handle_request_dispatch in Hrun. cbv zeta in Hrun.
    destruct (apply_n_iterations_frame resp s) as (F1 & _).
    set (s0 := apply_n_iterations resp s) in *.
    destruct (_n_iterations_left s0) as [itn|]; [|discriminate].
    destruct (itn <=? 1)%Z.
    { unfold terminated in Hrun.
      destruct (py_getitem (_xs s0) (_step_number s0)); [|discriminate].
      destruct (py_getitem (_fs s0) (_step_number s0)); [|discriminate].
      cbn [rbind] in Hrun. injection Hrun as <- _. right. left. reflexivity. }
    destruct (use_previous_preference resp) as [[|]|];
      (destruct (step_back resp) as [[|]|]; [destruct (short_step resp) as [[|]|]| |]);
      lazymatch type of Hrun with
      | continue_with_previous_preference _ _ = _ =>
        right; right;
        apply continue_with_previous_preference_reports in Hrun; [exact Hrun|lia]
      | take_short_step _ _ = _ =>
        right; right; apply take_short_step_reports in Hrun; [exact Hrun|fields; lia]
      | step_back_with_new_preferences _ _ _ = _ =>
        right; right;
        apply step_back_with_new_preferences_reports in Hrun; [exact Hrun|fields; lia]
      | (Ok None, _) = _ => injection Hrun as <- _; left; reflexivity
      | _ => discriminate
      end.
  - unfold handle_request, bind, lift in Hrun. cbn [response not_none] in Hrun. discriminate.
  - injection Hrun as <- _. right. left. reflexivity.
Qed.

End Reports.

(** X8: a turn of [iterate] that returns gives [None] (the two response
    combinations without a branch), or a stop request, or an iteration
    request that reports the method object as the turn leaves it: its
    upper bounds are the iteration point [zs[step]], its lower bounds are
    the ones solved with the previous iteration point [zs[step - 1]] as
    epsilons and stored at [lower_bounds[step + 1]], its distance is the
    one of [zs[step]] relative to [fs[step]], stored at [ds[step]], and
    its number of iterations is the total count. *)
Theorem X8_returned_request (T : Tools) (request : Request) (s s' : Nautilus)
        (r : option Request)
        (Hstep : (1 <= _step_number s)%Z)
        (Hrun : iterate T request s = (Ok r, s')) :
  r = None \/ is_stop_request r = true \/ reports T s' r.
Proof. exact (@iterate_reports T request s s' r Hstep Hrun). Qed.

Lemma X8_returned_request_witness :
  Some demo_request = None \/ is_stop_request (Some demo_request) = true
  \/ reports demo_tools demo_method (Some demo_request).
Proof.
  apply (@X8_returned_request demo_tools demo_initial_request demo_initial_method
                              demo_method (Some demo_request)).
  - vm_compute. discriminate.
  - vm_compute. reflexivity.
Defined.

(** ** The length of the history and the last iteration *)

Lemma preserves_assign_item_length {A B : Type} (field : Nautilus -> B)
      (get : Nautilus -> list A) (set : list A -> Nautilus -> Nautilus) (i : Z) (a : A) :
  (forall l self, length l = length (get self) -> field (set l self) = field self) ->
  preserves (same field) (assign_item get set i a).
Proof.
  intros H self. unfold assign_item, same.
  destruct (py_setitem (get self) i a) as [l|e] eqn:E; cbn [snd]; [|reflexivity].
  apply H. now destruct (py_setitem_length _ _ _ E).
Qed.

(** Walks down a chain of [bind]s whose steps keep the lengths of the
    history lists. *)
Ltac frame_lengths :=
  lazymatch goal with
  | |- preserves _ (bind _ _) =>
    apply preserves_bind; [apply same_trans | frame_lengths | intro; frame_lengths]
  | |- preserves _ (bounds_distance_request _ _) =>
    unfold bounds_distance_request; frame_lengths
  | |- preserves _ (modify _) => apply preserves_modify; intro; reflexivity
  | |- preserves _ (assign_item _ _ _ _) =>
    apply preserves_assign_item_length;
    let l := fresh "l" in
    let self := fresh "self" in
    let H := fresh "H" in
    intros l self H; unfold history_lengths; fields; now rewrite H
  | |- preserves _ (if ?b then _ else _) => destruct b; frame_lengths
  | |- preserves _ _ => first [ assumption | apply preserves_pure; intro; reflexivity ]
  end.

Section Lengths.
Variable T : Tools.

Lemma continue_with_previous_preference_lengths :
  preserves (same history_lengths) (continue_with_previous_preference T).
Proof. unfold continue_with_previous_preference. frame_lengths. Qed.

Lemma take_short_step_lengths :
  preserves (same history_lengths) (take_short_step T).
Proof. unfold take_short_step. frame_lengths. Qed.

Lemma step_back_with_new_preferences_lengths (resp : Response) :
  preserves (same history_lengths) (step_back_with_new_preferences T resp).
Proof. unfold step_back_with_new_preferences. frame_lengths. Qed.

Lemma handle_request_lengths (request : Request) (s : Nautilus) :
  history_lengths (snd (handle_request T request s)) = history_lengths s.
Proof.
  destruct (response request) as [resp|] eqn:Hresp.
  - assert (Heq : handle_request T request s
                  = handle_request T (RequestObj 0 (mkIterationContent [] [] None None None None)
                                                 (Some resp)) s).
    { unfold handle_request. cbn [response]. now rewrite Hresp. }
    rewrite Heq, handle_request_dispatch. cbv zeta.
    assert (H0 : history_lengths (apply_n_iterations resp s) = history_lengths s).
    { unfold apply_n_iterations. destruct (n_iterations resp); reflexivity. }
    set (s0 := apply_n_iterations resp s) in *.
    assert (Hback : history_lengths (set_step_back true s0) = history_lengths s)
      by exact H0.
    destruct (_n_iterations_left s0) as [itn|]; [|exact H0].
    destruct (itn <=? 1)%Z; [exact H0|].
    destruct (use_previous_preference resp) as [[|]|];
      (destruct (step_back resp) as [[|]|]; [destruct (short_step resp) as [[|]|]| |]);
      lazymatch goal with
      | |- history_lengths (snd (continue_with_previous_preference _ _)) = _ =>
        rewrite <- H0; apply continue_with_previous_preference_lengths
      | |- history_lengths (snd (take_short_step _ _)) = _ =>
        rewrite <- Hback; apply take_short_step_lengths
      | |- history_lengths (snd (step_back_with_new_preferences _ _ _)) = _ =>
        rewrite <- Hback; apply step_back_with_new_preferences_lengths
      | |- history_lengths (snd (_, set_step_back true _)) = _ => exact Hback
      | |- history_lengths (snd (_, _)) = _ => exact H0
      end.
  - unfold handle_request, bind, lift. rewrite Hresp. reflexivity.
Qed.

End Lengths.

Lemma history_lengths_equal (s s' : Nautilus) :
  history_lengths s' = history_lengths s -> equal_lengths s -> equal_lengths s'.
Proof.
  unfold history_lengths, equal_lengths. intros H (H1 & H2 & H3 & H4 & H5).
  injection H as -> -> -> -> -> ->. now repeat split.
Qed.

Section OnTrack.
Variable T : Tools.

Lemma handle_initial_request_on_track (request : Request) (s s' : Nautilus)
      (next : Request) :
  _step_number s = 1%Z ->
  handle_initial_request T request s = (Ok next, s') -> on_track s'.
Proof.
  intros Hone Hrun.
  assert (Hstep : (1 <= _step_number s)%Z) by lia.
  destruct (@handle_initial_request_state T request s s' next Hstep Hrun)
    as (resp & n & method & info & res & z & lb & d & H).
  cbv zeta in H.
  destruct H as (_ & _ & _ & _ & _ & Hs & _ & Hleft & _ & (L1 & L2 & L3 & L4 & L5 & L6) & _).
  unfold on_track, equal_lengths. unfold len in *.
  split; [lia|]. split; [repeat split; lia|].
  exists n. split; [exact Hleft|lia].
Qed.

Lemma handle_request_on_track (n : Z) (c : IterationContent) (resp : Response)
      (s s' : Nautilus) (r : option Request) :
  on_track s -> n_iterations resp = None ->
  handle_request T (RequestObj n c (Some resp)) s = (Ok r, s') ->
  is_stop_request r = false -> on_track s'.
Proof.
  intros Htrack Hnone Hrun Hnot.
  pose proof (handle_request_lengths T (RequestObj n c (Some resp)) s) as Hlen.
  rewrite Hrun in Hlen. cbn [snd] in Hlen.
  destruct Htrack as (Hstep & Heq & itn & Hleft & Htotal).
  assert (Hxs : len (_xs s') = len (_xs s)).
  { unfold history_lengths in Hlen. injection Hlen as Hx _ _ _ _ _. unfold len.
    now rewrite Hx. }
  pose proof (@history_lengths_equal s s' Hlen Heq) as Heq'.
  rewrite handle_request_dispatch in Hrun. cbv zeta in Hrun.
  assert (Happly : apply_n_iterations resp s = s)
    by (unfold apply_n_iterations; now rewrite Hnone).
  rewrite Happly, Hleft in Hrun.
  destruct (Z.leb_spec itn 1).
  { unfold terminated in Hrun.
    destruct (py_getitem (_xs s) (_step_number s)); [|discriminate].
    destruct (py_getitem (_fs s) (_step_number s)); [|discriminate].
    cbn [rbind] in Hrun. injection Hrun as <- _. discriminate. }
  unfold on_track. rewrite Hxs.
  destruct (use_previous_preference resp) as [[|]|];
    (destruct (step_back resp) as [[|]|]; [destruct (short_step resp) as [[|]|]| |]);
    try discriminate.
  - pose proof (take_short_step_core T (set_step_back true s)) as Hcore.
    rewrite Hrun in Hcore. unfold same, navigation_core in Hcore. cbn [snd] in Hcore.
    fields. injection Hcore as Hs _ Hl _ _. rewrite Hs, Hl.
    split; [exact Hstep|]. split; [exact Heq'|]. exists itn. now split.
  - injection Hrun as _ <-. fields.
    split; [exact Hstep|]. split; [exact Heq|]. exists itn. now split.
  - destruct (continue_with_previous_preference_counters T s Hleft) as [Hl [_ Hs]].
    rewrite Hrun in Hl, Hs. cbn [snd] in Hl, Hs. rewrite Hs, Hl.
    split; [lia|]. split; [exact Heq'|]. exists (itn - 1)%Z. split; [reflexivity|lia].
  - pose proof (take_short_step_core T (set_step_back true s)) as Hcore.
    rewrite Hrun in Hcore. unfold same, navigation_core in Hcore. cbn [snd] in Hcore.
    fields. injection Hcore as Hs _ Hl _ _. rewrite Hs, Hl.
    split; [exact Hstep|]. split; [exact Heq'|]. exists itn. now split.
  - pose proof (step_back_with_new_preferences_counters T resp (set_step_back true s))
      as Hcore.
    rewrite Hrun in Hcore. unfold same in Hcore. cbn [snd] in Hcore.
    fields. injection Hcore as Hs _ Hl. rewrite Hs, Hl.
    split; [exact Hstep|]. split; [exact Heq'|]. exists itn. now split.
  - injection Hrun as _ <-.
    split; [exact Hstep|]. split; [exact Heq|]. exists itn. now split.
Qed.

Lemma continue_needs_three (n : Z) (c : IterationContent) (resp : Response)
      (s s' : Nautilus) (r : option Request) (itn : Z) :
  on_track s -> n_iterations resp = None ->
  use_previous_preference resp = Some true -> step_back resp = Some false ->
  _n_iterations_left s = Some itn -> (1 < itn)%Z ->
  handle_request T (RequestObj n c (Some resp)) s = (Ok r, s') -> (3 <= itn)%Z.
Proof.
  intros (Hstep & Heq & itn' & Hleft' & Htotal) Hnone Hprev Hback Hleft Hmore Hrun.
  rewrite Hleft in Hleft'. injection Hleft' as <-.
  assert (Happly : apply_n_iterations resp s = s)
    by (unfold apply_n_iterations; now rewrite Hnone).
  rewrite (@handle_request_continues T n c resp s itn) in Hrun;
    [|now rewrite Happly|exact Hmore|exact Hprev|exact Hback].
  rewrite Happly in Hrun.
  destruct (@continue_with_previous_preference_state T s s' r itn Hstep Hleft Hrun)
    as (x & f & z_prev & z & lb & d & _ & _ & _ & Hrange & _).
  destruct Heq as (_ & _ & _ & Hlb & _). unfold len in *. lia.
Qed.

End OnTrack.

(** X10: in a session whose number of iterations is not changed after
    the first turn, the length of the history lists stays the step number
    plus the number of iterations left.  The first turn on a fresh method
    object (step number 1) establishes this: the lists have
    [n_iterations + 1] slots.  Every later turn that returns without
    ending the session keeps it, and no later turn resizes a list: a
    "continue" turn trades one iteration left for one step, the other
    turns change neither. *)
Theorem X10_on_track (T : Tools) (request : Request) (s s' : Nautilus)
        (r : option Request)
        (Hpre : match request with
                | InitialRequestObj _ _ _ => _step_number s = 1%Z
                | RequestObj _ _ resp =>
                  on_track s /\ forall given, resp = Some given -> n_iterations given = None
                | StopRequestObj _ => True
                end)
        (Hrun : iterate T request s = (Ok r, s'))
        (Hnot : is_stop_request r = false) :
  on_track s'
  /\ match request with
     | InitialRequestObj _ _ _ => True
     | _ => history_lengths s' = history_lengths s
     end.
Proof.
  destruct request as [n c resp|n c resp|c]; cbn [iterate] in Hrun.
  - unfold bind in Hrun.
    destruct (handle_initial_request T (InitialRequestObj n c resp) s) as [[next|e] s1] eqn:E;
      [|discriminate].
    injection Hrun as _ <-. split; [|exact I].
    exact (@handle_initial_request_on_track T _ _ _ _ Hpre E).
  - destruct Hpre as [Htrack Hnone]. split.
    + destruct resp as [resp|].
      * exact (@handle_request_on_track T n c resp s s' r Htrack (Hnone resp eq_refl)
                                        Hrun Hnot).
      * unfold handle_request, bind, lift in Hrun. cbn [response not_none] in Hrun.
        discriminate.
    + pose proof (handle_request_lengths T (RequestObj n c resp) s) as Hlen.
      now rewrite Hrun in Hlen.
  - injection Hrun as <- _. discriminate.
Qed.

Lemma demo_method_on_track : on_track demo_method.
Proof.
  split; [vm_compute; discriminate|]. split.
  - unfold equal_lengths. vm_compute. repeat split.
  - exists 4%Z. split; vm_compute; reflexivity.
Qed.

Lemma X10_on_track_witness :
  let s' := snd (demo_continued 1) in
  on_track s' /\ history_lengths s' = history_lengths demo_method.
Proof.
  intros s'.
  apply (@X10_on_track demo_tools
                       (RequestObj 2 (mkIterationContent [] [] None None None None)
                                   (Some demo_continue))
                       demo_method s'
                       (match fst (demo_continued 1) with Ok r => r | Raise _ => None end)).
  - split; [exact demo_method_on_track|].
    intros given Hgiven. injection Hgiven as <-. reflexivity.
  - vm_compute. reflexivity.
  - vm_compute. reflexivity.
Defined.

(** X11: in such a session the "continue" turn taken with two iterations
    left, the one that computes the last iteration point, never returns:
    it needs the slot [step + 2] of the bounds lists, one past their end.
    It raises with the remaining count lowered to 1 and the step number
    advanced, so that the turn after it, whatever its response (without
    ["n_iterations"]), returns the stop request. *)
Theorem X11_last_continue (T : Tools) (n : Z) (c : IterationContent) (resp : Response)
        (s : Nautilus)
        (Htrack : on_track s)
        (Hnone : n_iterations resp = None)
        (Hprev : use_previous_preference resp = Some true)
        (Hback : step_back resp = Some false)
        (Hleft : _n_iterations_left s = Some 2%Z) :
  let turn := handle_request T (RequestObj n c (Some resp)) s in
  (exists e, fst turn = Raise e)
  /\ _n_iterations_left (snd turn) = Some 1%Z
  /\ _step_number (snd turn) = (_step_number s + 1)%Z
  /\ (forall n' c' resp',
         n_iterations resp' = None ->
         exists x_h f_h,
           handle_request T (RequestObj n' c' (Some resp')) (snd turn)
           = (Ok (Some (NautilusStopRequest x_h f_h)),
              set_n_iterations_left (Some 0%Z) (snd turn))).
Proof.
  intros turn.
  assert (Happly : apply_n_iterations resp s = s)
    by (unfold apply_n_iterations; now rewrite Hnone).
  assert (Hnever : forall r s', turn <> (Ok r, s')).
  { intros r s' Hrun.
    pose proof (@continue_needs_three T n c resp s s' r 2%Z Htrack Hnone Hprev Hback Hleft
                                      ltac:(lia) Hrun). lia. }
  assert (Hturn : turn = continue_with_previous_preference T s).
  { unfold turn. rewrite (@handle_request_continues T n c resp s 2%Z);
      [now rewrite Happly|now rewrite Happly|lia|exact Hprev|exact Hback]. }
  destruct (continue_with_previous_preference_counters T s Hleft) as [Hl [_ Hs]].
  rewrite <- Hturn in Hl, Hs.
  pose proof (handle_request_lengths T (RequestObj n c (Some resp)) s) as Hlen.
  fold turn in Hlen.
  split; [|split; [exact Hl|split; [exact Hs|]]].
  - destruct turn as [[r|e] s'] eqn:E; [|now exists e].
    exfalso. exact (Hnever r s' eq_refl).
  - intros n' c' resp' Hnone'.
    destruct Htrack as (Hstep & Heq & itn & Hleft' & Htotal).
    rewrite Hleft in Hleft'. injection Hleft' as <-.
    assert (Happly' : apply_n_iterations resp' (snd turn) = snd turn)
      by (unfold apply_n_iterations; now rewrite Hnone').
    rewrite (@handle_request_terminates T n' c' resp' (snd turn) 1%Z);
      [|now rewrite Happly'|lia].
    rewrite Happly'. unfold terminated.
    pose proof (@history_lengths_equal s (snd turn) Hlen Heq) as Heq'.
    unfold history_lengths in Hlen. injection Hlen as Hx _ _ _ _ _.
    destruct Heq' as (Hf & _).
    exists (nth (Z.to_nat (_step_number (snd turn))) (_xs (snd turn)) None),
           (nth (Z.to_nat (_step_number (snd turn))) (_fs (snd turn)) None).
    rewrite (@py_getitem_nth _ (_xs (snd turn)) _ None),
      (@py_getitem_nth _ (_fs (snd turn)) _ None); [reflexivity| |]; unfold len in *; lia.
Qed.

Lemma X11_last_continue_witness :
  let s := snd (demo_continued 2) in
  let c := mkIterationContent [] [] None None None None in
  let turn := handle_request demo_tools (RequestObj 2 c (Some demo_continue)) s in
  (exists e, fst turn = Raise e)
  /\ _n_iterations_left (snd turn) = Some 1%Z
  /\ _step_number (snd turn) = (_step_number s + 1)%Z
  /\ (forall n' c' resp',
         n_iterations resp' = None ->
         exists x_h f_h,
           handle_request demo_tools (RequestObj n' c' (Some resp')) (snd turn)
           = (Ok (Some (NautilusStopRequest x_h f_h)),
              set_n_iterations_left (Some 0%Z) (snd turn))).
Proof.
  intros s c.
  apply (@X11_last_continue demo_tools 2 c demo_continue s).
  - split; [vm_compute; discriminate|]. split.
    + unfold equal_lengths. vm_compute. repeat split.
    + exists 2%Z. split; vm_compute; reflexivity.
  - reflexivity.
  - reflexivity.
  - reflexivity.
  - vm_compute. reflexivity.
Defined.

(** ** Responses that are missing or incomplete *)

(** X12: what a later turn does with a response that the setter accepts
    and no branch handles, with more than one iteration remaining.
    Validation looks at ["use_previous_preference"] only (and at the
    preferences when it is false): a response without ["step_back"] is
    accepted and the turn raises KeyError("step_back"); with [step_back]
    true and no ["short_step"] it raises KeyError("short_step") after the
    [_step_back] flag has been set; with [use_previous_preference] and
    [step_back] both false the turn returns [None] and only an
    ["n_iterations"] entry has had any effect, the validated preferences
    being dropped.  A response without ["use_previous_preference"] is
    refused by the setter with a KeyError, not a NautilusException, and a
    request whose response was never set raises TypeError in the turn;
    both leave the method object untouched. *)
Theorem X12_unhandled_responses (T : Tools) (n : Z) (c : IterationContent)
        (old : option Response) (resp : Response) (s : Nautilus) (itn : Z)
        (use_previous : bool)
        (Hprev : use_previous_preference resp = Some use_previous)
        (Hpref : use_previous = false ->
                 validate_preferences n resp = Ok tt /\ exact_preferences resp)
        (Hits : forall k, n_iterations resp = Some k -> (1 <= k)%Z)
        (Hleft : _n_iterations_left (apply_n_iterations resp s) = Some itn)
        (Hmore : (1 < itn)%Z) :
  let s0 := apply_n_iterations resp s in
  let stored := RequestObj n c (Some resp) in
  let turn := respond_and_iterate T resp (s, RequestObj n c old) in
  (step_back resp = None -> turn = (Raise (KeyError "step_back"), (s0, stored)))
  /\ (step_back resp = Some true -> short_step resp = None ->
      turn = (Raise (KeyError "short_step"), (set_step_back true s0, stored)))
  /\ (step_back resp = Some false -> use_previous = false ->
      turn = (Ok None, (s0, stored)))
  /\ (forall resp',
         use_previous_preference resp' = None ->
         respond_and_iterate T resp' (s, RequestObj n c old)
         = (Raise (KeyError "use_previous_preference"), (s, RequestObj n c old)))
  /\ iterate T (RequestObj n c None) s = (Raise TypeError, s).
Proof.
  intros s0 stored turn.
  assert (Hok : validate_response n resp false = Ok tt).
  { unfold validate_response, validate_n_iterations. rewrite Hprev. cbn [getkey rbind].
    assert (Hv : (if negb use_previous then validate_preferences n resp else Ok tt) = Ok tt).
    { destruct use_previous; [reflexivity|]. cbn [negb]. now apply Hpref. }
    rewrite Hv. cbn [rbind].
    destruct (n_iterations resp) as [k|]; [|reflexivity].
    specialize (Hits k eq_refl). destruct (Z.ltb_spec k 1); [lia|reflexivity]. }
  assert (Hturn : turn = (fst (handle_request T stored s),
                          (snd (handle_request T stored s), stored))).
  { unfold turn, respond_and_iterate, set_response, NautilusRequest_set_response.
    rewrite Hok. cbn [iterate]. fold stored.
    now destruct (handle_request T stored s). }
  pose proof (handle_request_dispatch T n c resp s) as Hd. cbv zeta in Hd.
  rewrite Hleft, Hprev in Hd. destruct (Z.leb_spec itn 1); [lia|].
  fold stored s0 in Hd. rewrite Hd in Hturn. clear Hd.
  split; [|split; [|split; [|split]]].
  - intros Hback. rewrite Hback in Hturn.
    destruct use_previous; cbn [fst snd] in Hturn; exact Hturn.
  - intros Hback Hshort. rewrite Hback, Hshort in Hturn.
    destruct use_previous; cbn [fst snd] in Hturn; exact Hturn.
  - intros Hback ->. rewrite Hback in Hturn. cbn [fst snd] in Hturn. exact Hturn.
  - intros resp' Hnone.
    unfold respond_and_iterate, set_response, NautilusRequest_set_response,
      validate_response.
    now rewrite Hnone.
  - reflexivity.
Qed.

Lemma X12_unhandled_responses_witness :
  let resp := mkResponse None (Some false) None (Some false) (Some 1%Z) (Some [1; 2]) in
  let c := mkIterationContent [] [] None None None None in
  let s0 := apply_n_iterations resp demo_method in
  let stored := RequestObj 2 c (Some resp) in
  let turn := respond_and_iterate demo_tools resp (demo_method, RequestObj 2 c None) in
  (step_back resp = None -> turn = (Raise (KeyError "step_back"), (s0, stored)))
  /\ (step_back resp = Some true -> short_step resp = None ->
      turn = (Raise (KeyError "short_step"), (set_step_back true s0, stored)))
  /\ (step_back resp = Some false -> false = false ->
      turn = (Ok None, (s0, stored)))
  /\ (forall resp',
         use_previous_preference resp' = None ->
         respond_and_iterate demo_tools resp' (demo_method, RequestObj 2 c None)
         = (Raise (KeyError "use_previous_preference"), (demo_method, RequestObj 2 c None)))
  /\ iterate demo_tools (RequestObj 2 c None) demo_method = (Raise TypeError, demo_method).
Proof.
  intros resp c.
  apply (@X12_unhandled_responses demo_tools 2 c None resp demo_method 4%Z false).
  - reflexivity.
  - intros _. split.
    + apply validate_preferences_rank_ok with (info := [1; 2]) (m := Rmax 1 2);
        try reflexivity.
      rewrite Rmax_right by lra. simpl. lra.
    + intros info Hmethod. discriminate.
  - discriminate.
  - vm_compute. reflexivity.
  - lia.
Defined.

(** ** Turns with the previous preferences *)

(** X13: a later turn whose response has [use_previous_preference] true
    leaves the stored preference method, preference vector, preference
    factors and reference point as they are, whatever its outcome, and
    does not depend on the achievement function: the turn is the same
    for every achievement function, since only the branch for new
    preferences solves the achievement problem. *)
Theorem X13_previous_preferences (T : Tools)
        (asf : option (list npfloat) -> vec -> vec -> (vec -> option vec -> result R))
        (n : Z) (c : IterationContent) (resp : Response) (s : Nautilus)
        (Hprev : use_previous_preference resp = Some true) :
  stored_preferences (snd (handle_request T (RequestObj n c (Some resp)) s))
  = stored_preferences s
  /\ handle_request (with_asf asf T) (RequestObj n c (Some resp)) s
     = handle_request T (RequestObj n c (Some resp)) s.
Proof.
  rewrite !handle_request_dispatch. cbv zeta. rewrite Hprev.
  destruct (apply_n_iterations_frame resp s) as (_ & _ & _ & _ & _ & _ & _ & _ & _ & _ & _
                                                 & _ & _ & H0).
  set (s0 := apply_n_iterations resp s) in *.
  assert (Hcontinue : stored_preferences (snd (continue_with_previous_preference T s0))
                      = stored_preferences s0).
  { apply (preserves_apply s0 (R := same stored_preferences)).
    unfold continue_with_previous_preference. frame_block. }
  assert (Hshort : stored_preferences (snd (take_short_step T (set_step_back true s0)))
                   = stored_preferences s0).
  { change (stored_preferences s0) with (stored_preferences (set_step_back true s0)).
    apply (preserves_apply (set_step_back true s0) (R := same stored_preferences)).
    unfold take_short_step. frame_block. }
  destruct (_n_iterations_left s0) as [itn|]; [|split; [exact H0|reflexivity]].
  destruct (itn <=? 1)%Z; [split; [exact H0|reflexivity]|].
  destruct (step_back resp) as [[|]|]; [destruct (short_step resp) as [[|]|]| |];
    (split; [|reflexivity]);
    first [ exact H0 | now rewrite Hcontinue | now rewrite Hshort ].
Qed.

Lemma X13_previous_preferences_witness :
  let c := mkIterationContent [] [] None None None None in
  stored_preferences (snd (handle_request demo_tools (RequestObj 2 c (Some demo_continue))
                                          demo_method))
  = stored_preferences demo_method
  /\ handle_request (with_asf (ReferencePointASF tripwire_tools) demo_tools)
                    (RequestObj 2 c (Some demo_continue)) demo_method
     = handle_request demo_tools (RequestObj 2 c (Some demo_continue)) demo_method.
Proof.
  intros c.
  apply (@X13_previous_preferences demo_tools (ReferencePointASF tripwire_tools) 2 c
                                   demo_continue demo_method).
  reflexivity.
Defined.

(** ** After the end of the session *)

(** X14: once a turn has taken the termination branch, the session stays
    ended: the remaining count is 0, and every further turn on an
    intermediate request whose response has no ["n_iterations"] entry
    has the same outcome and leaves the method object as it is.  The
    other entries of that response are not read. *)
Theorem X14_termination_idempotent (T : Tools) (n n' : Z) (c c' : IterationContent)
        (resp resp' : Response) (s : Nautilus) (itn : Z)
        (Hleft : _n_iterations_left (apply_n_iterations resp s) = Some itn)
        (Hlast : (itn <= 1)%Z)
        (Hnone : n_iterations resp' = None) :
  let turn := handle_request T (RequestObj n c (Some resp)) s in
  _n_iterations_left (snd turn) = Some 0%Z
  /\ handle_request T (RequestObj n' c' (Some resp')) (snd turn) = turn.
Proof.
  intros turn. unfold turn.
  rewrite (handle_request_terminates T n c resp s Hleft Hlast).
  set (s0 := apply_n_iterations resp s).
  unfold terminated at 1 2. cbn [snd]. split; [reflexivity|].
  assert (Happly : forall self, apply_n_iterations resp' self = self)
    by (intros self; unfold apply_n_iterations; now rewrite Hnone).
  rewrite (@handle_request_terminates T n' c' resp' _ 0%Z);
    [|now rewrite Happly|lia].
  rewrite Happly. reflexivity.
Qed.

Lemma X14_termination_idempotent_witness :
  let last := mkResponse (Some 1%Z) (Some false) None (Some true) None None in
  let c := mkIterationContent [] [] None None None None in
  let turn := handle_request demo_tools (RequestObj 2 c (Some last)) demo_method in
  _n_iterations_left (snd turn) = Some 0%Z
  /\ handle_request demo_tools (RequestObj 2 c (Some demo_continue)) (snd turn) = turn.
Proof.
  intros last c.
  apply (@X14_termination_idempotent demo_tools 2 2 c c last demo_continue demo_method 1%Z).
  - reflexivity.
  - lia.
  - reflexivity.
Defined.

(** ** What no turn writes *)

Section Fixed.
Variable T : Tools.

Lemma handle_request_fixed (request : Request) (s : Nautilus) :
  let s' := snd (handle_request T request s) in
  fixed_attributes s' = fixed_attributes s
  /\ (_short_step s = true -> _short_step s' = true).
Proof.
  cbv zeta. destruct (response request) as [resp|] eqn:Hresp.
  - assert (Heq : handle_request T request s
                  = handle_request T (RequestObj 0 (mkIterationContent [] [] None None None None)
                                                 (Some resp)) s).
    { unfold handle_request. cbn [response]. now rewrite Hresp. }
    rewrite Heq, handle_request_dispatch. cbv zeta.
    assert (H0 : fixed_attributes (apply_n_iterations resp s) = fixed_attributes s
                 /\ _short_step (apply_n_iterations resp s) = _short_step s).
    { unfold apply_n_iterations. destruct (n_iterations resp); split; reflexivity. }
    destruct H0 as [H0 Hflag].
    set (s0 := apply_n_iterations resp s) in *.
    assert (Hcontinue : same (fun self => (fixed_attributes self, _short_step self)) s0
                             (snd (continue_with_previous_preference T s0))).
    { apply preserves_apply. unfold continue_with_previous_preference. frame_block. }
    assert (Hnew : same (fun self => (fixed_attributes self, _short_step self))
                        (set_step_back true s0)
                        (snd (step_back_with_new_preferences T resp
                                                             (set_step_back true s0)))).
    { apply preserves_apply. unfold step_back_with_new_preferences. frame_block. }
    assert (Hshort : same (fun self => (fixed_attributes self, _short_step self))
                          (set_short_step true (set_step_back true s0))
                          (snd (take_short_step T (set_step_back true s0)))).
    { unfold take_short_step. rewrite bind_modify.
      apply preserves_apply. frame_block. }
    unfold same in Hcontinue, Hnew, Hshort.
    pose proof (f_equal fst Hcontinue) as Hc1. pose proof (f_equal snd Hcontinue) as Hc2.
    pose proof (f_equal fst Hnew) as Hn1. pose proof (f_equal snd Hnew) as Hn2.
    pose proof (f_equal fst Hshort) as Hs1. pose proof (f_equal snd Hshort) as Hs2.
    cbn [fst snd] in Hc1, Hc2, Hn1, Hn2, Hs1, Hs2. clear Hcontinue Hnew Hshort.
    destruct (_n_iterations_left s0) as [itn|]; [|now rewrite <- Hflag].
    destruct (itn <=? 1)%Z; [now rewrite <- Hflag|].
    destruct (use_previous_preference resp) as [[|]|];
      (destruct (step_back resp) as [[|]|]; [destruct (short_step resp) as [[|]|]| |]);
      cbn [snd];
      lazymatch goal with
      | |- context [continue_with_previous_preference] =>
        rewrite Hc1, Hc2, Hflag; split; [exact H0|tauto]
      | |- context [take_short_step] =>
        rewrite Hs1, Hs2; split; [exact H0|reflexivity]
      | |- context [step_back_with_new_preferences] =>
        rewrite Hn1, Hn2; split; [exact H0|cbn [_short_step set_step_back]; now rewrite Hflag]
      | |- _ => split; [exact H0|cbn [_short_step set_step_back]; now rewrite Hflag]
      end.
  - unfold handle_request, bind, lift. rewrite Hresp. cbn [not_none snd]. tauto.
Qed.

Lemma handle_initial_request_fixed (request : Request) :
  preserves (same (fun self => (fixed_attributes self, _short_step self)))
            (handle_initial_request T request).
Proof. unfold handle_initial_request. frame. Qed.

End Fixed.

(** X15: no turn of [iterate], whatever the request and the outcome,
    writes the problem, the objective names, the [minimize] list, the
    variable bounds, epsilon, the ideal, nadir and utopian points, the
    reachable bounds [_reachable_lb] and [_reachable_ub], [_distance],
    [_use_previous_preference] or [_first_iteration]: they keep the
    values [__init__] gave them.  The flag [_short_step] is never
    cleared: once a short step has set it, it stays set. *)
Theorem X15_fixed_attributes (T : Tools) (request : Request) (s : Nautilus) :
  let s' := snd (iterate T request s) in
  fixed_attributes s' = fixed_attributes s
  /\ (_short_step s = true -> _short_step s' = true).
Proof.
  cbv zeta. destruct request as [n c resp|n c resp|c]; cbn [iterate].
  - pose proof (handle_initial_request_fixed T (InitialRequestObj n c resp) s) as H.
    unfold same in H.
    pose proof (f_equal fst H) as H1. pose proof (f_equal snd H) as H2.
    cbn [fst snd] in H1, H2. unfold bind.
    destruct (handle_initial_request T (InitialRequestObj n c resp) s) as [[next|e] s1];
      unfold ret; cbn [snd] in *; rewrite H1, H2; tauto.
  - apply handle_request_fixed.
  - cbn [snd]. tauto.
Qed.
